(** * ThreadManager (discord.js): a shallow embedding and its properties

  The development follows [packages/discord.js/src/managers/ThreadManager.js].
  JavaScript values are a tagged union, thread objects live in a store and
  are named by references (so that two collections can hold the same
  instance), collections are insertion-ordered association lists, and an
  asynchronous method is the synchronous prefix it runs up to its single
  REST call together with the continuation that handles the response. *)

From Stdlib Require Import ZArith Ascii String DecimalString Lia.
From stdpp Require Import base tactics option list strings.

Local Open Scope Z_scope.

(** ** The JavaScript runtime, as far as the manager uses it *)

Module JS.

(** A reference to an object of the store. *)
Definition Ref := nat.

(** A [Date] object: its time value is NaN or an integral number of
    milliseconds within the range TimeClip accepts. *)
Inductive Date : Type :=
| InvalidDate
| ValidDate (tv : Z).

#[local] Set Warnings "-register-all".

(** The values that reach the manager.  Numbers are NaN or integral (the
    integers stand for the safe integers, whose string form is their exact
    decimal expansion); objects are [Date]s, thread instances (by
    reference) and plain objects without methods of their own. *)
Inductive Value : Type :=
| VUndefined
| VNull
| VBool (b : bool)
| VNumber (n : Z)
| VNaN
| VString (s : string)
| VDate (d : Date)
| VThread (r : Ref)
| VObject (props : list (string * Value)).

(** [typeof v] *)
Definition typeof (v : Value) : string :=
  match v with
  | VUndefined => "undefined"
  | VBool _ => "boolean"
  | VNumber _ | VNaN => "number"
  | VString _ => "string"
  | VNull | VDate _ | VThread _ | VObject _ => "object"
  end.

(** ToBoolean, the test behind [if (v)], [!v] and [v && ...]. *)
Definition truthy (v : Value) : bool :=
  match v with
  | VUndefined | VNull | VNaN => false
  | VBool b => b
  | VNumber n => negb (n =? 0)
  | VString s => negb (String.eqb s "")
  | VDate _ | VThread _ | VObject _ => true
  end.

(** [v ?? d] *)
Definition nullish (v : Value) : bool :=
  match v with
  | VUndefined | VNull => true
  | _ => false
  end.

Definition coalesce (v d : Value) : Value := if nullish v then d else v.

(** A default of a destructured parameter applies to [undefined] only. *)
Definition default (v d : Value) : Value :=
  match v with
  | VUndefined => d
  | _ => v
  end.

(** [v === n] for a number [n]. *)
Definition strict_eq_number (v : Value) (n : Z) : bool :=
  match v with
  | VNumber m => m =? n
  | _ => false
  end.

(** [v === s] for a string [s]. *)
Definition strict_eq_string (v : Value) (s : string) : bool :=
  match v with
  | VString t => String.eqb t s
  | _ => false
  end.

(** [o.k] on a plain object; the first binding of the key. *)
Fixpoint assoc (k : string) (props : list (string * Value)) : Value :=
  match props with
  | [] => VUndefined
  | (k', v) :: rest => if String.eqb k k' then v else assoc k rest
  end.

(** Property read [v.k] on a value that is neither [undefined] nor [null]
    (reading those throws, and the manager tests before it reads).  Plain
    objects are the values with properties of their own. *)
Definition get_prop (v : Value) (k : string) : Value :=
  match v with
  | VObject props => assoc k props
  | _ => VUndefined
  end.

(** *** Decimal digits *)

Definition is_digit (c : ascii) : bool :=
  let n := nat_of_ascii c in (48 <=? n)%nat && (n <=? 57)%nat.

Definition digit (n : Z) : ascii := ascii_of_nat (48 + Z.to_nat (n mod 10)).

Definition pad2 (n : Z) : string :=
  String (digit (n / 10)) (String (digit n) "").

Definition pad3 (n : Z) : string := String (digit (n / 100)) (pad2 n).

Definition pad4 (n : Z) : string := String (digit (n / 1000)) (pad3 n).

Definition pad6 (n : Z) : string :=
  String (digit (n / 100000)) (String (digit (n / 10000)) (pad4 n)).

(** Number::toString on an integral number. *)
Definition Z_to_string (n : Z) : string := NilZero.string_of_int (Z.to_int n).

(** *** Dates *)

Definition msPerDay : Z := 86400000.

(** TimeClip: a time value beyond 8.64e15 ms is NaN. *)
Definition TimeClip (t : Z) : Date :=
  if Z.abs t <=? 8640000000000000 then ValidDate t else InvalidDate.

(** Year, month (1..12) and day of month of a day number (days since the
    epoch), in the proleptic Gregorian calendar. *)
Definition civil_from_days (days : Z) : Z * Z * Z :=
  let z := days + 719468 in
  let era := z / 146097 in
  let doe := z - era * 146097 in
  let yoe := (doe - doe / 1460 + doe / 36524 - doe / 146096) / 365 in
  let doy := doe - (365 * yoe + yoe / 4 - yoe / 100) in
  let mp := (5 * doy + 2) / 153 in
  let d := doy - (153 * mp + 2) / 5 + 1 in
  let m := if mp <? 10 then mp + 3 else mp - 9 in
  let y := yoe + era * 400 in
  (if m <=? 2 then y + 1 else y, m, d).

(** The year of an ISO string: four digits within 0..9999, else a sign
    and six digits. *)
Definition iso_year (y : Z) : string :=
  if (0 <=? y) && (y <=? 9999) then pad4 y
  else if y <? 0 then String "-" (pad6 (- y))
  else String "+" (pad6 y).

Definition iso_of_time (t : Z) : string :=
  let '(y, m, d) := civil_from_days (t / msPerDay) in
  let ms := t mod msPerDay in
  iso_year y +:+ "-" +:+ pad2 m +:+ "-" +:+ pad2 d +:+ "T"
    +:+ pad2 (ms / 3600000) +:+ ":" +:+ pad2 (ms / 60000 mod 60) +:+ ":"
    +:+ pad2 (ms / 1000 mod 60) +:+ "." +:+ pad3 (ms mod 1000) +:+ "Z".

(** [Date.prototype.toISOString]: a RangeError on an invalid date. *)
Definition toISOString (d : Date) : option string :=
  match d with
  | InvalidDate => None
  | ValidDate t => Some (iso_of_time t)
  end.

Definition weekday_name (days : Z) : string :=
  match (days + 4) mod 7 with
  | 0 => "Sun" | 1 => "Mon" | 2 => "Tue" | 3 => "Wed"
  | 4 => "Thu" | 5 => "Fri" | _ => "Sat"
  end.

Definition month_name (m : Z) : string :=
  match m with
  | 1 => "Jan" | 2 => "Feb" | 3 => "Mar" | 4 => "Apr" | 5 => "May"
  | 6 => "Jun" | 7 => "Jul" | 8 => "Aug" | 9 => "Sep" | 10 => "Oct"
  | 11 => "Nov" | _ => "Dec"
  end.

(** [Date.prototype.toString] on a host whose time zone is UTC. *)
Definition Date_toString (d : Date) : string :=
  match d with
  | InvalidDate => "Invalid Date"
  | ValidDate t =>
      let days := t / msPerDay in
      let '(y, m, dd) := civil_from_days days in
      let ms := t mod msPerDay in
      weekday_name days +:+ " " +:+ month_name m +:+ " " +:+ pad2 dd +:+ " "
        +:+ (if y <? 0 then "-" else "")
        +:+ (if Z.abs y <=? 9999 then pad4 (Z.abs y) else Z_to_string (Z.abs y))
        +:+ " " +:+ pad2 (ms / 3600000) +:+ ":" +:+ pad2 (ms / 60000 mod 60)
        +:+ ":" +:+ pad2 (ms / 1000 mod 60)
        +:+ " GMT+0000 (Coordinated Universal Time)"
  end.

(** [String(v)].  A thread instance prints through its class, which is
    defined outside [ThreadManager.js]; the manager never converts one (it
    tests [instanceof] first), and the model gives it the tag of an
    object. *)
Definition String_ (v : Value) : string :=
  match v with
  | VUndefined => "undefined"
  | VNull => "null"
  | VBool true => "true"
  | VBool false => "false"
  | VNumber n => Z_to_string n
  | VNaN => "NaN"
  | VString s => s
  | VDate d => Date_toString d
  | VThread _ | VObject _ => "[object Object]"
  end.

(** [/^\d{16,19}$/.test(s)] *)
Definition test_snowflake (s : string) : bool :=
  forallb is_digit (list_ascii_of_string s)
    && (16 <=? String.length s)%nat && (String.length s <=? 19)%nat.

(** The shape of what [toISOString] returns:
    [YYYY-MM-DDTHH:mm:ss.sssZ], or the same after a sign and six digits
    of year. *)
Inductive CharClass : Type :=
| Digit
| Lit (c : ascii).

Definition class_ok (p : CharClass) (c : ascii) : bool :=
  match p with
  | Digit => is_digit c
  | Lit c' => Ascii.eqb c c'
  end.

Fixpoint matches (pat : list CharClass) (s : string) : bool :=
  match pat, s with
  | [], EmptyString => true
  | p :: pat', String c s' => class_ok p c && matches pat' s'
  | _, _ => false
  end.

Definition iso_tail : list CharClass :=
  [Lit "-"; Digit; Digit; Lit "-"; Digit; Digit; Lit "T"; Digit; Digit;
   Lit ":"; Digit; Digit; Lit ":"; Digit; Digit; Lit "."; Digit; Digit;
   Digit; Lit "Z"]%char.

Definition is_iso8601 (s : string) : bool :=
  matches ([Digit; Digit; Digit; Digit] ++ iso_tail) s
  || matches ([Lit "+"%char; Digit; Digit; Digit; Digit; Digit; Digit] ++ iso_tail) s
  || matches ([Lit "-"%char; Digit; Digit; Digit; Digit; Digit; Digit] ++ iso_tail) s.

End JS.

(** ** Collections

    [Collection] extends the JavaScript [Map]: keys in insertion order,
    [set] on a present key replaces the value where it stands. *)

Module Collection.

Definition t (V : Type) : Type := list (string * V).

Definition empty {V : Type} : t V := [].

Fixpoint get {V : Type} (k : string) (c : t V) : option V :=
  match c with
  | [] => None
  | (k', v) :: c' => if String.eqb k k' then Some v else get k c'
  end.

Fixpoint set {V : Type} (k : string) (v : V) (c : t V) : t V :=
  match c with
  | [] => [(k, v)]
  | (k', v') :: c' =>
      if String.eqb k k' then (k, v) :: c' else (k', v') :: set k v c'
  end.

Definition has {V : Type} (k : string) (c : t V) : bool :=
  match get k c with
  | Some _ => true
  | None => false
  end.

Definition keys {V : Type} (c : t V) : list string := map fst c.


Definition size {V : Type} (c : t V) : nat := length c.

End Collection.

(** ** Entities, payloads and the client *)

Import JS.

(** A member of a thread, as the gateway and the REST API send it: [id] is
    the identifier of the thread, [user_id] that of the member. *)
Module RawMember.
Record t : Type := { id : string; user_id : string; flags : Z }.
End RawMember.

(** A thread channel, as the REST API sends it. *)
Module RawThread.
Record t : Type :=
  { id : string;
    parent_id : option string;
    type : Z;
    archived_at : option Date }.
End RawThread.

(** The body of a thread listing. *)
Module RawThreads.
Record t : Type :=
  { threads : list RawThread.t;
    members : list RawMember.t;
    has_more : Value }.
End RawThreads.

(** Modelled from the spec: the thread entity of the data model ([id],
    [parentId], optional [archivedAt], kind), whose class [ThreadChannel] is
    defined outside [ThreadManager.js], and the members attached to it. *)
Module ThreadChannel.
Record t : Type :=
  { id : string;
    parentId : option string;
    type : Z;
    archivedAt : option Date;
    members : Collection.t RawMember.t }.
End ThreadChannel.

(** The parent channel the manager is bound to ([this.channel]). *)
Module Channel.
Record t : Type :=
  { id : string;
    type : Z;
    guild_id : string;
    defaultAutoArchiveDuration : Value }.
End Channel.

(** The client: the store of thread objects and [client.channels.cache],
    which names them by reference. *)
Module Client.
Record t : Type :=
  { objects : list ThreadChannel.t;
    channels : Collection.t Ref }.
End Client.

(** [this.channel] and [this.cache] of a [ThreadManager]. *)
Module ThreadManager.
Record t : Type :=
  { channel : Channel.t;
    cache : Collection.t Ref }.
End ThreadManager.

(** The object a reference names, if it names one. *)
Definition deref (c : Client.t) (r : Ref) : option ThreadChannel.t :=
  Client.objects c !! r.

(** Every reference of the channel cache names an object of the store. *)
Definition wf_client (c : Client.t) : bool :=
  forallb (fun kv => bool_decide (snd kv < length (Client.objects c))%nat)
          (Client.channels c).

(** The values of [ChannelType] that the manager mentions. *)
Module ChannelType.
Definition GuildNews : Z := 5.
Definition GuildNewsThread : Z := 10.
Definition GuildPublicThread : Z := 11.
Definition GuildPrivateThread : Z := 12.
End ChannelType.

(** The thread kinds the API knows. *)
Definition recognized_thread_type (v : Value) : bool :=
  strict_eq_number v ChannelType.GuildNewsThread
  || strict_eq_number v ChannelType.GuildPublicThread
  || strict_eq_number v ChannelType.GuildPrivateThread.

(** The calls to the [Routes] builders the manager makes, with their
    arguments. *)
Module Routes.
Inductive t : Type :=
| channelThreads (channelId : string) (archived : Value)
| channelJoinedArchivedThreads (channelId : string)
| guildActiveThreads (guildId : string)
| threads (parentId : string) (messageId : Value).
End Routes.

Inductive Error : Type :=
| INVALID_TYPE (name expected : string)
| RangeError.

(** The outcome of code that may throw. *)
Inductive Result (A : Type) : Type :=
| Ok (a : A)
| Throw (e : Error).
Arguments Ok {A} a.
Arguments Throw {A} e.

#[global] Instance Result_ret : MRet Result := fun A a => Ok a.

#[global] Instance Result_bind : MBind Result := fun A B f x =>
  match x with
  | Ok a => f a
  | Throw e => Throw e
  end.

(** [URLSearchParams] *)
Definition URLSearchParams : Type := Collection.t Value.

(** Modelled from the spec: [makeURLSearchParams] of the REST package,
    defined outside [ThreadManager.js].  The query of a listing holds
    [limit] when the caller gave one and nothing otherwise. *)
Definition makeURLSearchParams (options : list (string * Value)) : URLSearchParams :=
  List.filter (fun kv => negb (nullish (snd kv))) options.

(** The body of the request that creates a thread. *)
Module Body.
Record t : Type :=
  { name : Value;
    auto_archive_duration : Value;
    type : Value;
    invitable : Value;
    rate_limit_per_user : Value }.
End Body.

(** An asynchronous method: it rejects before any request, or it issues
    its one REST request and resumes on the response with the client as it
    is by then. *)
Inductive Promise (A : Type) : Type :=
| Rejected (e : Error)
| RestGet (path : Routes.t) (query : option URLSearchParams)
    (k : RawThreads.t -> Client.t -> option (A * Client.t))
| RestPost (path : Routes.t) (body : Body.t) (reason : Value)
    (k : RawThread.t -> Client.t -> option (A * Client.t))
| Delegated (callee : string) (args : list Value).
Arguments Rejected {A} e.
Arguments RestGet {A} path query k.
Arguments RestPost {A} path body reason k.
Arguments Delegated {A} callee args.

(** The request a promise has issued, if it has issued one. *)
Definition issues_request {A : Type} (p : Promise A) : bool :=
  match p with
  | RestGet _ _ _ | RestPost _ _ _ _ => true
  | Rejected _ | Delegated _ _ => false
  end.

(** The route, the query and the body of the request a promise has
    issued, and the [before] parameter of its query. *)
Definition request_path {A : Type} (p : Promise A) : option Routes.t :=
  match p with
  | RestGet path _ _ | RestPost path _ _ _ => Some path
  | Rejected _ | Delegated _ _ => None
  end.

Definition request_query {A : Type} (p : Promise A) : URLSearchParams :=
  match p with
  | RestGet _ (Some query) _ => query
  | _ => Collection.empty
  end.

Definition request_body {A : Type} (p : Promise A) : option Body.t :=
  match p with
  | RestPost _ body _ _ => Some body
  | _ => None
  end.

Definition sent_before {A : Type} (p : Promise A) : option Value :=
  Collection.get "before" (request_query p).

(** The outcome of a listing ([FetchedThreads]). *)
Module FetchedThreads.
Record t : Type :=
  { threads : Collection.t Ref;
    hasMore : Value }.
End FetchedThreads.

Module FetchArchivedThreadOptions.
Record t : Type :=
  { type : Value;
    fetchAll : Value;
    before : Value;
    limit : Value }.
End FetchArchivedThreadOptions.

Module ThreadCreateOptions.
Record t : Type :=
  { name : Value;
    autoArchiveDuration : Value;
    startMessage : Value;
    type : Value;
    invitable : Value;
    reason : Value;
    rateLimitPerUser : Value }.
End ThreadCreateOptions.

Module BaseFetchOptions.
Record t : Type :=
  { cache : Value;
    force : Value }.
End BaseFetchOptions.

(** The third argument of [_mapThreads]. *)
Module MapOptions.
Record t : Type :=
  { parent : option Channel.t;
    guild : option string;
    cache : Value }.
End MapOptions.

(** ** The sibling managers the thread manager calls *)

(** Modelled from the spec: a thread entity made from its payload (the
    class and [createChannel] are defined outside [ThreadManager.js]). *)
Definition createChannel (raw : RawThread.t) : ThreadChannel.t :=
  {| ThreadChannel.id := RawThread.id raw;
     ThreadChannel.parentId := RawThread.parent_id raw;
     ThreadChannel.type := RawThread.type raw;
     ThreadChannel.archivedAt := RawThread.archived_at raw;
     ThreadChannel.members := Collection.empty |}.

(** Modelled from the spec: what a repeated observation does to an entity
    (its [_patch], defined outside [ThreadManager.js]).  The fields of the
    payload replace those of the entity; the memberships attached to it
    stay. *)
Definition refresh (t : ThreadChannel.t) (raw : RawThread.t) : ThreadChannel.t :=
  {| ThreadChannel.id := RawThread.id raw;
     ThreadChannel.parentId := RawThread.parent_id raw;
     ThreadChannel.type := RawThread.type raw;
     ThreadChannel.archivedAt := RawThread.archived_at raw;
     ThreadChannel.members := ThreadChannel.members t |}.

(** Modelled from the spec: [client.channels._add], which is defined
    outside [ThreadManager.js].  It obtains the entity of the payload's
    identifier from the shared cache or creates it.  The [cache] flag is on
    unless the caller turns it off ([{ cache = true }]); when it is on, an
    entity already cached is refreshed from the payload and a new one
    enters the cache; when it is off, a cached entity is returned as it is
    and a new one stays out of the cache. *)
Definition channels_add (c : Client.t) (raw : RawThread.t) (guild : option string)
    (cache : Value) : Ref * Client.t :=
  let cache := default cache (VBool true) in
  match Collection.get (RawThread.id raw) (Client.channels c) with
  | Some existing =>
      (existing,
       if truthy cache
       then {| Client.objects :=
                 alter (fun t => refresh t raw) existing (Client.objects c);
               Client.channels := Client.channels c |}
       else c)
  | None =>
      let r := length (Client.objects c) in
      (r, {| Client.objects := Client.objects c ++ [createChannel raw];
             Client.channels :=
               if truthy cache
               then Collection.set (RawThread.id raw) r (Client.channels c)
               else Client.channels c |})
  end.

(** Modelled from the spec: [thread.members._add], which is defined
    outside [ThreadManager.js].  It attaches the membership data to the
    entity, under the identifier of the member. *)
Definition members_add (t : ThreadChannel.t) (rawMember : RawMember.t) : ThreadChannel.t :=
  {| ThreadChannel.id := ThreadChannel.id t;
     ThreadChannel.parentId := ThreadChannel.parentId t;
     ThreadChannel.type := ThreadChannel.type t;
     ThreadChannel.archivedAt := ThreadChannel.archivedAt t;
     ThreadChannel.members :=
       Collection.set (RawMember.user_id rawMember) rawMember (ThreadChannel.members t) |}.

(** Modelled from the spec: the resolver of the manager ([resolveId] of the
    data manager it extends, defined outside [ThreadManager.js]).  A thread
    instance resolves to its identifier, a string of 16 to 19 digits to
    itself, anything else to nothing. *)
Definition resolveId (c : Client.t) (v : Value) : option string :=
  match v with
  | VThread r => ThreadChannel.id <$> deref c r
  | VString s => if test_snowflake s then Some s else None
  | _ => None
  end.

(** Modelled from the spec: [resolve] of the same resolver.  A thread
    instance resolves to itself, a string to the cached entity of that
    identifier, anything else to nothing. *)
Definition resolve (m : ThreadManager.t) (v : Value) : option Ref :=
  match v with
  | VThread r => Some r
  | VString s => Collection.get s (ThreadManager.cache m)
  | _ => None
  end.

(** Modelled from the spec: the properties of a thread instance a caller
    of the manager may read (the class is defined outside
    [ThreadManager.js]): its identifier, its kind, and whether it is
    archived.  The entity is in the archived state when its [archivedAt] is
    present. *)
Definition thread_prop (t : ThreadChannel.t) (k : string) : Value :=
  if String.eqb k "id" then VString (ThreadChannel.id t)
  else if String.eqb k "type" then VNumber (ThreadChannel.type t)
  else if String.eqb k "archived"
  then VBool (bool_decide (is_Some (ThreadChannel.archivedAt t)))
  else VUndefined.

(** Property read [v.k], through the store for a thread instance. *)
Definition read (c : Client.t) (v : Value) (k : string) : Value :=
  match v with
  | VThread r =>
      match deref c r with
      | Some t => thread_prop t k
      | None => VUndefined
      end
  | _ => get_prop v k
  end.

(** Destructuring [{ type, fetchAll, before, limit }] from a value. *)
Definition destructure (c : Client.t) (v : Value) : FetchArchivedThreadOptions.t :=
  {| FetchArchivedThreadOptions.type := read c v "type";
     FetchArchivedThreadOptions.fetchAll := read c v "fetchAll";
     FetchArchivedThreadOptions.before := read c v "before";
     FetchArchivedThreadOptions.limit := read c v "limit" |}.

(** ** The manager *)

(** [_add(thread)]; nothing is returned for a reference that names no
    object. *)
Definition _add (m : ThreadManager.t) (c : Client.t) (thread : Ref)
    : option (Ref * ThreadManager.t) :=
  t ← deref c thread;
  match Collection.get (ThreadChannel.id t) (ThreadManager.cache m) with
  | Some existing => Some (existing, m)
  | None =>
      Some (thread,
            {| ThreadManager.channel := ThreadManager.channel m;
               ThreadManager.cache :=
                 Collection.set (ThreadChannel.id t) thread (ThreadManager.cache m) |})
  end.

(** One step of the [reduce] of [_mapThreads]. *)
Definition mapThreads_step (opts : MapOptions.t)
    (acc : Collection.t Ref * Client.t) (raw : RawThread.t)
    : option (Collection.t Ref * Client.t) :=
  let '(coll, client) := acc in
  let guild :=
    match MapOptions.guild opts with
    | Some g => Some g
    | None => Channel.guild_id <$> MapOptions.parent opts
    end in
  let '(thread, client') := channels_add client raw guild (MapOptions.cache opts) in
  t ← deref client' thread;
  match MapOptions.parent opts with
  | Some parent =>
      if negb (bool_decide (ThreadChannel.parentId t = Some (Channel.id parent)))
      then Some (coll, client')
      else Some (Collection.set (ThreadChannel.id t) thread coll, client')
  | None => Some (Collection.set (ThreadChannel.id t) thread coll, client')
  end.

Fixpoint reduce_threads (opts : MapOptions.t) (raws : list RawThread.t)
    (acc : Collection.t Ref * Client.t) : option (Collection.t Ref * Client.t) :=
  match raws with
  | [] => Some acc
  | raw :: rest => acc' ← mapThreads_step opts acc raw; reduce_threads opts rest acc'
  end.

(** [client.channels.cache.get(rawMember.id)?.members._add(rawMember)] *)
Definition attach_member (client : Client.t) (rawMember : RawMember.t) : option Client.t :=
  match Collection.get (RawMember.id rawMember) (Client.channels client) with
  | None => Some client
  | Some r =>
      t ← deref client r;
      Some {| Client.objects := <[r := members_add t rawMember]> (Client.objects client);
              Client.channels := Client.channels client |}
  end.

Fixpoint attach_members (rawMembers : list RawMember.t) (client : Client.t)
    : option Client.t :=
  match rawMembers with
  | [] => Some client
  | rawMember :: rest => client' ← attach_member client rawMember; attach_members rest client'
  end.

(** [static _mapThreads(rawThreads, client, { parent, guild, cache })];
    nothing is returned when a cached reference names no object. *)
Definition _mapThreads (rawThreads : RawThreads.t) (client : Client.t)
    (opts : MapOptions.t) : option (FetchedThreads.t * Client.t) :=
  '(threads, client1) ← reduce_threads opts (RawThreads.threads rawThreads)
                          (Collection.empty, client);
  client2 ← attach_members (RawThreads.members rawThreads) client1;
  Some ({| FetchedThreads.threads := threads;
           FetchedThreads.hasMore :=
             coalesce (RawThreads.has_more rawThreads) (VBool false) |},
        client2).

Section Methods.

(** [Date.parse]: the time value a string denotes, if it denotes one.  The
    language leaves the strings it accepts beyond the ISO format to the
    host. *)
Variable Date_parse : string -> option Z.

(** [this.channel.messages.resolveId], the message resolver of the parent. *)
Variable messages_resolveId : Value -> Value.

(** [this.client.channels.resolveId], the channel resolver of the client. *)
Variable channels_resolveId : Client.t -> Value -> Value.

(** [this.client.actions.ThreadCreate.handle(data).thread] *)
Variable ThreadCreate_handle : RawThread.t -> Client.t -> option (Ref * Client.t).

(** [new Date(v)]: the time value of a [Date], the number a primitive
    converts to, or what [Date.parse] makes of a string (an object is
    converted to its string first).  No thread instance reaches it. *)
Definition Date_ (v : Value) : Date :=
  match v with
  | VDate d => d
  | VNumber n => TimeClip n
  | VNaN | VUndefined => InvalidDate
  | VNull => TimeClip 0
  | VBool b => TimeClip (if b then 1 else 0)
  | VString s => from_option TimeClip InvalidDate (Date_parse s)
  | VThread _ | VObject _ => from_option TimeClip InvalidDate (Date_parse (String_ v))
  end.

(** [before instanceof ThreadChannel] *)
Definition instanceof_ThreadChannel (v : Value) : bool :=
  match v with
  | VThread _ => true
  | _ => false
  end.

(** [this.resolve(before)?.archivedAt] *)
Definition resolved_archivedAt (m : ThreadManager.t) (c : Client.t) (before : Value)
    : option Date :=
  match resolve m before with
  | Some r =>
      match deref c r with
      | Some t => ThreadChannel.archivedAt t
      | None => None
      end
  | None => None
  end.

(** [this.resolve(before)?.archivedAt?.toISOString()] *)
Definition archived_timestamp (m : ThreadManager.t) (c : Client.t) (before : Value)
    : Result (option string) :=
  match resolved_archivedAt m c before with
  | None => Ok None
  | Some d =>
      match toISOString d with
      | Some s => Ok (Some s)
      | None => Throw RangeError
      end
  end.

(** The condition that selects the listing of joined private threads. *)
Definition joined (type fetchAll : Value) : bool :=
  strict_eq_string type "private" && negb (truthy fetchAll).

(** The block of [fetchArchived] that adds [before] to the query. *)
Definition set_before (m : ThreadManager.t) (c : Client.t)
    (type fetchAll before : Value) (query : URLSearchParams) : Result URLSearchParams :=
  if negb (String.eqb (typeof before) "undefined") then
    if instanceof_ThreadChannel before || test_snowflake (String_ before) then
      let id := resolveId c before in
      timestamp ← archived_timestamp m c before;
      let toUse := if joined type fetchAll then id else timestamp in
      match toUse with
      | Some s =>
          if truthy (VString s) then Ok (Collection.set "before" (VString s) query)
          else Ok query
      | None => Ok query
      end
    else
      match toISOString (Date_ before) with
      | Some timestamp =>
          if strict_eq_string type "public" || truthy fetchAll
          then Ok (Collection.set "before" (VString timestamp) query)
          else Ok query
      | None => Throw (INVALID_TYPE "before" "DateResolvable or ThreadChannelResolvable")
      end
  else Ok query.

(** [let path = ...; if (type === 'private' && !fetchAll) path = ...] *)
Definition archived_path (m : ThreadManager.t) (type fetchAll : Value) : Routes.t :=
  let path := Routes.channelThreads (Channel.id (ThreadManager.channel m)) type in
  if joined type fetchAll
  then Routes.channelJoinedArchivedThreads (Channel.id (ThreadManager.channel m))
  else path.

(** [async fetchArchived({ type = 'public', fetchAll = false, before, limit } = {}, cache = true)] *)
Definition fetchArchived (m : ThreadManager.t) (c : Client.t)
    (options : FetchArchivedThreadOptions.t) (cache : Value)
    : Promise FetchedThreads.t :=
  let type := default (FetchArchivedThreadOptions.type options) (VString "public") in
  let fetchAll := default (FetchArchivedThreadOptions.fetchAll options) (VBool false) in
  let before := FetchArchivedThreadOptions.before options in
  let limit := FetchArchivedThreadOptions.limit options in
  let cache := default cache (VBool true) in
  let path := archived_path m type fetchAll in
  let query := makeURLSearchParams [("limit", limit)] in
  match set_before m c type fetchAll before query with
  | Throw e => Rejected e
  | Ok query =>
      RestGet path (Some query)
        (fun raw client =>
           _mapThreads raw client
             {| MapOptions.parent := Some (ThreadManager.channel m);
                MapOptions.guild := None;
                MapOptions.cache := cache |})
  end.

(** [async fetchActive(cache = true)] *)
Definition fetchActive (m : ThreadManager.t) (cache : Value) : Promise FetchedThreads.t :=
  let cache := default cache (VBool true) in
  RestGet (Routes.guildActiveThreads (Channel.guild_id (ThreadManager.channel m))) None
    (fun raw client =>
       _mapThreads raw client
         {| MapOptions.parent := Some (ThreadManager.channel m);
            MapOptions.guild := None;
            MapOptions.cache := cache |}).

(** [fetch(options, { cache = true, force = false } = {})] *)
Definition fetch (m : ThreadManager.t) (c : Client.t) (options : Value)
    (cacheOptions : BaseFetchOptions.t) : Promise FetchedThreads.t :=
  let cache := default (BaseFetchOptions.cache cacheOptions) (VBool true) in
  let force := default (BaseFetchOptions.force cacheOptions) (VBool false) in
  if negb (truthy options) then fetchActive m cache
  else
    let channel := channels_resolveId c options in
    if truthy channel then Delegated "client.channels.fetch" [channel; cache; force]
    else if truthy (read c options "archived")
    then fetchArchived m c
           (destructure c (read c options "archived")) cache
    else fetchActive m cache.

(** The guard of [create] on [type]. *)
Definition invalid_type (type : Value) : bool :=
  truthy type
  && negb (String.eqb (typeof type) "string")
  && negb (String.eqb (typeof type) "number").

(** The kind and the start message [create] settles on. *)
Definition resolve_create (m : ThreadManager.t) (startMessage type : Value)
    : Result (Value * Value) :=
  let resolvedType :=
    if Channel.type (ThreadManager.channel m) =? ChannelType.GuildNews
    then VNumber ChannelType.GuildNewsThread
    else VNumber ChannelType.GuildPublicThread in
  if truthy startMessage then
    let startMessageId := messages_resolveId startMessage in
    if negb (truthy startMessageId)
    then Throw (INVALID_TYPE "startMessage" "MessageResolvable")
    else Ok (resolvedType, startMessageId)
  else if negb (Channel.type (ThreadManager.channel m) =? ChannelType.GuildNews)
  then Ok (coalesce type resolvedType, VUndefined)
  else Ok (resolvedType, VUndefined).

(** [async create({ name, autoArchiveDuration, startMessage, type, invitable,
    reason, rateLimitPerUser } = {})] *)
Definition create (m : ThreadManager.t) (options : ThreadCreateOptions.t) : Promise Ref :=
  let name := ThreadCreateOptions.name options in
  let autoArchiveDuration :=
    default (ThreadCreateOptions.autoArchiveDuration options)
            (Channel.defaultAutoArchiveDuration (ThreadManager.channel m)) in
  let type := ThreadCreateOptions.type options in
  if invalid_type type
  then Rejected (INVALID_TYPE "type" "ThreadChannelType or Number")
  else
    match resolve_create m (ThreadCreateOptions.startMessage options) type with
    | Throw e => Rejected e
    | Ok (resolvedType, startMessageId) =>
        RestPost (Routes.threads (Channel.id (ThreadManager.channel m)) startMessageId)
          {| Body.name := name;
             Body.auto_archive_duration := autoArchiveDuration;
             Body.type := resolvedType;
             Body.invitable :=
               if strict_eq_number resolvedType ChannelType.GuildPrivateThread
               then ThreadCreateOptions.invitable options
               else VUndefined;
             Body.rate_limit_per_user := ThreadCreateOptions.rateLimitPerUser options |}
          (ThreadCreateOptions.reason options)
          ThreadCreate_handle
    end.

End Methods.

(** ** Predicates on the store *)

(** Every entry of a collection names an object of the store that belongs
    to the parent [pid] and is filed under its own identifier. *)
Definition all_of_parent (pid : string) (c : Client.t) (coll : Collection.t Ref) : Prop :=
  forall k r, In (k, r) coll ->
    exists t, deref c r = Some t
      /\ ThreadChannel.parentId t = Some pid /\ ThreadChannel.id t = k.

(** The objects of [c] are objects of [c'], with the identifier and the
    parent they had. *)
Definition preserves (c c' : Client.t) : Prop :=
  forall r t, deref c r = Some t ->
    exists t', deref c' r = Some t'
      /\ ThreadChannel.parentId t' = ThreadChannel.parentId t
      /\ ThreadChannel.id t' = ThreadChannel.id t.

(** Every entry of a collection names an object of the store and is filed
    under the identifier of that object. *)
Definition filed_by_id (c : Client.t) (coll : Collection.t Ref) : Prop :=
  forall k r, In (k, r) coll ->
    exists t, deref c r = Some t /\ ThreadChannel.id t = k.

(** The thread payloads of a response agree on the parent: an identifier
    the response gives more than once comes with one [parent_id]. *)
Definition agree_on_parent (raws : list RawThread.t) : Prop :=
  forall raw1 raw2, In raw1 raws -> In raw2 raws ->
    RawThread.id raw1 = RawThread.id raw2 ->
    RawThread.parent_id raw1 = RawThread.parent_id raw2.

(** The channel cache files the identifier of the membership payload
    under the object [r]. *)
Definition cached_under (c : Client.t) (r : Ref) (rawMember : RawMember.t) : bool :=
  match Collection.get (RawMember.id rawMember) (Client.channels c) with
  | Some r' => Nat.eqb r' r
  | None => false
  end.

(** Every entry of the channel cache names an object of the store that
    carries the identifier it is filed under. *)
Definition consistent_client (c : Client.t) : bool :=
  forallb (fun kv =>
             match deref c (snd kv) with
             | Some t => String.eqb (ThreadChannel.id t) (fst kv)
             | None => false
             end)
          (Client.channels c).

(** ** A host and collaborators to run the manager with *)

Module Sample.

(** Days since the epoch of a date of the proleptic Gregorian calendar. *)
Definition days_from_civil (y m d : Z) : Z :=
  let y := if m <=? 2 then y - 1 else y in
  let era := y / 400 in
  let yoe := y - era * 400 in
  let doy := (153 * (if m >? 2 then m - 3 else m + 9) + 2) / 5 + d - 1 in
  let doe := yoe * 365 + yoe / 4 - yoe / 100 + doy in
  era * 146097 + doe - 719468.

Definition digit_value (c : ascii) : Z := Z.of_nat (nat_of_ascii c) - 48.

Fixpoint number_of (cs : list ascii) (acc : Z) : Z :=
  match cs with
  | [] => acc
  | c :: cs' => number_of cs' (10 * acc + digit_value c)
  end.

(** The number written at [pos], [len] digits long. *)
Definition field (s : string) (pos len : nat) : Z :=
  number_of (list_ascii_of_string (String.substring pos len s)) 0.

(** A sample [Date.parse]: it reads the format [YYYY-MM-DDTHH:mm:ss.sssZ]
    and takes anything else, and a date that does not exist (a thirteenth
    month, a thirtieth of February), for no date. *)
Definition Date_parse (s : string) : option Z :=
  if matches ([Digit; Digit; Digit; Digit] ++ iso_tail) s
  then
    let days := days_from_civil (field s 0 4) (field s 5 2) (field s 8 2) in
    let t := days * msPerDay + field s 11 2 * 3600000 + field s 14 2 * 60000
             + field s 17 2 * 1000 + field s 20 3 in
    if String.eqb (iso_of_time t) s then Some t else None
  else None.

(** Resolvers and the creation handler after the resolver of the spec. *)
Definition messages_resolveId (v : Value) : Value :=
  match v with
  | VString s => if test_snowflake s then VString s else VNull
  | _ => VNull
  end.

Definition channels_resolveId (c : Client.t) (v : Value) : Value :=
  from_option VString VNull (resolveId c v).

Definition ThreadCreate_handle (data : RawThread.t) (c : Client.t)
    : option (Ref * Client.t) :=
  Some (channels_add c data None (VBool true)).

(** A text channel with two threads of its own, one of them archived, a
    thread of a sibling channel, and the manager of the text channel. *)
Definition parent : Channel.t :=
  {| Channel.id := "900000000000000001";
     Channel.type := 0;
     Channel.guild_id := "800000000000000001";
     Channel.defaultAutoArchiveDuration := VNumber 1440 |}.

Definition news : Channel.t :=
  {| Channel.id := "900000000000000005";
     Channel.type := ChannelType.GuildNews;
     Channel.guild_id := "800000000000000001";
     Channel.defaultAutoArchiveDuration := VNumber 1440 |}.

Definition thread_a : ThreadChannel.t :=
  {| ThreadChannel.id := "111111111111111111";
     ThreadChannel.parentId := Some "900000000000000001";
     ThreadChannel.type := ChannelType.GuildPublicThread;
     ThreadChannel.archivedAt := None;
     ThreadChannel.members := Collection.empty |}.

Definition thread_b : ThreadChannel.t :=
  {| ThreadChannel.id := "222222222222222222";
     ThreadChannel.parentId := Some "900000000000000002";
     ThreadChannel.type := ChannelType.GuildPublicThread;
     ThreadChannel.archivedAt := None;
     ThreadChannel.members := Collection.empty |}.

Definition thread_c : ThreadChannel.t :=
  {| ThreadChannel.id := "333333333333333333";
     ThreadChannel.parentId := Some "900000000000000001";
     ThreadChannel.type := ChannelType.GuildPrivateThread;
     ThreadChannel.archivedAt := Some (ValidDate 1672531200000);
     ThreadChannel.members := Collection.empty |}.

Definition client : Client.t :=
  {| Client.objects := [thread_a; thread_b; thread_c];
     Client.channels :=
       [("111111111111111111", 0%nat); ("222222222222222222", 1%nat);
        ("333333333333333333", 2%nat)] |}.

Definition manager : ThreadManager.t :=
  {| ThreadManager.channel := parent;
     ThreadManager.cache := [("111111111111111111", 0%nat); ("333333333333333333", 2%nat)] |}.

Definition news_manager : ThreadManager.t :=
  {| ThreadManager.channel := news; ThreadManager.cache := Collection.empty |}.

Definition archived_options (type fetchAll before limit : Value)
    : FetchArchivedThreadOptions.t :=
  {| FetchArchivedThreadOptions.type := type;
     FetchArchivedThreadOptions.fetchAll := fetchAll;
     FetchArchivedThreadOptions.before := before;
     FetchArchivedThreadOptions.limit := limit |}.

Definition fetchArchived := fetchArchived Date_parse.

Definition create_options (startMessage type invitable : Value) : ThreadCreateOptions.t :=
  {| ThreadCreateOptions.name := VString "food-talk";
     ThreadCreateOptions.autoArchiveDuration := VUndefined;
     ThreadCreateOptions.startMessage := startMessage;
     ThreadCreateOptions.type := type;
     ThreadCreateOptions.invitable := invitable;
     ThreadCreateOptions.reason := VString "Needed a separate thread for food";
     ThreadCreateOptions.rateLimitPerUser := VUndefined |}.

Definition create := create messages_resolveId ThreadCreate_handle.

(** A listing with a thread of the parent and a thread of its sibling, the
    payload of a thread not seen before, and membership payloads. *)
Definition raw_a : RawThread.t :=
  {| RawThread.id := "111111111111111111";
     RawThread.parent_id := Some "900000000000000001";
     RawThread.type := ChannelType.GuildPublicThread;
     RawThread.archived_at := None |}.

Definition raw_b : RawThread.t :=
  {| RawThread.id := "222222222222222222";
     RawThread.parent_id := Some "900000000000000002";
     RawThread.type := ChannelType.GuildPublicThread;
     RawThread.archived_at := None |}.

Definition raw_d : RawThread.t :=
  {| RawThread.id := "444444444444444444";
     RawThread.parent_id := Some "900000000000000001";
     RawThread.type := ChannelType.GuildPublicThread;
     RawThread.archived_at := None |}.

(** The payloads of two threads the response shows under the sibling. *)
Definition raw_a_moved : RawThread.t :=
  {| RawThread.id := "111111111111111111";
     RawThread.parent_id := Some "900000000000000002";
     RawThread.type := ChannelType.GuildPublicThread;
     RawThread.archived_at := None |}.

Definition raw_d_moved : RawThread.t :=
  {| RawThread.id := "444444444444444444";
     RawThread.parent_id := Some "900000000000000002";
     RawThread.type := ChannelType.GuildPublicThread;
     RawThread.archived_at := None |}.

Definition member_of (thread : string) : RawMember.t :=
  {| RawMember.id := thread; RawMember.user_id := "555555555555555555";
     RawMember.flags := 0 |}.

Definition moderator_of (thread : string) : RawMember.t :=
  {| RawMember.id := thread; RawMember.user_id := "666666666666666666";
     RawMember.flags := 1 |}.

Definition listing (threads : list RawThread.t) (members : list RawMember.t)
    : RawThreads.t :=
  {| RawThreads.threads := threads;
     RawThreads.members := members;
     RawThreads.has_more := VUndefined |}.

Definition scoped (cache : Value) : MapOptions.t :=
  {| MapOptions.parent := Some parent;
     MapOptions.guild := None;
     MapOptions.cache := cache |}.

End Sample.

(** * Properties *)

Example iso_epoch : JS.iso_of_time 0 = "1970-01-01T00:00:00.000Z".
Proof. reflexivity. Qed.

Example iso_2023 : JS.iso_of_time 1672531200000 = "2023-01-01T00:00:00.000Z".
Proof. vm_compute. reflexivity. Qed.

Example iso_leap : JS.iso_of_time 1709210096789 = "2024-02-29T12:34:56.789Z".
Proof. vm_compute. reflexivity. Qed.

Example iso_before_epoch : JS.iso_of_time (-1) = "1969-12-31T23:59:59.999Z".
Proof. vm_compute. reflexivity. Qed.

Example iso_max : JS.iso_of_time 8640000000000000 = "+275760-09-13T00:00:00.000Z".
Proof. vm_compute. reflexivity. Qed.

Example iso_min : JS.iso_of_time (-8640000000000000) = "-271821-04-20T00:00:00.000Z".
Proof. vm_compute. reflexivity. Qed.

Example date_string_epoch :
JS.String_ (JS.VDate (JS.ValidDate 0))
= "Thu Jan 01 1970 00:00:00 GMT+0000 (Coordinated Universal Time)".
Proof. vm_compute. reflexivity. Qed.

Example number_string : JS.String_ (JS.VNumber 9000000000000000) = "9000000000000000".
Proof. vm_compute. reflexivity. Qed.


Example parse_2023 : Sample.Date_parse "2023-01-01T00:00:00.000Z" = Some 1672531200000.
Proof. vm_compute. reflexivity. Qed.

Example parse_no_such_day : Sample.Date_parse "2023-02-30T00:00:00.000Z" = None.
Proof. vm_compute. reflexivity. Qed.

Example parse_words : Sample.Date_parse "yesterday" = None.
Proof. vm_compute. reflexivity. Qed.

(** ** Digits, timestamps and identifiers *)

Lemma is_digit_digit (n : Z) : is_digit (digit n) = true.
Proof.
  unfold digit.
  assert (Hlt : (Z.to_nat (n mod 10) < 10)%nat)
    by (pose proof (Z.mod_pos_bound n 10); lia).
  destruct (Z.to_nat (n mod 10)) as [|k]; [reflexivity|].
  do 9 (destruct k as [|k]; [reflexivity|]).
  lia.
Qed.

Lemma matches_length (pat : list CharClass) (s : string) :
  matches pat s = true -> String.length s = length pat.
Proof.
  revert s. induction pat as [|p pat IH]; intros [|c s]; simpl; try discriminate.
  - reflexivity.
  - intros H. apply andb_prop in H as [_ H]. f_equal. now apply IH.
Qed.

Lemma iso8601_length (s : string) :
  is_iso8601 s = true -> String.length s = 24%nat \/ String.length s = 27%nat.
Proof.
  unfold is_iso8601. intros H.
  apply orb_prop in H as [H|H]; [apply orb_prop in H as [H|H]|];
    apply matches_length in H; simpl in H; auto.
Qed.

(** A timestamp is never taken for an identifier, nor an identifier for
    a timestamp. *)
Lemma iso8601_not_snowflake (s : string) :
  is_iso8601 s = true -> test_snowflake s = false.
Proof.
  intros H. apply iso8601_length in H. unfold test_snowflake.
  apply andb_false_iff. right. apply Nat.leb_gt. lia.
Qed.

Lemma snowflake_not_iso8601 (s : string) :
  test_snowflake s = true -> is_iso8601 s = false.
Proof.
  intros H. destruct (is_iso8601 s) eqn:E; [|reflexivity].
  apply iso8601_not_snowflake in E. congruence.
Qed.

Lemma iso_of_time_is_iso8601 (t : Z) : is_iso8601 (iso_of_time t) = true.
Proof.
  unfold iso_of_time. destruct (civil_from_days (t / msPerDay)) as [[y mo] d].
  unfold iso_year, is_iso8601.
  destruct ((0 <=? y) && (y <=? 9999)); [|destruct (y <? 0)];
    cbv [String.append pad2 pad3 pad4 pad6 matches class_ok app iso_tail];
    rewrite !is_digit_digit; reflexivity.
Qed.

Lemma length_append_ge (a b : string) :
  (String.length b <= String.length (a +:+ b))%nat.
Proof.
  induction a as [|c a IH]; [reflexivity|].
  change (String c a +:+ b) with (String c (a +:+ b)).
  cbn [String.length]. lia.
Qed.

(** The string form of a [Date] is never taken for an identifier. *)
Lemma Date_toString_not_snowflake (d : Date) : test_snowflake (Date_toString d) = false.
Proof.
  destruct d as [|t]; [reflexivity|].
  unfold Date_toString. destruct (civil_from_days (t / msPerDay)) as [[y mo] dd].
  unfold test_snowflake. apply andb_false_iff. right. apply Nat.leb_gt.
  match goal with
  | |- (_ < String.length ?s)%nat => assert (H : (38 <= String.length s)%nat)
  end; [|lia].
  repeat (etransitivity; [|apply length_append_ge]).
  cbn [String.length]. lia.
Qed.

(** Of the values of the model only a thread instance, a string of 16 to
    19 digits and a number with that many digits pass the test
    [before instanceof ThreadChannel || /^\d{16,19}$/.test(String(before))]. *)
Lemma identifier_form_cases (v : Value) :
  instanceof_ThreadChannel v || test_snowflake (String_ v) = true ->
  (exists r, v = VThread r)
  \/ (exists s, v = VString s /\ test_snowflake s = true)
  \/ (exists n, v = VNumber n /\ test_snowflake (Z_to_string n) = true).
Proof.
  destruct v as [| |[|]|n| |s|d|r|props]; cbn [instanceof_ThreadChannel String_ orb];
    intros H; try discriminate H.
  - right. right. eauto.
  - right. left. eauto.
  - rewrite Date_toString_not_snowflake in H. discriminate.
  - left. eauto.
Qed.

(** ** Collections *)

Lemma get_set_eq {V : Type} (k : string) (v : V) (c : Collection.t V) :
  Collection.get k (Collection.set k v c) = Some v.
Proof.
  induction c as [|[k' v'] c IH]; cbn [Collection.set Collection.get].
  - now rewrite String.eqb_refl.
  - destruct (String.eqb k k') eqn:E; cbn [Collection.get]; rewrite ?String.eqb_refl, ?E; auto.
Qed.

Lemma get_set_ne {V : Type} (k k' : string) (v : V) (c : Collection.t V) :
  k <> k' -> Collection.get k' (Collection.set k v c) = Collection.get k' c.
Proof.
  intros Hne. induction c as [|[k0 v0] c IH]; cbn [Collection.set Collection.get].
  - apply String.eqb_neq in Hne. rewrite String.eqb_sym in Hne. now rewrite Hne.
  - destruct (String.eqb k k0) eqn:E; cbn [Collection.get].
    + apply String.eqb_eq in E. subst k0.
      apply String.eqb_neq in Hne. rewrite String.eqb_sym in Hne. now rewrite Hne.
    + now rewrite IH.
Qed.

Lemma in_set {V : Type} (k k' : string) (v v' : V) (c : Collection.t V) :
  In (k', v') (Collection.set k v c) -> (k', v') = (k, v) \/ In (k', v') c.
Proof.
  induction c as [|[k0 v0] c IH]; cbn [Collection.set].
  - intros [H|[]]; auto.
  - destruct (String.eqb k k0); intros [H|H]; cbn [In]; auto.
    destruct (IH H); auto.
Qed.

Lemma get_set_is_Some {V : Type} (k k' : string) (v : V) (c : Collection.t V) :
  is_Some (Collection.get k' c) -> is_Some (Collection.get k' (Collection.set k v c)).
Proof.
  intros H. destruct (String.eqb k k') eqn:E.
  - apply String.eqb_eq in E. subst k'. rewrite get_set_eq. eauto.
  - apply String.eqb_neq in E. now rewrite get_set_ne.
Qed.

Lemma in_keys_set {V : Type} (k k' : string) (v : V) (c : Collection.t V) :
  In k' (Collection.keys (Collection.set k v c)) -> k' = k \/ In k' (Collection.keys c).
Proof.
  unfold Collection.keys. intros H. apply in_map_iff in H as ([k0 v0] & <- & H).
  apply in_set in H as [[= -> ->]|H]; [now left|].
  right. apply in_map_iff. now exists (k0, v0).
Qed.

(** A collection holds one entry for a key, and [set] keeps it so. *)
Lemma set_keys_NoDup {V : Type} (k : string) (v : V) (c : Collection.t V) :
  List.NoDup (Collection.keys c) -> List.NoDup (Collection.keys (Collection.set k v c)).
Proof.
  induction c as [|[k' v'] c IH]; cbn [Collection.set Collection.keys map fst].
  - intros _. constructor; [intros []|constructor].
  - intros H. apply List.NoDup_cons_iff in H as [Hnot Hnd].
    destruct (String.eqb k k') eqn:E; cbn [map fst].
    + apply String.eqb_eq in E. subst k'. apply List.NoDup_cons_iff. auto.
    + apply List.NoDup_cons_iff. split; [|now apply IH].
      intros Hin. apply in_keys_set in Hin as [->|Hin]; [|contradiction].
      rewrite String.eqb_refl in E. discriminate.
Qed.

Lemma limit_query_has_no_before (limit : Value) :
  Collection.get "before" (makeURLSearchParams [("limit", limit)]) = None.
Proof. unfold makeURLSearchParams. cbn. destruct (nullish limit); reflexivity. Qed.

Lemma strict_eq_string_spec (v : Value) (s : string) :
  strict_eq_string v s = true <-> v = VString s.
Proof.
  destruct v; cbn; split; try discriminate; try congruence.
  - intros H. apply String.eqb_eq in H. congruence.
  - intros [= ->]. apply String.eqb_refl.
Qed.

Lemma joined_spec (type fetchAll : Value) :
  joined type fetchAll = true <-> type = VString "private" /\ truthy fetchAll = false.
Proof.
  unfold joined. rewrite andb_true_iff, negb_true_iff, strict_eq_string_spec. tauto.
Qed.

Lemma not_joined (type fetchAll : Value) :
  type = VString "public" \/ truthy fetchAll = true -> joined type fetchAll = false.
Proof.
  intros [-> | H]; unfold joined; [reflexivity|].
  rewrite H. apply andb_false_r.
Qed.

Lemma typeof_undefined (v : Value) :
  String.eqb (typeof v) "undefined" = true <-> v = VUndefined.
Proof. destruct v; cbn; split; congruence. Qed.

Lemma present_spec (v : Value) :
  v <> VUndefined -> negb (String.eqb (typeof v) "undefined") = true.
Proof.
  intros H. apply negb_true_iff. destruct (String.eqb (typeof v) "undefined") eqn:E; auto.
  apply typeof_undefined in E. contradiction.
Qed.

(** ** [fetchArchived]: the route *)

(** [fetchArchived] rejects exactly when its [before] block throws, and
    otherwise issues one read on the route chosen from [type] and
    [fetchAll], with the query the block built. *)
Lemma fetchArchived_outcome Date_parse m c options cache :
  let type := default (FetchArchivedThreadOptions.type options) (VString "public") in
  let fetchAll := default (FetchArchivedThreadOptions.fetchAll options) (VBool false) in
  let before := FetchArchivedThreadOptions.before options in
  let query := makeURLSearchParams [("limit", FetchArchivedThreadOptions.limit options)] in
  match set_before Date_parse m c type fetchAll before query with
  | Throw e => fetchArchived Date_parse m c options cache = Rejected e
  | Ok q =>
      exists k, fetchArchived Date_parse m c options cache
                = RestGet (archived_path m type fetchAll) (Some q) k
  end.
Proof.
  unfold fetchArchived. cbv zeta. destruct (set_before _ _ _ _ _ _ _); eauto.
Qed.

(** C6.  The read of [fetchArchived] goes to the route of the joined
    private archive exactly when [type] is 'private' and [fetchAll] is
    falsy, and to the route of the channel archive of that [type] for every
    other combination; a call without [before] always issues its read. *)
Theorem fetchArchived_route Date_parse m c options cache :
  let type := default (FetchArchivedThreadOptions.type options) (VString "public") in
  let fetchAll := default (FetchArchivedThreadOptions.fetchAll options) (VBool false) in
  let p := fetchArchived Date_parse m c options cache in
  (forall path, request_path p = Some path ->
     (type = VString "private" /\ truthy fetchAll = false ->
        path = Routes.channelJoinedArchivedThreads (Channel.id (ThreadManager.channel m)))
     /\ (~ (type = VString "private" /\ truthy fetchAll = false) ->
        path = Routes.channelThreads (Channel.id (ThreadManager.channel m)) type)
     /\ (path = Routes.channelJoinedArchivedThreads (Channel.id (ThreadManager.channel m))
         <-> type = VString "private" /\ truthy fetchAll = false))
  /\ (FetchArchivedThreadOptions.before options = VUndefined ->
      exists path, request_path p = Some path).
Proof.
  intros type fetchAll p. split.
  - intros path Hp.
    pose proof (fetchArchived_outcome Date_parse m c options cache) as H.
    cbv zeta in H. fold type fetchAll in H.
    destruct (set_before _ _ _ _ _ _ _) as [q|e].
    + destruct H as [k H]. subst p. rewrite H in Hp. cbn in Hp.
      injection Hp as <-. unfold archived_path.
      destruct (joined type fetchAll) eqn:J.
      * apply joined_spec in J.
        split; [auto|]. split; [intros N; contradiction|]. split; auto.
      * assert (N : ~ (type = VString "private" /\ truthy fetchAll = false)).
        { intros N. apply joined_spec in N. congruence. }
        split; [intros; contradiction|]. split; [auto|].
        split; [discriminate|intros; contradiction].
    + subst p. rewrite H in Hp. discriminate.
  - intros Hb. subst p. unfold fetchArchived. cbv zeta. rewrite Hb. cbn. eauto.
Qed.

Lemma fetchArchived_route_witness :
  let m := Sample.manager in
  let c := Sample.client in
  let options := Sample.archived_options (VString "private") VUndefined VUndefined
                   VUndefined in
  let path := Routes.channelJoinedArchivedThreads "900000000000000001" in
  request_path (fetchArchived Sample.Date_parse m c options VUndefined) = Some path
  /\ (path = Routes.channelJoinedArchivedThreads (Channel.id (ThreadManager.channel m))
      <-> VString "private" = VString "private" /\ truthy (VBool false) = false).
Proof.
  intros m c options path. split; [reflexivity|].
  exact (proj2 (proj2 (proj1 (fetchArchived_route Sample.Date_parse m c options VUndefined)
                             path eq_refl))).
Defined.

(** ** [fetchArchived]: the cursor *)

(** What the [before] block leaves in the query: nothing new, the resolved
    identifier on the route of the joined archive, or the timestamp of a
    date on the other route. *)
Lemma set_before_cases Date_parse m c type fetchAll before query :
  match set_before Date_parse m c type fetchAll before query with
  | Throw _ => True
  | Ok q =>
      q = query
      \/ exists s, q = Collection.set "before" (VString s) query
           /\ if joined type fetchAll
              then resolveId c before = Some s
              else exists d, toISOString d = Some s
  end.
Proof.
  unfold set_before, mbind, Result_bind.
  destruct (negb (String.eqb (typeof before) "undefined")); [|now left].
  destruct (instanceof_ThreadChannel before || test_snowflake (String_ before)).
  - unfold archived_timestamp.
    destruct (resolved_archivedAt m c before) as [d|].
    + destruct (toISOString d) as [ts|] eqn:Ed; [|exact I].
      destruct (joined type fetchAll) eqn:J.
      * destruct (resolveId c before) as [i|]; [|now left].
        destruct (truthy (VString i)); [|now left].
        right. exists i. auto.
      * destruct (truthy (VString ts)); [|now left].
        right. exists ts. eauto.
    + destruct (joined type fetchAll) eqn:J; [|now left].
      destruct (resolveId c before) as [i|]; [|now left].
      destruct (truthy (VString i)); [|now left].
      right. exists i. auto.
  - destruct (toISOString (Date_ Date_parse before)) as [ts|] eqn:Ed; [|exact I].
    destruct (strict_eq_string type "public" || truthy fetchAll) eqn:Ep; [|now left].
    right. exists ts. split; [reflexivity|].
    rewrite not_joined; [eauto|].
    apply orb_prop in Ep as [Ep|Ep]; [left; now apply strict_eq_string_spec|now right].
Qed.

(** [fetchArchived] rejects in two ways only: with the invalid-type error
    when a [before] that is not of the form of an identifier denotes no date,
    and with the range error of [toISOString] when the entity [before]
    resolves to carries an invalid [archivedAt]. *)
Lemma fetchArchived_rejections Date_parse m c options cache e :
  let before := FetchArchivedThreadOptions.before options in
  fetchArchived Date_parse m c options cache = Rejected e ->
  (e = INVALID_TYPE "before" "DateResolvable or ThreadChannelResolvable"
   /\ before <> VUndefined
   /\ instanceof_ThreadChannel before || test_snowflake (String_ before) = false
   /\ toISOString (Date_ Date_parse before) = None)
  \/ (e = RangeError
      /\ instanceof_ThreadChannel before || test_snowflake (String_ before) = true
      /\ resolved_archivedAt m c before = Some InvalidDate).
Proof.
  intros before.
  pose proof (fetchArchived_outcome Date_parse m c options cache) as Ho.
  cbv zeta in Ho. fold before in Ho. unfold set_before, archived_timestamp in Ho.
  unfold mbind, Result_bind in Ho.
  destruct (String.eqb (typeof before) "undefined") eqn:Eu; cbn [negb] in Ho.
  { destruct Ho as [k ->]. discriminate. }
  assert (Hpres : before <> VUndefined).
  { intros Hb. apply typeof_undefined in Hb. congruence. }
  destruct (instanceof_ThreadChannel before || test_snowflake (String_ before)) eqn:Ef.
  - destruct (resolved_archivedAt m c before) as [[|t]|] eqn:Ea; cbn [toISOString] in Ho.
    + rewrite Ho. intros [= <-]. right. auto.
    + destruct (if joined _ _ then _ else _) as [s|]; [destruct (truthy (VString s))|];
        destruct Ho as [k ->]; discriminate.
    + destruct (if joined _ _ then _ else _) as [s|]; [destruct (truthy (VString s))|];
        destruct Ho as [k ->]; discriminate.
  - destruct (toISOString (Date_ Date_parse before)) as [ts|] eqn:Ed.
    + destruct (strict_eq_string _ "public" || truthy _); destruct Ho as [k ->]; discriminate.
    + rewrite Ho. intros [= <-]. left. auto.
Qed.

Lemma toISOString_iso8601 (d : Date) (s : string) :
  toISOString d = Some s -> is_iso8601 s = true.
Proof.
  destruct d as [|t]; cbn; [discriminate|]. intros [= <-]. apply iso_of_time_is_iso8601.
Qed.

(** The identifier the resolver gives for a string is that string, and it
    has the format of an identifier. *)
Lemma resolveId_string c s i :
  resolveId c (VString s) = Some i -> i = s /\ test_snowflake i = true.
Proof.
  cbn. destruct (test_snowflake s) eqn:E; [|discriminate]. intros [= <-]. auto.
Qed.

(** C1.  With [type] 'public', or with a truthy [fetchAll], the [before]
    parameter of the query is absent or the ISO 8601 timestamp of a date,
    which is never of the form of an identifier.  With [type] 'private' and a
    falsy [fetchAll] it is absent or the identifier [before] resolves to;
    that identifier is not of the form of a timestamp when it is well
    formed, as it is whenever [before] is a string. *)
Theorem fetchArchived_cursor_kind Date_parse m c options cache :
  let type := default (FetchArchivedThreadOptions.type options) (VString "public") in
  let fetchAll := default (FetchArchivedThreadOptions.fetchAll options) (VBool false) in
  let before := FetchArchivedThreadOptions.before options in
  let p := fetchArchived Date_parse m c options cache in
  (type = VString "public" \/ truthy fetchAll = true ->
     sent_before p = None
     \/ exists d s, toISOString d = Some s /\ sent_before p = Some (VString s)
          /\ is_iso8601 s = true /\ test_snowflake s = false)
  /\ (type = VString "private" /\ truthy fetchAll = false ->
     sent_before p = None
     \/ exists i, resolveId c before = Some i /\ sent_before p = Some (VString i)
          /\ (test_snowflake i = true -> is_iso8601 i = false)
          /\ (forall s, before = VString s -> test_snowflake i = true)).
Proof.
  intros type fetchAll before p.
  pose proof (fetchArchived_outcome Date_parse m c options cache) as Ho.
  pose proof (set_before_cases Date_parse m c type fetchAll before
                (makeURLSearchParams [("limit", FetchArchivedThreadOptions.limit options)]))
    as Hc.
  cbv zeta in Ho. fold type fetchAll before in Ho.
  destruct (set_before _ _ _ _ _ _ _) as [q|e].
  - destruct Ho as [k Ho]. subst p. rewrite Ho. unfold sent_before. cbn [request_query].
    destruct Hc as [-> | (s & -> & Hs)].
    + rewrite limit_query_has_no_before. split; intros _; now left.
    + rewrite get_set_eq. split; intros Hsel.
      * rewrite (not_joined _ _ Hsel) in Hs. destruct Hs as [d Hd].
        right. exists d, s. pose proof (toISOString_iso8601 _ _ Hd) as Hi.
        repeat split; auto using iso8601_not_snowflake.
      * rewrite (proj2 (joined_spec _ _) Hsel) in Hs.
        right. exists s. repeat split; auto using snowflake_not_iso8601.
        intros s0 Hb. rewrite Hb in Hs. now apply resolveId_string in Hs.
  - subst p. rewrite Ho. split; intros _; now left.
Qed.

Lemma fetchArchived_cursor_kind_witness :
  let p1 := Sample.fetchArchived Sample.manager Sample.client
              (Sample.archived_options (VString "public") VUndefined
                 (VString "2023-01-01T00:00:00.000Z") (VNumber 50)) VUndefined in
  let p2 := Sample.fetchArchived Sample.manager Sample.client
              (Sample.archived_options (VString "private") (VBool false)
                 (VThread 0%nat) VUndefined) VUndefined in
  (sent_before p1 = None
   \/ exists d s, toISOString d = Some s /\ sent_before p1 = Some (VString s)
        /\ is_iso8601 s = true /\ test_snowflake s = false)
  /\ (sent_before p2 = None
      \/ exists i, resolveId Sample.client (VThread 0%nat) = Some i
           /\ sent_before p2 = Some (VString i)
           /\ (test_snowflake i = true -> is_iso8601 i = false)
           /\ (forall s, VThread 0%nat = VString s -> test_snowflake i = true)).
Proof.
  intros p1 p2. split.
  - apply (proj1 (fetchArchived_cursor_kind Sample.Date_parse Sample.manager Sample.client
                    (Sample.archived_options (VString "public") VUndefined
                       (VString "2023-01-01T00:00:00.000Z") (VNumber 50)) VUndefined)).
    left. reflexivity.
  - apply (proj2 (fetchArchived_cursor_kind Sample.Date_parse Sample.manager Sample.client
                    (Sample.archived_options (VString "private") (VBool false)
                       (VThread 0%nat) VUndefined) VUndefined)).
    split; reflexivity.
Defined.

(** The scenarios of the specification. *)
Example scenario_public_date :
  let p := Sample.fetchArchived Sample.manager Sample.client
             (Sample.archived_options (VString "public") VUndefined
                (VString "2023-01-01T00:00:00.000Z") (VNumber 50)) VUndefined in
  request_path p = Some (Routes.channelThreads "900000000000000001" (VString "public"))
  /\ request_query p
     = [("limit", VNumber 50); ("before", VString "2023-01-01T00:00:00.000Z")].
Proof. vm_compute. split; reflexivity. Qed.

Example scenario_joined_identifier :
  let p := Sample.fetchArchived Sample.manager Sample.client
             (Sample.archived_options (VString "private") (VBool false)
                (VThread 0%nat) VUndefined) VUndefined in
  request_path p = Some (Routes.channelJoinedArchivedThreads "900000000000000001")
  /\ request_query p = [("before", VString "111111111111111111")].
Proof. vm_compute. split; reflexivity. Qed.

Example scenario_public_unarchived_entity :
  let p := Sample.fetchArchived Sample.manager Sample.client
             (Sample.archived_options (VString "public") VUndefined
                (VThread 1%nat) VUndefined) VUndefined in
  issues_request p = true /\ request_query p = [].
Proof. vm_compute. split; reflexivity. Qed.

Example scenario_public_archived_entity :
  let p := Sample.fetchArchived Sample.manager Sample.client
             (Sample.archived_options (VString "public") VUndefined
                (VString "333333333333333333") VUndefined) VUndefined in
  request_query p = [("before", VString "2023-01-01T00:00:00.000Z")].
Proof. vm_compute. reflexivity. Qed.

(** The two ways the archived timestamp of an identifier-form [before] is
    unavailable: no entity of that identifier is cached, or the entity has
    no [archivedAt]. *)
Lemma timestamp_unavailable m c before :
  (exists s, before = VString s /\ Collection.get s (ThreadManager.cache m) = None)
  \/ (exists r t, resolve m before = Some r /\ deref c r = Some t
        /\ ThreadChannel.archivedAt t = None) ->
  resolved_archivedAt m c before = None.
Proof.
  unfold resolved_archivedAt.
  intros [(s & -> & Hs) | (r & t & -> & -> & Ht)]; cbn; [now rewrite Hs|exact Ht].
Qed.

(** C5.  On the route of the channel archive, when [before] is a thread
    instance or a string of 16 to 19 digits and its archived timestamp is
    unavailable (no entity of that identifier is cached, or the entity has
    no [archivedAt]), [fetchArchived] does not fail: it issues its read with
    the query of [limit] alone, without a [before] parameter. *)
Theorem fetchArchived_timestamp_unavailable Date_parse m c options cache :
  let type := default (FetchArchivedThreadOptions.type options) (VString "public") in
  let fetchAll := default (FetchArchivedThreadOptions.fetchAll options) (VBool false) in
  let before := FetchArchivedThreadOptions.before options in
  let limit := FetchArchivedThreadOptions.limit options in
  let p := fetchArchived Date_parse m c options cache in
  ~ (type = VString "private" /\ truthy fetchAll = false) ->
  (exists r, before = VThread r) \/ (exists s, before = VString s /\ test_snowflake s = true) ->
  (exists s, before = VString s /\ Collection.get s (ThreadManager.cache m) = None)
  \/ (exists r t, resolve m before = Some r /\ deref c r = Some t
        /\ ThreadChannel.archivedAt t = None) ->
  (exists k, p = RestGet (Routes.channelThreads (Channel.id (ThreadManager.channel m)) type)
                 (Some (makeURLSearchParams [("limit", limit)])) k)
  /\ sent_before p = None.
Proof.
  intros type fetchAll before limit p Hgen Hform Hun.
  apply timestamp_unavailable with (c := c) in Hun.
  assert (J : joined type fetchAll = false).
  { destruct (joined type fetchAll) eqn:J; auto. apply joined_spec in J. contradiction. }
  assert (Hq : set_before Date_parse m c type fetchAll before
                 (makeURLSearchParams [("limit", limit)])
               = Ok (makeURLSearchParams [("limit", limit)])).
  { unfold set_before, archived_timestamp, mbind, Result_bind. rewrite Hun, J.
    destruct Hform as [[r ->] | (s & -> & Hs)]; cbn; [reflexivity|].
    now rewrite Hs. }
  pose proof (fetchArchived_outcome Date_parse m c options cache) as Ho.
  cbv zeta in Ho. fold type fetchAll before limit in Ho. rewrite Hq in Ho.
  destruct Ho as [k Ho]. fold p in Ho. unfold archived_path in Ho. rewrite J in Ho.
  split; [eauto|]. rewrite Ho. unfold sent_before. cbn [request_query].
  apply limit_query_has_no_before.
Qed.

Lemma fetchArchived_timestamp_unavailable_witness :
  let options := Sample.archived_options (VString "public") VUndefined
                   (VThread 1%nat) VUndefined in
  let p := Sample.fetchArchived Sample.manager Sample.client options VUndefined in
  (exists k, p = RestGet (Routes.channelThreads "900000000000000001" (VString "public"))
                 (Some []) k)
  /\ sent_before p = None.
Proof.
  intros options p.
  apply (fetchArchived_timestamp_unavailable Sample.Date_parse Sample.manager
           Sample.client options VUndefined).
  - intros [H _]. discriminate H.
  - left. exists 1%nat. reflexivity.
  - right. exists 1%nat, Sample.thread_b. repeat split; reflexivity.
Defined.

Example unavailable_when_not_cached :
  let options := Sample.archived_options (VString "private") (VBool true)
                   (VString "444444444444444444") (VNumber 25) in
  let p := Sample.fetchArchived Sample.manager Sample.client options VUndefined in
  request_path p = Some (Routes.channelThreads "900000000000000001" (VString "private"))
  /\ request_query p = [("limit", VNumber 25)].
Proof. vm_compute. split; reflexivity. Qed.

(** ** [fetchArchived]: a [before] that is a date *)

(** Against C8 as it is stated.  [before] is tested on its string form, so
    a number of 16 to 19 digits takes the branch of identifiers although it
    is no string: it resolves to nothing, no [before] is sent, and the call
    goes through on either route even though the number is no valid time
    value. *)
Lemma fetchArchived_number_of_16_digits :
  let before := VNumber 9000000000000000 in
  let general := Sample.fetchArchived Sample.manager Sample.client
                   (Sample.archived_options (VString "public") VUndefined before
                      VUndefined) VUndefined in
  let joined := Sample.fetchArchived Sample.manager Sample.client
                  (Sample.archived_options (VString "private") (VBool false) before
                     VUndefined) VUndefined in
  before <> VUndefined
  /\ instanceof_ThreadChannel before = false
  /\ typeof before = "number"
  /\ toISOString (Date_ Sample.Date_parse before) = None
  /\ issues_request general = true /\ sent_before general = None
  /\ issues_request joined = true /\ sent_before joined = None.
Proof. vm_compute. repeat split; congruence. Qed.

(** Among the values of the model, the test on the string form agrees
    with "a thread instance or a string of 16 to 19 digits" on everything
    but numbers. *)
Lemma identifier_form_without_numbers (v : Value) :
  typeof v <> "number" ->
  instanceof_ThreadChannel v = false ->
  (forall s, v = VString s -> test_snowflake s = false) ->
  test_snowflake (String_ v) = false.
Proof.
  intros Hn Hi Hs. destruct (test_snowflake (String_ v)) eqn:E; [|reflexivity].
  destruct (identifier_form_cases v) as [[r ->] | [(s & -> & H) | (n & -> & _)]].
  - rewrite E. apply orb_true_r.
  - discriminate Hi.
  - rewrite (Hs s eq_refl) in H. discriminate.
  - now contradiction Hn.
Qed.

(** C8, as the code has it.  When [before] is present, is no thread
    instance, and its string form is not 16 to 19 digits: if it does not
    denote a date, [fetchArchived] rejects with the invalid-type error of
    [before] on either route, before any request; if it does, the read is
    issued and carries the timestamp exactly when [type] is 'public' or
    [fetchAll] is truthy, hence only on the route of the channel archive
    and never on that of the joined archive. *)
Theorem fetchArchived_date_before Date_parse m c options cache :
  let type := default (FetchArchivedThreadOptions.type options) (VString "public") in
  let fetchAll := default (FetchArchivedThreadOptions.fetchAll options) (VBool false) in
  let before := FetchArchivedThreadOptions.before options in
  let p := fetchArchived Date_parse m c options cache in
  before <> VUndefined ->
  instanceof_ThreadChannel before = false ->
  test_snowflake (String_ before) = false ->
  (toISOString (Date_ Date_parse before) = None ->
     p = Rejected (INVALID_TYPE "before" "DateResolvable or ThreadChannelResolvable"))
  /\ (forall ts, toISOString (Date_ Date_parse before) = Some ts ->
        issues_request p = true
        /\ (type = VString "public" \/ truthy fetchAll = true ->
            sent_before p = Some (VString ts))
        /\ (~ (type = VString "public" \/ truthy fetchAll = true) -> sent_before p = None)
        /\ (type = VString "private" /\ truthy fetchAll = false -> sent_before p = None)
        /\ (forall v, sent_before p = Some v ->
            request_path p
            = Some (Routes.channelThreads (Channel.id (ThreadManager.channel m)) type))).
Proof.
  intros type fetchAll before p Hpres Hinst Hform.
  pose proof (fetchArchived_outcome Date_parse m c options cache) as Ho.
  cbv zeta in Ho. fold type fetchAll before p in Ho.
  unfold set_before in Ho. rewrite (present_spec _ Hpres), Hinst, Hform in Ho.
  cbn [orb] in Ho.
  split.
  - intros Hd. now rewrite Hd in Ho.
  - intros ts Hd. rewrite Hd in Ho.
    destruct (strict_eq_string type "public" || truthy fetchAll) eqn:Ep;
      destruct Ho as [k Ho]; rewrite Ho; unfold sent_before;
      cbn [issues_request request_query request_path].
    + assert (Hsel : type = VString "public" \/ truthy fetchAll = true).
      { apply orb_prop in Ep as [Ep|Ep]; [left; now apply strict_eq_string_spec|now right]. }
      rewrite get_set_eq. unfold archived_path. rewrite (not_joined _ _ Hsel).
      repeat split; auto.
      * intros N. contradiction.
      * intros [-> Hf]. destruct Hsel as [Hsel|Hsel]; congruence.
    + assert (Hsel : ~ (type = VString "public" \/ truthy fetchAll = true)).
      { intros [Ht|Hf].
        - apply strict_eq_string_spec in Ht. rewrite Ht in Ep. discriminate.
        - rewrite Hf in Ep. rewrite orb_true_r in Ep. discriminate. }
      rewrite limit_query_has_no_before.
      repeat split; auto.
      * intros N. contradiction.
      * intros v Hv. discriminate.
Qed.

Lemma fetchArchived_date_before_witness :
  let p := Sample.fetchArchived Sample.manager Sample.client
             (Sample.archived_options (VString "public") VUndefined
                (VString "yesterday") VUndefined) VUndefined in
  let q := Sample.fetchArchived Sample.manager Sample.client
             (Sample.archived_options (VString "private") VUndefined
                (VDate (ValidDate 0)) VUndefined) VUndefined in
  p = Rejected (INVALID_TYPE "before" "DateResolvable or ThreadChannelResolvable")
  /\ issues_request q = true /\ sent_before q = None.
Proof.
  intros p q. split.
  - apply (fetchArchived_date_before Sample.Date_parse Sample.manager Sample.client
             (Sample.archived_options (VString "public") VUndefined
                (VString "yesterday") VUndefined) VUndefined);
      [discriminate | reflexivity | reflexivity | reflexivity].
  - destruct (fetchArchived_date_before Sample.Date_parse Sample.manager Sample.client
                (Sample.archived_options (VString "private") VUndefined
                   (VDate (ValidDate 0)) VUndefined) VUndefined) as [_ H];
      [discriminate | reflexivity | reflexivity |].
    destruct (H "1970-01-01T00:00:00.000Z" eq_refl) as (H1 & _ & _ & H4 & _).
    split; [exact H1|]. apply H4. split; reflexivity.
Defined.

(** ** [fetch]: the order of the tests *)

(** C9.  [fetch] with a falsy selector (an absent one among them) is
    [fetchActive]; otherwise the selector is resolved to an identifier
    first, and a selector that resolves goes to the fetch of that one
    channel whether or not it carries [archived]; one that does not resolve
    goes to [fetchArchived] when it carries [archived], and to
    [fetchActive] when it does neither. *)
Theorem fetch_routing Date_parse channels_resolveId m c options cacheOptions :
  let cache := default (BaseFetchOptions.cache cacheOptions) (VBool true) in
  let force := default (BaseFetchOptions.force cacheOptions) (VBool false) in
  let p := fetch Date_parse channels_resolveId m c options cacheOptions in
  (options = VUndefined -> p = fetchActive m cache)
  /\ (truthy options = false -> p = fetchActive m cache)
  /\ (truthy options = true -> truthy (channels_resolveId c options) = true ->
      p = Delegated "client.channels.fetch" [channels_resolveId c options; cache; force])
  /\ (truthy options = true -> truthy (channels_resolveId c options) = false ->
      truthy (read c options "archived") = true ->
      p = fetchArchived Date_parse m c
            (destructure c (read c options "archived")) cache)
  /\ (truthy options = true -> truthy (channels_resolveId c options) = false ->
      truthy (read c options "archived") = false ->
      p = fetchActive m cache).
Proof.
  intros cache force p. subst p. unfold fetch. cbv zeta. fold cache force.
  repeat split.
  - intros ->. reflexivity.
  - intros ->. reflexivity.
  - intros -> ->. reflexivity.
  - intros -> -> ->. reflexivity.
  - intros -> -> ->. reflexivity.
Qed.

Lemma fetch_routing_witness :
  let archived_thread := VThread 2%nat in
  let p := fetch Sample.Date_parse Sample.channels_resolveId Sample.manager Sample.client
             archived_thread
             {| BaseFetchOptions.cache := VUndefined; BaseFetchOptions.force := VUndefined |} in
  truthy (read Sample.client archived_thread "archived") = true
  /\ p = Delegated "client.channels.fetch"
           [VString "333333333333333333"; VBool true; VBool false].
Proof.
  intros archived_thread p. split; [reflexivity|].
  apply (fetch_routing Sample.Date_parse Sample.channels_resolveId Sample.manager
           Sample.client archived_thread
           {| BaseFetchOptions.cache := VUndefined; BaseFetchOptions.force := VUndefined |});
    reflexivity.
Defined.

(** The three destinations are told apart by what they issue. *)
Lemma fetch_destinations_differ Date_parse m c options cache callee args :
  fetchActive m cache <> Delegated callee args
  /\ fetchArchived Date_parse m c options cache <> Delegated callee args
  /\ fetchArchived Date_parse m c options cache <> fetchActive m cache.
Proof.
  pose proof (fetchArchived_outcome Date_parse m c options cache) as H. cbv zeta in H.
  destruct (set_before _ _ _ _ _ _ _); [destruct H as [k H]|]; rewrite H;
    unfold fetchActive; repeat split; discriminate.
Qed.

Example fetch_archived_options :
  let p := fetch Sample.Date_parse Sample.channels_resolveId Sample.manager Sample.client
             (VObject [("archived", VObject [("type", VString "private"); ("limit", VNumber 5)])])
             {| BaseFetchOptions.cache := VUndefined; BaseFetchOptions.force := VUndefined |} in
  request_path p = Some (Routes.channelJoinedArchivedThreads "900000000000000001")
  /\ request_query p = [("limit", VNumber 5)].
Proof. vm_compute. split; reflexivity. Qed.

(** ** [create] *)

(** Against C2 as it is stated.  A string or a number passes the guard of
    [create] whatever it says: the request goes out with a kind the API does
    not know. *)
Lemma create_posts_unrecognized_type :
  let options type :=
    {| ThreadCreateOptions.name := VString "food-talk";
       ThreadCreateOptions.autoArchiveDuration := VNumber 60;
       ThreadCreateOptions.startMessage := VUndefined;
       ThreadCreateOptions.type := type;
       ThreadCreateOptions.invitable := VUndefined;
       ThreadCreateOptions.reason := VUndefined;
       ThreadCreateOptions.rateLimitPerUser := VUndefined |} in
  let p type := create Sample.messages_resolveId Sample.ThreadCreate_handle
                  Sample.manager (options type) in
  (recognized_thread_type (VString "banana") = false
   /\ issues_request (p (VString "banana")) = true
   /\ Body.type <$> request_body (p (VString "banana")) = Some (VString "banana"))
  /\ (recognized_thread_type (VNumber 999) = false
      /\ issues_request (p (VNumber 999)) = true
      /\ Body.type <$> request_body (p (VNumber 999)) = Some (VNumber 999)).
Proof. vm_compute. repeat split; reflexivity. Qed.

Lemma invalid_type_spec (type : Value) :
  invalid_type type = true
  <-> truthy type = true /\ typeof type <> "string" /\ typeof type <> "number".
Proof.
  unfold invalid_type. rewrite !andb_true_iff, !negb_true_iff.
  split.
  - intros [[H1 H2] H3]. apply String.eqb_neq in H2, H3. auto.
  - intros (H1 & H2 & H3). apply String.eqb_neq in H2, H3. auto.
Qed.

(** C2, as the code has it.  [create] rejects with the invalid-type error
    of [type], before any request, exactly when [type] is truthy and is
    neither a string nor a number; a string or a number is not compared with
    the thread kinds. *)
Theorem create_rejects_invalid_type messages_resolveId ThreadCreate_handle m options :
  let type := ThreadCreateOptions.type options in
  let p := create messages_resolveId ThreadCreate_handle m options in
  (truthy type = true -> typeof type <> "string" -> typeof type <> "number" ->
     p = Rejected (INVALID_TYPE "type" "ThreadChannelType or Number"))
  /\ (truthy type = false \/ typeof type = "string" \/ typeof type = "number" ->
      forall expected, p <> Rejected (INVALID_TYPE "type" expected)).
Proof.
  intros type p. subst p. unfold create. cbv zeta. fold type. split.
  - intros H1 H2 H3. rewrite (proj2 (invalid_type_spec type)); auto.
  - intros H expected.
    destruct (invalid_type type) eqn:E.
    + apply invalid_type_spec in E as (H1 & H2 & H3).
      destruct H as [H|[H|H]]; congruence.
    + unfold resolve_create.
      destruct (truthy (ThreadCreateOptions.startMessage options));
        [destruct (negb (truthy (messages_resolveId _)))|
         destruct (negb (Channel.type (ThreadManager.channel m) =? ChannelType.GuildNews))];
        discriminate.
Qed.

Lemma create_rejects_invalid_type_witness :
  create Sample.messages_resolveId Sample.ThreadCreate_handle Sample.manager
    {| ThreadCreateOptions.name := VString "food-talk";
       ThreadCreateOptions.autoArchiveDuration := VUndefined;
       ThreadCreateOptions.startMessage := VUndefined;
       ThreadCreateOptions.type := VObject [];
       ThreadCreateOptions.invitable := VUndefined;
       ThreadCreateOptions.reason := VUndefined;
       ThreadCreateOptions.rateLimitPerUser := VUndefined |}
  = Rejected (INVALID_TYPE "type" "ThreadChannelType or Number").
Proof.
  apply (create_rejects_invalid_type Sample.messages_resolveId Sample.ThreadCreate_handle
           Sample.manager); [reflexivity | discriminate | discriminate].
Defined.

(** C4.  Whatever request [create] posts: with a start message the kind
    sent is the default derived from the channel (the announcement thread in
    an announcement channel, the public thread elsewhere), whatever [type]
    is; without one, in an announcement channel it is the announcement
    thread, whatever [type] is, and elsewhere it is [type], or the public
    thread when [type] is absent.  The request is posted whenever [type]
    passes the guard and the start message, if there is one, resolves. *)
Theorem create_resolved_kind messages_resolveId ThreadCreate_handle m options :
  let type := ThreadCreateOptions.type options in
  let startMessage := ThreadCreateOptions.startMessage options in
  let p := create messages_resolveId ThreadCreate_handle m options in
  let news := Channel.type (ThreadManager.channel m) = ChannelType.GuildNews in
  (forall body, request_body p = Some body ->
     (truthy startMessage = true ->
        (news -> Body.type body = VNumber ChannelType.GuildNewsThread)
        /\ (~ news -> Body.type body = VNumber ChannelType.GuildPublicThread))
     /\ (truthy startMessage = false -> news ->
         Body.type body = VNumber ChannelType.GuildNewsThread)
     /\ (truthy startMessage = false -> ~ news ->
         (nullish type = false -> Body.type body = type)
         /\ (nullish type = true ->
             Body.type body = VNumber ChannelType.GuildPublicThread)))
  /\ (invalid_type type = false ->
      truthy startMessage = false \/ truthy (messages_resolveId startMessage) = true ->
      exists body, request_body p = Some body).
Proof.
  intros type startMessage p news. subst p. unfold create. cbv zeta.
  fold type startMessage.
  destruct (invalid_type type); [split; [discriminate|discriminate]|].
  unfold resolve_create. fold startMessage.
  destruct (Z.eqb_spec (Channel.type (ThreadManager.channel m)) ChannelType.GuildNews)
    as [Hn|Hn]; fold news in Hn; cbn [negb];
    destruct (truthy startMessage);
    try destruct (truthy (messages_resolveId startMessage)); cbn;
    (split; [intros body Hb; try discriminate Hb; injection Hb as <-; cbn [Body.type]
            | intros _ Hs; try (destruct Hs; discriminate); eauto]).
  all: (split; [intros Hs; split; intros Hx
               |split; [intros Hs Hx|intros Hs Hx; split; intros Hy]]);
    try discriminate; try contradiction; try reflexivity.
  all: unfold coalesce; rewrite Hy; reflexivity.
Qed.

Lemma create_resolved_kind_witness :
  let message := VString "123456789012345678" in
  let private := VNumber ChannelType.GuildPrivateThread in
  let public := VNumber ChannelType.GuildPublicThread in
  (exists body,
      request_body (Sample.create Sample.manager
                      (Sample.create_options message private VUndefined)) = Some body
      /\ Body.type body = VNumber ChannelType.GuildPublicThread)
  /\ (exists body,
        request_body (Sample.create Sample.news_manager
                        (Sample.create_options VUndefined public VUndefined)) = Some body
        /\ Body.type body = VNumber ChannelType.GuildNewsThread)
  /\ (exists body,
        request_body (Sample.create Sample.manager
                        (Sample.create_options VUndefined private (VBool false))) = Some body
        /\ Body.type body = private).
Proof.
  intros message private public. split; [|split].
  - destruct (create_resolved_kind Sample.messages_resolveId Sample.ThreadCreate_handle
                Sample.manager (Sample.create_options message private VUndefined))
      as (Hkind & Hposted).
    destruct (Hposted eq_refl (or_intror eq_refl)) as [body Hb].
    exists body. split; [exact Hb|].
    destruct (Hkind body Hb) as (H & _). apply (H eq_refl). discriminate.
  - destruct (create_resolved_kind Sample.messages_resolveId Sample.ThreadCreate_handle
                Sample.news_manager (Sample.create_options VUndefined public VUndefined))
      as (Hkind & Hposted).
    destruct (Hposted eq_refl (or_introl eq_refl)) as [body Hb].
    exists body. split; [exact Hb|].
    destruct (Hkind body Hb) as (_ & H & _). exact (H eq_refl eq_refl).
  - destruct (create_resolved_kind Sample.messages_resolveId Sample.ThreadCreate_handle
                Sample.manager (Sample.create_options VUndefined private (VBool false)))
      as (Hkind & Hposted).
    destruct (Hposted eq_refl (or_introl eq_refl)) as [body Hb].
    exists body. split; [exact Hb|].
    destruct (Hkind body Hb) as (_ & _ & H).
    destruct (H eq_refl ltac:(discriminate)) as [H' _]. exact (H' eq_refl).
Defined.

Example create_private_thread :
  let p := Sample.create Sample.manager
             (Sample.create_options VUndefined (VNumber ChannelType.GuildPrivateThread)
                (VBool false)) in
  request_path p = Some (Routes.threads "900000000000000001" VUndefined)
  /\ request_body p
     = Some {| Body.name := VString "food-talk";
               Body.auto_archive_duration := VNumber 1440;
               Body.type := VNumber 12;
               Body.invitable := VBool false;
               Body.rate_limit_per_user := VUndefined |}.
Proof. vm_compute. split; reflexivity. Qed.

Example create_from_message_ignores_type :
  let p := Sample.create Sample.manager
             (Sample.create_options (VString "123456789012345678")
                (VNumber ChannelType.GuildPrivateThread) (VBool false)) in
  request_path p
  = Some (Routes.threads "900000000000000001" (VString "123456789012345678"))
  /\ Body.type <$> request_body p = Some (VNumber 11)
  /\ Body.invitable <$> request_body p = Some VUndefined.
Proof. vm_compute. repeat split; reflexivity. Qed.

(** ** [_add] *)

(** C3.  [_add] of a thread whose identifier is already in the cache
    returns the cached instance and leaves the cache as it is; and of two
    calls with threads of one identifier the second returns the instance
    the first returned, which is the one the cache then holds, without
    changing the cache again. *)
Theorem add_idempotent m c thread t :
  deref c thread = Some t ->
  (forall existing,
      Collection.get (ThreadChannel.id t) (ThreadManager.cache m) = Some existing ->
      _add m c thread = Some (existing, m))
  /\ (forall thread' t',
        deref c thread' = Some t' -> ThreadChannel.id t' = ThreadChannel.id t ->
        exists original m1,
          _add m c thread = Some (original, m1)
          /\ _add m1 c thread' = Some (original, m1)
          /\ Collection.get (ThreadChannel.id t) (ThreadManager.cache m1) = Some original
          /\ (Collection.get (ThreadChannel.id t) (ThreadManager.cache m) = None ->
              original = thread)).
Proof.
  intros Ht. split.
  - intros existing He. unfold _add. rewrite Ht. cbn. now rewrite He.
  - intros thread' t' Ht' Hid. unfold _add. rewrite Ht, Ht'. cbn. rewrite Hid.
    destruct (Collection.get (ThreadChannel.id t) (ThreadManager.cache m))
      as [existing|] eqn:He.
    + exists existing, m. rewrite He.
      split; [reflexivity|]. split; [reflexivity|]. split; [reflexivity|discriminate].
    + exists thread,
        {| ThreadManager.channel := ThreadManager.channel m;
           ThreadManager.cache :=
             Collection.set (ThreadChannel.id t) thread (ThreadManager.cache m) |}.
      cbn [ThreadManager.cache]. rewrite get_set_eq.
      split; [reflexivity|]. split; [reflexivity|]. split; reflexivity.
Qed.

(** [_add] keeps one instance for an identifier. *)
Lemma add_keeps_identifiers_unique m c thread r m' :
  List.NoDup (Collection.keys (ThreadManager.cache m)) ->
  _add m c thread = Some (r, m') ->
  List.NoDup (Collection.keys (ThreadManager.cache m')).
Proof.
  unfold _add. destruct (deref c thread) as [t|]; cbn; [|discriminate].
  destruct (Collection.get (ThreadChannel.id t) (ThreadManager.cache m)).
  - intros H [= _ <-]. exact H.
  - intros H [= _ <-]. cbn [ThreadManager.cache]. now apply set_keys_NoDup.
Qed.

Lemma add_idempotent_witness :
  (_add Sample.manager Sample.client 0%nat = Some (0%nat, Sample.manager))
  /\ (exists original m1,
        _add Sample.news_manager Sample.client 1%nat = Some (original, m1)
        /\ _add m1 Sample.client 1%nat = Some (original, m1)
        /\ Collection.get "222222222222222222" (ThreadManager.cache m1) = Some original
        /\ (Collection.get "222222222222222222" (ThreadManager.cache Sample.news_manager)
            = None -> original = 1%nat)).
Proof.
  split.
  - apply (proj1 (add_idempotent Sample.manager Sample.client 0%nat Sample.thread_a eq_refl)).
    reflexivity.
  - apply (proj2 (add_idempotent Sample.news_manager Sample.client 1%nat Sample.thread_b
                    eq_refl) 1%nat Sample.thread_b); reflexivity.
Defined.

Example add_keeps_first_instance :
  let same_id := {| Client.objects := [Sample.thread_a; Sample.thread_a];
                    Client.channels := Collection.empty |} in
  exists m1,
    _add Sample.news_manager same_id 0%nat = Some (0%nat, m1)
    /\ _add m1 same_id 1%nat = Some (0%nat, m1).
Proof. eexists. split; reflexivity. Qed.

(** ** [_mapThreads]: the store and the filter *)

Lemma wf_client_spec (c : Client.t) :
  wf_client c = true
  <-> forall k r, In (k, r) (Client.channels c) -> (r < length (Client.objects c))%nat.
Proof.
  unfold wf_client. rewrite forallb_forall. split.
  - intros H k r Hin. specialize (H (k, r) Hin). cbn in H.
    now apply bool_decide_eq_true in H.
  - intros H [k r] Hin. apply bool_decide_eq_true. cbn. eauto.
Qed.

Lemma get_In {V : Type} (k : string) (v : V) (c : Collection.t V) :
  Collection.get k c = Some v -> In (k, v) c.
Proof.
  induction c as [|[k' v'] c IH]; cbn [Collection.get]; [discriminate|].
  destruct (String.eqb k k') eqn:E.
  - apply String.eqb_eq in E. intros [= ->]. left. congruence.
  - intros H. right. auto.
Qed.

Lemma cached_is_object (c : Client.t) (k : string) (r : Ref) :
  wf_client c = true -> Collection.get k (Client.channels c) = Some r ->
  is_Some (deref c r).
Proof.
  intros Hwf Hget. apply lookup_lt_is_Some_2.
  apply (proj1 (wf_client_spec c) Hwf k). now apply get_In.
Qed.

Lemma preserves_refl (c : Client.t) : preserves c c.
Proof. intros r t H. eauto. Qed.

Lemma preserves_trans (c1 c2 c3 : Client.t) :
  preserves c1 c2 -> preserves c2 c3 -> preserves c1 c3.
Proof.
  intros H12 H23 r t H. destruct (H12 r t H) as (t2 & H2 & Hp2 & Hi2).
  destruct (H23 r t2 H2) as (t3 & H3 & Hp3 & Hi3).
  exists t3. repeat split; congruence.
Qed.

Lemma all_of_parent_preserved (pid : string) (c c' : Client.t) (coll : Collection.t Ref) :
  preserves c c' -> all_of_parent pid c coll -> all_of_parent pid c' coll.
Proof.
  intros Hp Ha k r Hin. destruct (Ha k r Hin) as (t & Ht & Hpar & Hid).
  destruct (Hp r t Ht) as (t' & Ht' & Hpar' & Hid').
  exists t'. repeat split; congruence.
Qed.

Lemma deref_alter_eq (c : Client.t) (f : ThreadChannel.t -> ThreadChannel.t) (r : Ref)
    (t : ThreadChannel.t) (channels : Collection.t Ref) :
  deref c r = Some t ->
  deref {| Client.objects := alter f r (Client.objects c); Client.channels := channels |} r
  = Some (f t).
Proof.
  unfold deref. cbn [Client.objects]. intros H. rewrite list_lookup_alter_eq.
  apply fmap_Some. exists t. split; [exact H|reflexivity].
Qed.

Lemma deref_alter_ne (c : Client.t) (f : ThreadChannel.t -> ThreadChannel.t) (r r0 : Ref)
    (channels : Collection.t Ref) :
  r0 <> r ->
  deref {| Client.objects := alter f r (Client.objects c); Client.channels := channels |} r0
  = deref c r0.
Proof.
  unfold deref. cbn [Client.objects]. intros H. apply list_lookup_alter_ne. congruence.
Qed.

(** [client.channels._add] returns an object of the store. *)
Lemma channels_add_ok c raw guild cache r c' :
  wf_client c = true -> channels_add c raw guild cache = (r, c') ->
  wf_client c' = true /\ is_Some (deref c' r).
Proof.
  intros Hwf. unfold channels_add. cbv zeta.
  destruct (Collection.get (RawThread.id raw) (Client.channels c)) as [existing|] eqn:Hget.
  - intros [= <- <-]. destruct (cached_is_object _ _ _ Hwf Hget) as [t Ht].
    destruct (truthy (default cache (VBool true))); [|eauto].
    split.
    + apply wf_client_spec. cbn [Client.objects Client.channels]. intros k r Hin.
      rewrite length_alter. now apply (proj1 (wf_client_spec c) Hwf k).
    + rewrite (deref_alter_eq _ _ _ _ _ Ht). eauto.
  - intros [= <- <-].
    assert (Hnew : (length (Client.objects c)
                    < length (Client.objects c ++ [createChannel raw]))%nat)
      by (rewrite length_app; cbn; lia).
    split.
    + apply wf_client_spec. cbn [Client.objects Client.channels]. intros k r Hin.
      assert (Hold : In (k, r) (Client.channels c) -> (r < length (Client.objects c))%nat)
        by apply (proj1 (wf_client_spec c) Hwf).
      destruct (truthy (default cache (VBool true))).
      * apply in_set in Hin as [[= -> ->]|Hin]; [exact Hnew|]. specialize (Hold Hin). lia.
      * specialize (Hold Hin). lia.
    + unfold deref. cbn [Client.objects]. rewrite list_lookup_middle by reflexivity. eauto.
Qed.

Lemma mapThreads_step_ok opts coll c raw :
  wf_client c = true ->
  exists coll' c',
    mapThreads_step opts (coll, c) raw = Some (coll', c') /\ wf_client c' = true.
Proof.
  intros Hwf. unfold mapThreads_step.
  destruct (channels_add c raw _ (MapOptions.cache opts)) as [thread c'] eqn:Hadd.
  destruct (channels_add_ok _ _ _ _ _ _ Hwf Hadd) as (Hwf' & [t Ht]).
  rewrite Ht. cbn.
  destruct (MapOptions.parent opts) as [parent|];
    [destruct (negb (bool_decide _))|]; eauto.
Qed.

(** Over a well-formed client the [reduce] of [_mapThreads] runs to its
    end, and leaves a well-formed client. *)
Lemma reduce_threads_ok opts raws coll c :
  wf_client c = true ->
  exists coll' c',
    reduce_threads opts raws (coll, c) = Some (coll', c') /\ wf_client c' = true.
Proof.
  revert coll c. induction raws as [|raw rest IH]; intros coll c Hwf.
  - exists coll, c. cbn. eauto.
  - destruct (mapThreads_step_ok opts coll c raw Hwf) as (coll1 & c1 & Hs & Hwf1).
    destruct (IH coll1 c1 Hwf1) as (coll2 & c2 & Hr & Hwf2).
    exists coll2, c2. cbn [reduce_threads]. rewrite Hs. cbn. eauto.
Qed.

Lemma attach_member_ok c rawMember :
  wf_client c = true ->
  exists c', attach_member c rawMember = Some c'
    /\ wf_client c' = true /\ preserves c c'.
Proof.
  intros Hwf. unfold attach_member.
  destruct (Collection.get (RawMember.id rawMember) (Client.channels c)) as [r|] eqn:Hget.
  - destruct (cached_is_object _ _ _ Hwf Hget) as [t Ht]. rewrite Ht. cbn.
    eexists. split; [reflexivity|]. split.
    + apply wf_client_spec. cbn [Client.objects Client.channels]. intros k r0 Hin.
      rewrite length_insert. now apply (proj1 (wf_client_spec c) Hwf k).
    + intros r0 t0 H0. unfold deref in *. cbn [Client.objects].
      destruct (decide (r = r0)) as [<-|Hne].
      * rewrite list_lookup_insert_eq by (eapply lookup_lt_Some; eauto).
        rewrite Ht in H0. injection H0 as <-. eauto.
      * rewrite list_lookup_insert_ne by exact Hne. eauto.
  - exists c. eauto using preserves_refl.
Qed.

Lemma attach_members_ok rawMembers c :
  wf_client c = true ->
  exists c', attach_members rawMembers c = Some c'
    /\ wf_client c' = true /\ preserves c c'.
Proof.
  revert c. induction rawMembers as [|rm rest IH]; intros c Hwf.
  - exists c. cbn. eauto using preserves_refl.
  - destruct (attach_member_ok c rm Hwf) as (c1 & H1 & Hwf1 & Hp1).
    destruct (IH c1 Hwf1) as (c2 & H2 & Hwf2 & Hp2).
    exists c2. cbn [attach_members]. rewrite H1. cbn.
    eauto using preserves_trans.
Qed.

Lemma attach_member_channels c rawMember c' :
  attach_member c rawMember = Some c' -> Client.channels c' = Client.channels c.
Proof.
  unfold attach_member.
  destruct (Collection.get _ _) as [r|]; [|now intros [= <-]].
  destruct (deref c r); cbn; [|discriminate]. now intros [= <-].
Qed.

Lemma attach_members_channels rawMembers c c' :
  attach_members rawMembers c = Some c' -> Client.channels c' = Client.channels c.
Proof.
  revert c. induction rawMembers as [|rm rest IH]; intros c; cbn [attach_members].
  - now intros [= <-].
  - destruct (attach_member c rm) as [c1|] eqn:H1; cbn; [|discriminate].
    intros H. rewrite (IH _ H). exact (attach_member_channels _ _ _ H1).
Qed.

Lemma mapThreads_inv rawThreads client opts fetched client' :
  _mapThreads rawThreads client opts = Some (fetched, client') ->
  exists coll client1,
    reduce_threads opts (RawThreads.threads rawThreads) (Collection.empty, client)
    = Some (coll, client1)
    /\ attach_members (RawThreads.members rawThreads) client1 = Some client'
    /\ fetched = {| FetchedThreads.threads := coll;
                    FetchedThreads.hasMore :=
                      coalesce (RawThreads.has_more rawThreads) (VBool false) |}.
Proof.
  unfold _mapThreads.
  destruct (reduce_threads _ _ _) as [[coll client1]|]; cbn; [|discriminate].
  destruct (attach_members _ client1) as [client2|] eqn:Hm; cbn; [|discriminate].
  intros [= <- <-]. exists coll, client1. split; [reflexivity|split; [exact Hm|reflexivity]].
Qed.

Lemma mapThreads_intro rawThreads client opts coll client1 client2 :
  reduce_threads opts (RawThreads.threads rawThreads) (Collection.empty, client)
  = Some (coll, client1) ->
  attach_members (RawThreads.members rawThreads) client1 = Some client2 ->
  _mapThreads rawThreads client opts
  = Some ({| FetchedThreads.threads := coll;
             FetchedThreads.hasMore :=
               coalesce (RawThreads.has_more rawThreads) (VBool false) |}, client2).
Proof.
  unfold _mapThreads.
  destruct (reduce_threads _ _ _) as [[coll' client1']|]; [|discriminate].
  intros [= -> ->]. cbn. intros ->. reflexivity.
Qed.

(** ** [_mapThreads]: a channel cache that files threads by identifier *)

Lemma consistent_client_spec (c : Client.t) :
  consistent_client c = true
  <-> forall k r, In (k, r) (Client.channels c) ->
        exists t, deref c r = Some t /\ ThreadChannel.id t = k.
Proof.
  unfold consistent_client. rewrite forallb_forall. split.
  - intros H k r Hin. specialize (H (k, r) Hin). cbn [fst snd] in H.
    destruct (deref c r) as [t|]; [|discriminate]. apply String.eqb_eq in H. eauto.
  - intros H [k r] Hin. cbn [fst snd]. destruct (H k r Hin) as (t & -> & <-).
    apply String.eqb_refl.
Qed.

Lemma consistent_wf (c : Client.t) : consistent_client c = true -> wf_client c = true.
Proof.
  intros H. apply wf_client_spec. intros k r Hin.
  destruct (proj1 (consistent_client_spec c) H k r Hin) as (t & Ht & _).
  eapply lookup_lt_Some. exact Ht.
Qed.

Lemma consistent_get (c : Client.t) (k : string) (r : Ref) :
  consistent_client c = true -> Collection.get k (Client.channels c) = Some r ->
  exists t, deref c r = Some t /\ ThreadChannel.id t = k.
Proof.
  intros H Hg. apply (proj1 (consistent_client_spec c) H). now apply get_In.
Qed.

Lemma consistent_preserved (c c' : Client.t) :
  consistent_client c = true -> preserves c c' ->
  Client.channels c' = Client.channels c -> consistent_client c' = true.
Proof.
  intros H Hp Hc. apply consistent_client_spec. rewrite Hc. intros k r Hin.
  destruct (proj1 (consistent_client_spec c) H k r Hin) as (t & Ht & Hid).
  destruct (Hp r t Ht) as (t' & Ht' & _ & Hid'). exists t'. split; congruence.
Qed.

(** [client.channels._add] on a consistent client.  The thread it returns
    carries the identifier of the payload, and its parent as well when
    the flag is on; the returned thread is the only object that may have
    changed, and it was an object before only if it was cached under the
    identifier of the payload; the client stays consistent. *)
Lemma channels_add_consistent c raw guild cache r c' :
  consistent_client c = true -> channels_add c raw guild cache = (r, c') ->
  let flag := truthy (default cache (VBool true)) in
  consistent_client c' = true
  /\ (exists t, deref c' r = Some t /\ ThreadChannel.id t = RawThread.id raw
        /\ (flag = true -> ThreadChannel.parentId t = RawThread.parent_id raw)
        /\ (Collection.get (RawThread.id raw) (Client.channels c) = None ->
            t = createChannel raw)
        /\ (forall t0, deref c r = Some t0 -> flag = false -> t = t0))
  /\ (forall t0, deref c r = Some t0 ->
      Collection.get (RawThread.id raw) (Client.channels c) = Some r
      /\ ThreadChannel.id t0 = RawThread.id raw)
  /\ (forall r0 t0, r0 <> r -> deref c r0 = Some t0 -> deref c' r0 = Some t0)
  /\ (forall r0, Collection.get (RawThread.id raw) (Client.channels c) = Some r0 ->
      r = r0 /\ Client.channels c' = Client.channels c)
  /\ (Collection.get (RawThread.id raw) (Client.channels c) = None ->
      Client.channels c'
      = if flag
        then Collection.set (RawThread.id raw) r (Client.channels c)
        else Client.channels c).
Proof.
  intros Hc. unfold channels_add. cbv zeta.
  destruct (Collection.get (RawThread.id raw) (Client.channels c)) as [existing|] eqn:Hget.
  - intros [= <- <-]. destruct (consistent_get _ _ _ Hc Hget) as (t & Ht & Hid).
    destruct (truthy (default cache (VBool true))) eqn:Hflag.
    + assert (Hnew : deref {| Client.objects :=
                                alter (fun t => refresh t raw) existing (Client.objects c);
                              Client.channels := Client.channels c |} existing
                     = Some (refresh t raw)).
      { exact (deref_alter_eq _ _ _ _ _ Ht). }
      assert (Hframe : forall r0 t0, r0 <> existing -> deref c r0 = Some t0 ->
                deref {| Client.objects :=
                           alter (fun t => refresh t raw) existing (Client.objects c);
                         Client.channels := Client.channels c |} r0 = Some t0).
      { intros r0 t0 Hne H0. now rewrite deref_alter_ne. }
      split; [|split; [|split; [|split; [|split]]]].
      * apply consistent_client_spec. cbn [Client.channels]. intros k r Hin.
        destruct (proj1 (consistent_client_spec c) Hc k r Hin) as (t0 & Ht0 & Hid0).
        destruct (decide (r = existing)) as [->|Hne].
        -- exists (refresh t raw). split; [exact Hnew|]. cbn. congruence.
        -- exists t0. split; [now apply Hframe|exact Hid0].
      * exists (refresh t raw). split; [exact Hnew|]. split; [reflexivity|].
        split; [reflexivity|]. split; [discriminate|]. intros t0 _ Hf. discriminate Hf.
      * intros t0 Ht0. split; [reflexivity|congruence].
      * exact Hframe.
      * intros r0 [= <-]. split; reflexivity.
      * discriminate.
    + split; [exact Hc|]. split; [|split; [|split; [|split]]].
      * exists t. split; [exact Ht|]. split; [exact Hid|]. split; [discriminate|].
        split; [discriminate|]. intros t0 Ht0 _. congruence.
      * intros t0 Ht0. split; [reflexivity|congruence].
      * auto.
      * intros r0 [= <-]. split; reflexivity.
      * discriminate.
  - intros [= <- <-].
    assert (Hext : forall r0 t0, deref c r0 = Some t0 ->
                     deref {| Client.objects := Client.objects c ++ [createChannel raw];
                              Client.channels :=
                                if truthy (default cache (VBool true))
                                then Collection.set (RawThread.id raw)
                                       (length (Client.objects c)) (Client.channels c)
                                else Client.channels c |} r0 = Some t0).
    { unfold deref. cbn [Client.objects]. intros r0 t0 H0.
      rewrite lookup_app_l by (eapply lookup_lt_Some; eauto). exact H0. }
    assert (Hnew : deref {| Client.objects := Client.objects c ++ [createChannel raw];
                            Client.channels :=
                              if truthy (default cache (VBool true))
                              then Collection.set (RawThread.id raw)
                                     (length (Client.objects c)) (Client.channels c)
                              else Client.channels c |} (length (Client.objects c))
                   = Some (createChannel raw)).
    { unfold deref. cbn [Client.objects]. now rewrite list_lookup_middle. }
    assert (Hfresh : forall t0, deref c (length (Client.objects c)) <> Some t0).
    { intros t0 H0. unfold deref in H0. apply lookup_lt_Some in H0. lia. }
    split; [|split; [|split; [|split; [|split]]]].
    + apply consistent_client_spec. cbn [Client.channels]. intros k r Hin.
      assert (Hold : In (k, r) (Client.channels c) ->
                     exists t, deref c r = Some t /\ ThreadChannel.id t = k)
        by apply (proj1 (consistent_client_spec c) Hc).
      destruct (truthy (default cache (VBool true))).
      * apply in_set in Hin as [[= -> ->]|Hin]; [eauto|].
        destruct (Hold Hin) as (t & Ht & Hid). eauto.
      * destruct (Hold Hin) as (t & Ht & Hid). eauto.
    + exists (createChannel raw). split; [exact Hnew|]. split; [reflexivity|].
      split; [reflexivity|]. split; [reflexivity|].
      intros t0 Ht0. now contradiction (Hfresh t0).
    + intros t0 Ht0. now contradiction (Hfresh t0).
    + intros r0 t0 _. apply Hext.
    + discriminate.
    + reflexivity.
Qed.

(** Every object there was is still there after [client.channels._add],
    under the identifier it had. *)
Lemma channels_add_keeps_ids c raw guild cache r c' :
  consistent_client c = true -> channels_add c raw guild cache = (r, c') ->
  forall r0 t0, deref c r0 = Some t0 ->
    exists t0', deref c' r0 = Some t0' /\ ThreadChannel.id t0' = ThreadChannel.id t0.
Proof.
  intros Hc Hadd r0 t0 H0.
  destruct (channels_add_consistent _ _ _ _ _ _ Hc Hadd)
    as (_ & (t & Ht & Hid & _) & Hwas & Hframe & _).
  destruct (decide (r0 = r)) as [->|Hne].
  - destruct (Hwas t0 H0) as [_ Hid0]. exists t. split; [exact Ht|congruence].
  - exists t0. split; [now apply Hframe|reflexivity].
Qed.

(** ** [_mapThreads]: the filter on the parent *)

(** One step of the [reduce], mapped with a parent.  The third hypothesis
    is what a refresh needs: when the flag is on, the payload does not move
    a thread of the mapping to another parent. *)
Lemma mapThreads_step_scoped parent guild cache coll c raw :
  let opts := {| MapOptions.parent := Some parent; MapOptions.guild := guild;
                 MapOptions.cache := cache |} in
  let flag := truthy (default cache (VBool true)) in
  consistent_client c = true ->
  all_of_parent (Channel.id parent) c coll ->
  (flag = true -> forall k r, In (k, r) coll -> RawThread.id raw = k ->
     RawThread.parent_id raw = Some (Channel.id parent)) ->
  exists coll' c',
    mapThreads_step opts (coll, c) raw = Some (coll', c')
    /\ consistent_client c' = true
    /\ all_of_parent (Channel.id parent) c' coll'
    /\ (forall k r, In (k, r) coll' ->
        In (k, r) coll
        \/ (k = RawThread.id raw
            /\ (flag = true -> RawThread.parent_id raw = Some (Channel.id parent)))).
Proof.
  intros opts flag Hc Hall Hstay. unfold mapThreads_step, opts.
  cbn [MapOptions.parent MapOptions.guild MapOptions.cache].
  destruct (channels_add c raw _ cache) as [thread c1] eqn:Hadd.
  destruct (channels_add_consistent _ _ _ _ _ _ Hc Hadd)
    as (Hc1 & (t & Ht & Hid & Hpar & _ & Hsame) & Hwas & Hframe & _).
  cbv zeta in Hpar, Hsame. fold flag in Hpar, Hsame.
  rewrite Ht. cbn.
  assert (Hall1 : all_of_parent (Channel.id parent) c1 coll).
  { intros k r Hin. destruct (Hall k r Hin) as (t0 & Ht0 & Hpar0 & Hid0).
    destruct (decide (r = thread)) as [->|Hne].
    - destruct (Hwas t0 Ht0) as [_ Hidraw].
      exists t. split; [exact Ht|]. split; [|congruence].
      destruct flag eqn:Hflag.
      + rewrite (Hpar eq_refl). apply (Hstay eq_refl k thread Hin). congruence.
      + now rewrite (Hsame t0 Ht0 eq_refl).
    - exists t0. split; [now apply Hframe|]. split; assumption. }
  destruct (bool_decide (ThreadChannel.parentId t = Some (Channel.id parent))) eqn:Hdec;
    cbn [negb].
  - apply bool_decide_eq_true in Hdec.
    eexists _, c1. split; [reflexivity|]. split; [exact Hc1|]. split.
    + intros k r Hin. apply in_set in Hin as [[= -> ->]|Hin]; [eauto|]. now apply Hall1.
    + intros k r Hin. apply in_set in Hin as [[= -> ->]|Hin]; [|now left].
      right. split; [exact Hid|]. intros Hflag. now rewrite <- (Hpar Hflag).
  - exists coll, c1. split; [reflexivity|]. split; [exact Hc1|]. split; [exact Hall1|].
    intros k r Hin. now left.
Qed.

Lemma reduce_threads_scoped parent guild cache raws coll c :
  let opts := {| MapOptions.parent := Some parent; MapOptions.guild := guild;
                 MapOptions.cache := cache |} in
  let flag := truthy (default cache (VBool true)) in
  consistent_client c = true ->
  all_of_parent (Channel.id parent) c coll ->
  (flag = true -> forall k r raw, In (k, r) coll -> In raw raws -> RawThread.id raw = k ->
     RawThread.parent_id raw = Some (Channel.id parent)) ->
  (flag = true -> agree_on_parent raws) ->
  exists coll' c',
    reduce_threads opts raws (coll, c) = Some (coll', c')
    /\ consistent_client c' = true
    /\ all_of_parent (Channel.id parent) c' coll'.
Proof.
  intros opts flag. revert coll c.
  induction raws as [|raw rest IH]; intros coll c Hc Hall Hstay Hagree.
  - exists coll, c. cbn. auto.
  - destruct (mapThreads_step_scoped parent guild cache coll c raw Hc Hall)
      as (coll1 & c1 & Hs & Hc1 & Hall1 & Hfrom).
    { intros Hflag k r Hin Hk. apply (Hstay Hflag k r raw Hin); [now left|exact Hk]. }
    destruct (IH coll1 c1 Hc1 Hall1) as (coll2 & c2 & Hr & Hc2 & Hall2).
    { intros Hflag k r raw' Hin Hin' Hk.
      destruct (Hfrom k r Hin) as [Hold|[-> Hp]].
      - apply (Hstay Hflag k r raw' Hold); [now right|exact Hk].
      - rewrite <- (Hp Hflag). apply (Hagree Hflag); [now right|now left|exact Hk]. }
    { intros Hflag raw1 raw2 H1 H2. apply (Hagree Hflag); now right. }
    exists coll2, c2. cbn [reduce_threads]. fold opts in Hs. rewrite Hs. cbn. auto.
Qed.

(** With the flag off [client.channels._add] changes no object. *)
Lemma channels_add_off c raw guild cache r c' :
  wf_client c = true -> truthy (default cache (VBool true)) = false ->
  channels_add c raw guild cache = (r, c') ->
  wf_client c' = true /\ is_Some (deref c' r) /\ preserves c c'.
Proof.
  intros Hwf Hflag Hadd.
  destruct (channels_add_ok _ _ _ _ _ _ Hwf Hadd) as [Hwf' Hsome].
  split; [exact Hwf'|]. split; [exact Hsome|].
  revert Hadd. unfold channels_add. cbv zeta. rewrite Hflag.
  destruct (Collection.get (RawThread.id raw) (Client.channels c)) as [existing|].
  - intros [= <- <-]. apply preserves_refl.
  - intros [= <- <-] r0 t0 H0. exists t0. split; [|auto].
    unfold deref in *. cbn [Client.objects].
    rewrite lookup_app_l by (eapply lookup_lt_Some; eauto). exact H0.
Qed.

Lemma mapThreads_step_off parent guild cache coll c raw :
  let opts := {| MapOptions.parent := Some parent; MapOptions.guild := guild;
                 MapOptions.cache := cache |} in
  wf_client c = true -> truthy (default cache (VBool true)) = false ->
  all_of_parent (Channel.id parent) c coll ->
  exists coll' c',
    mapThreads_step opts (coll, c) raw = Some (coll', c')
    /\ wf_client c' = true
    /\ all_of_parent (Channel.id parent) c' coll'.
Proof.
  intros opts Hwf Hflag Hall. unfold mapThreads_step, opts.
  cbn [MapOptions.parent MapOptions.guild MapOptions.cache].
  destruct (channels_add c raw _ cache) as [thread c1] eqn:Hadd.
  destruct (channels_add_off _ _ _ _ _ _ Hwf Hflag Hadd) as (Hwf1 & [t Ht] & Hpres).
  rewrite Ht. cbn.
  pose proof (all_of_parent_preserved _ _ _ _ Hpres Hall) as Hall1.
  destruct (bool_decide (ThreadChannel.parentId t = Some (Channel.id parent))) eqn:Hdec;
    cbn [negb].
  - apply bool_decide_eq_true in Hdec.
    eexists _, c1. split; [reflexivity|]. split; [exact Hwf1|].
    intros k r Hin. apply in_set in Hin as [[= -> ->]|Hin]; [eauto|]. now apply Hall1.
  - exists coll, c1. auto.
Qed.

Lemma reduce_threads_off parent guild cache raws coll c :
  let opts := {| MapOptions.parent := Some parent; MapOptions.guild := guild;
                 MapOptions.cache := cache |} in
  wf_client c = true -> truthy (default cache (VBool true)) = false ->
  all_of_parent (Channel.id parent) c coll ->
  exists coll' c',
    reduce_threads opts raws (coll, c) = Some (coll', c')
    /\ wf_client c' = true
    /\ all_of_parent (Channel.id parent) c' coll'.
Proof.
  intros opts. revert coll c.
  induction raws as [|raw rest IH]; intros coll c Hwf Hflag Hall.
  - exists coll, c. cbn. auto.
  - destruct (mapThreads_step_off parent guild cache coll c raw Hwf Hflag Hall)
      as (coll1 & c1 & Hs & Hwf1 & Hall1).
    destruct (IH coll1 c1 Hwf1 Hflag Hall1) as (coll2 & c2 & Hr & Hwf2 & Hall2).
    exists coll2, c2. cbn [reduce_threads]. fold opts in Hs. rewrite Hs. cbn. auto.
Qed.

(** A listing mapped with a parent: the helper behind the callers.  With
    the flag off nothing more is asked than a well-formed client; with
    the flag on, entities are refreshed, and the cache has to file every
    thread under its own identifier and the payloads have to agree on the
    parent. *)
Lemma mapThreads_scoped rawThreads client parent guild cache :
  wf_client client = true ->
  (truthy (default cache (VBool true)) = true ->
   consistent_client client = true /\ agree_on_parent (RawThreads.threads rawThreads)) ->
  exists fetched client',
    _mapThreads rawThreads client
      {| MapOptions.parent := Some parent; MapOptions.guild := guild;
         MapOptions.cache := cache |}
    = Some (fetched, client')
    /\ all_of_parent (Channel.id parent) client' (FetchedThreads.threads fetched)
    /\ FetchedThreads.hasMore fetched
       = coalesce (RawThreads.has_more rawThreads) (VBool false).
Proof.
  intros Hwf Hon.
  assert (Hreduce : exists coll c1,
             reduce_threads
               {| MapOptions.parent := Some parent; MapOptions.guild := guild;
                  MapOptions.cache := cache |}
               (RawThreads.threads rawThreads) (Collection.empty, client)
             = Some (coll, c1)
             /\ wf_client c1 = true /\ all_of_parent (Channel.id parent) c1 coll).
  { assert (Hflag : {truthy (default cache (VBool true)) = true}
                    + {truthy (default cache (VBool true)) = false})
      by (destruct (truthy (default cache (VBool true))); auto).
    destruct Hflag as [Hflag|Hflag].
    - destruct (Hon Hflag) as [Hc Hagree].
      destruct (reduce_threads_scoped parent guild cache (RawThreads.threads rawThreads)
                  Collection.empty client Hc)
        as (coll & c1 & Hr & Hc1 & Hall);
        [intros k r []|intros _ k r raw []|intros _; exact Hagree|].
      exists coll, c1. split; [exact Hr|]. split; [exact (consistent_wf _ Hc1)|exact Hall].
    - apply (reduce_threads_off parent guild cache (RawThreads.threads rawThreads)
               Collection.empty client Hwf Hflag). intros k r []. }
  destruct Hreduce as (coll & c1 & Hr & Hwf1 & Hall).
  destruct (attach_members_ok (RawThreads.members rawThreads) c1 Hwf1)
    as (c2 & Hm & _ & Hp2).
  eexists _, c2. split; [exact (mapThreads_intro _ _ _ _ _ _ Hr Hm)|].
  cbn [FetchedThreads.threads FetchedThreads.hasMore].
  split; [exact (all_of_parent_preserved _ _ _ _ Hp2 Hall)|reflexivity].
Qed.




(** The same response with the flag off: nothing is refreshed, every
    payload makes an entity of its own, and the one of the sibling is
    filtered out. *)
Example scenario_flag_off_repeated_identifier :
  exists fetched client' t,
    _mapThreads (Sample.listing [Sample.raw_d; Sample.raw_d_moved] []) Sample.client
      (Sample.scoped (VBool false))
    = Some (fetched, client')
    /\ FetchedThreads.threads fetched = [("444444444444444444", 3%nat)]
    /\ deref client' 3%nat = Some t
    /\ ThreadChannel.parentId t = Some "900000000000000001".
Proof. eexists _, _, _. vm_compute. repeat split; reflexivity. Qed.

(** Why the amended C7 asks for a channel cache that files every thread
    under its own identifier: here one object is filed under two
    identifiers, the payload of the second refreshes the thread the first
    has put in the mapping, and the mapping comes back with a thread of
    the sibling, though no identifier is given twice. *)
Example scenario_misfiled_cache :
  let client :=
    {| Client.objects := [Sample.thread_a];
       Client.channels := [("111111111111111111", 0%nat); ("222222222222222222", 0%nat)] |} in
  wf_client client = true
  /\ consistent_client client = false
  /\ exists fetched client' t,
       _mapThreads (Sample.listing [Sample.raw_a; Sample.raw_b] []) client
         (Sample.scoped (VBool true))
       = Some (fetched, client')
       /\ FetchedThreads.threads fetched = [("111111111111111111", 0%nat)]
       /\ deref client' 0%nat = Some t
       /\ ThreadChannel.parentId t = Some "900000000000000002".
Proof.
  split; [reflexivity|]. split; [reflexivity|].
  eexists _, _, _. vm_compute. repeat split; reflexivity.
Qed.

(** Two payloads, one of the parent and one of its sibling: one entity. *)
Example scenario_two_payloads_one_entity :
  _mapThreads (Sample.listing [Sample.raw_a; Sample.raw_b] []) Sample.client
    (Sample.scoped (VBool true))
  = Some ({| FetchedThreads.threads := [("111111111111111111", 0%nat)];
             FetchedThreads.hasMore := VBool false |},
          Sample.client).
Proof. vm_compute. reflexivity. Qed.

Example scenario_new_thread_is_cached :
  exists fetched client',
    _mapThreads (Sample.listing [Sample.raw_d] []) Sample.client (Sample.scoped (VBool true))
    = Some (fetched, client')
    /\ FetchedThreads.threads fetched = [("444444444444444444", 3%nat)]
    /\ Collection.get "444444444444444444" (Client.channels client') = Some 3%nat
    /\ deref client' 3%nat = Some (createChannel Sample.raw_d).
Proof. eexists _, _. vm_compute. repeat split; reflexivity. Qed.

(** A cached thread that the response shows under another parent is
    refreshed before the filter looks at it, and so leaves the listing. *)
Example scenario_cached_thread_is_refreshed :
  exists fetched client',
    _mapThreads (Sample.listing [Sample.raw_a_moved] []) Sample.client
      (Sample.scoped VUndefined)
    = Some (fetched, client')
    /\ FetchedThreads.threads fetched = []
    /\ ThreadChannel.parentId <$> deref client' 0%nat = Some (Some "900000000000000002").
Proof. eexists _, _. vm_compute. repeat split; reflexivity. Qed.

(** ** [_mapThreads]: the members *)

Lemma attach_members_unmatched rawMembers c :
  (forall rm, In rm rawMembers ->
     Collection.get (RawMember.id rm) (Client.channels c) = None) ->
  attach_members rawMembers c = Some c.
Proof.
  induction rawMembers as [|rm rest IH]; intros H; [reflexivity|].
  cbn [attach_members]. unfold attach_member. rewrite (H rm) by now left.
  cbn. apply IH. intros rm' Hin. apply H. now right.
Qed.

(** One membership payload: the thread cached under its identifier takes
    it, every other object stays as it is. *)
Lemma attach_member_spec c rawMember :
  wf_client c = true ->
  exists c', attach_member c rawMember = Some c'
    /\ wf_client c' = true
    /\ Client.channels c' = Client.channels c
    /\ (forall r t, deref c r = Some t ->
        deref c' r
        = Some (if cached_under c r rawMember then members_add t rawMember else t))
    /\ (forall r, deref c r = None -> deref c' r = None).
Proof.
  intros Hwf. unfold attach_member, cached_under.
  destruct (Collection.get (RawMember.id rawMember) (Client.channels c)) as [r0|] eqn:Hget.
  - destruct (cached_is_object _ _ _ Hwf Hget) as [t0 Ht0]. rewrite Ht0. cbn.
    eexists. split; [reflexivity|]. split; [|split; [reflexivity|split]].
    + apply wf_client_spec. cbn [Client.objects Client.channels]. intros k r Hin.
      rewrite length_insert. now apply (proj1 (wf_client_spec c) Hwf k).
    + intros r t Ht. unfold deref in *. cbn [Client.objects].
      destruct (Nat.eqb_spec r0 r) as [<-|Hne].
      * rewrite list_lookup_insert_eq by (eapply lookup_lt_Some; eauto). congruence.
      * rewrite list_lookup_insert_ne by exact Hne. exact Ht.
    + intros r Hr. unfold deref in *. cbn [Client.objects].
      destruct (decide (r0 = r)) as [<-|Hne]; [congruence|].
      rewrite list_lookup_insert_ne by exact Hne. exact Hr.
  - exists c. split; [reflexivity|]. auto.
Qed.

(** The whole loop over the membership payloads, told object by object:
    an object of the store ends as it was with the payloads attached, in
    the order of the response, whose identifier the channel cache files
    under that object. *)
Lemma attach_members_spec rawMembers c :
  wf_client c = true ->
  exists c', attach_members rawMembers c = Some c'
    /\ Client.channels c' = Client.channels c
    /\ (forall r t, deref c r = Some t ->
        deref c' r
        = Some (fold_left members_add (List.filter (cached_under c r) rawMembers) t))
    /\ (forall r, deref c r = None -> deref c' r = None).
Proof.
  revert c. induction rawMembers as [|rm rest IH]; intros c Hwf.
  - exists c. cbn. auto.
  - destruct (attach_member_spec c rm Hwf) as (c1 & H1 & Hwf1 & Hch1 & Hobj1 & Hnone1).
    destruct (IH c1 Hwf1) as (c2 & H2 & Hch2 & Hobj2 & Hnone2).
    exists c2. cbn [attach_members]. rewrite H1. cbn.
    split; [exact H2|]. split; [congruence|]. split.
    + intros r t Ht. rewrite (Hobj2 r _ (Hobj1 r t Ht)).
      assert (Hsame : forall rm', cached_under c1 r rm' = cached_under c r rm')
        by (intros rm'; unfold cached_under; now rewrite Hch1).
      rewrite (List.filter_ext _ _ Hsame). cbn [List.filter].
      destruct (cached_under c r rm); reflexivity.
    + auto.
Qed.

(** A thread holds a membership for every member one of the attached
    payloads names. *)
Lemma fold_members_add_holds rawMembers t rm :
  In rm rawMembers ->
  is_Some (Collection.get (RawMember.user_id rm)
             (ThreadChannel.members (fold_left members_add rawMembers t))).
Proof.
  assert (Hkeep : forall l t0 k,
             is_Some (Collection.get k (ThreadChannel.members t0)) ->
             is_Some (Collection.get k (ThreadChannel.members (fold_left members_add l t0)))).
  { induction l as [|rm' l IH]; intros t0 k H; [exact H|].
    cbn [fold_left]. apply IH. cbn [members_add ThreadChannel.members].
    now apply get_set_is_Some. }
  revert t. induction rawMembers as [|rm' rest IH]; intros t; [intros []|].
  intros [->|Hin]; cbn [fold_left]; [|now apply IH].
  apply Hkeep. cbn [members_add ThreadChannel.members]. rewrite get_set_eq. eauto.
Qed.

(** C10.  A membership payload is matched against [client.channels.cache]
    and not against the mapping [_mapThreads] has just built.  With the
    mapping [threads] and the client [client1] the reduce leaves, and
    whatever [threads] holds: payloads whose identifier is not in the cache
    change nothing and raise nothing; for a response with any number of
    membership payloads, every object of the store ends as it was in
    [client1] with the payloads attached, in the order of the response,
    whose identifier the cache files under that object, so that every
    payload whose identifier is in the cache is attached to the cached
    thread and no other payload is attached to anything.  So a cached
    thread that the filter on [parentId] kept out of the mapping is
    changed all the same, and a thread of the mapping that is not cached
    is not. *)
Theorem mapThreads_members_by_client_cache :
  (forall rawThreads client opts threads client1,
      reduce_threads opts (RawThreads.threads rawThreads) (Collection.empty, client)
      = Some (threads, client1) ->
      let fetched :=
        {| FetchedThreads.threads := threads;
           FetchedThreads.hasMore :=
             coalesce (RawThreads.has_more rawThreads) (VBool false) |} in
      ((forall rm, In rm (RawThreads.members rawThreads) ->
          Collection.get (RawMember.id rm) (Client.channels client1) = None) ->
       _mapThreads rawThreads client opts = Some (fetched, client1))
      /\ (forall rm r t,
            RawThreads.members rawThreads = [rm] ->
            Collection.get (RawMember.id rm) (Client.channels client1) = Some r ->
            deref client1 r = Some t ->
            exists client2,
              _mapThreads rawThreads client opts = Some (fetched, client2)
              /\ deref client2 r = Some (members_add t rm)
              /\ Client.channels client2 = Client.channels client1
              /\ (forall r', r' <> r -> deref client2 r' = deref client1 r'))
      /\ (wf_client client = true ->
          exists client2,
            _mapThreads rawThreads client opts = Some (fetched, client2)
            /\ Client.channels client2 = Client.channels client1
            /\ (forall r t, deref client1 r = Some t ->
                deref client2 r
                = Some (fold_left members_add
                          (List.filter (cached_under client1 r)
                             (RawThreads.members rawThreads)) t))
            /\ (forall r, deref client1 r = None -> deref client2 r = None)
            /\ (forall rm r,
                  In rm (RawThreads.members rawThreads) ->
                  Collection.get (RawMember.id rm) (Client.channels client1) = Some r ->
                  exists t2, deref client2 r = Some t2
                    /\ is_Some (Collection.get (RawMember.user_id rm)
                                  (ThreadChannel.members t2)))))
  /\ (exists client2,
        _mapThreads (Sample.listing [Sample.raw_b] [Sample.member_of "222222222222222222"])
          Sample.client (Sample.scoped (VBool true))
        = Some ({| FetchedThreads.threads := [];
                   FetchedThreads.hasMore := VBool false |}, client2)
        /\ Collection.get "222222222222222222" (Client.channels Sample.client) = Some 1%nat
        /\ deref Sample.client 1%nat = Some Sample.thread_b
        /\ deref client2 1%nat
           = Some (members_add Sample.thread_b (Sample.member_of "222222222222222222"))
        /\ ThreadChannel.members Sample.thread_b = []
        /\ ThreadChannel.members
             (members_add Sample.thread_b (Sample.member_of "222222222222222222"))
           = [("555555555555555555", Sample.member_of "222222222222222222")])
  /\ (exists client2,
        _mapThreads (Sample.listing [Sample.raw_d] [Sample.member_of "444444444444444444"])
          Sample.client (Sample.scoped (VBool false))
        = Some ({| FetchedThreads.threads := [("444444444444444444", 3%nat)];
                   FetchedThreads.hasMore := VBool false |}, client2)
        /\ Collection.get "444444444444444444" (Client.channels client2) = None
        /\ deref client2 3%nat = Some (createChannel Sample.raw_d)
        /\ ThreadChannel.members (createChannel Sample.raw_d) = []).
Proof.
  split; [|split].
  - intros rawThreads client opts threads client1 Hr fetched. split; [|split].
    + intros Hnone. unfold _mapThreads. rewrite Hr. cbn.
      rewrite (attach_members_unmatched _ _ Hnone). reflexivity.
    + intros rm r t Hm Hget Ht. unfold _mapThreads. rewrite Hr, Hm. cbn.
      unfold attach_member. rewrite Hget, Ht. cbn.
      eexists. split; [reflexivity|]. unfold deref. cbn [Client.objects Client.channels].
      split; [|split; [reflexivity|]].
      * apply list_lookup_insert_eq. eapply lookup_lt_Some. exact Ht.
      * intros r' Hne. apply list_lookup_insert_ne. congruence.
    + intros Hwf.
      destruct (reduce_threads_ok opts (RawThreads.threads rawThreads)
                  Collection.empty client Hwf) as (coll' & c1' & Hr' & Hwf1).
      assert (Heq : Some (coll', c1') = Some (threads, client1)) by (rewrite <- Hr'; exact Hr).
      injection Heq as -> ->.
      destruct (attach_members_spec (RawThreads.members rawThreads) client1 Hwf1)
        as (client2 & Hm & Hch & Hobj & Hnone).
      exists client2. split; [exact (mapThreads_intro _ _ _ _ _ _ Hr Hm)|].
      split; [exact Hch|]. split; [exact Hobj|]. split; [exact Hnone|].
      intros rm r Hin Hget.
      destruct (cached_is_object _ _ _ Hwf1 Hget) as [t Ht].
      eexists. split; [exact (Hobj r t Ht)|].
      apply fold_members_add_holds. apply List.filter_In. split; [exact Hin|].
      unfold cached_under. rewrite Hget. apply Nat.eqb_refl.
  - eexists. vm_compute. repeat split; reflexivity.
  - eexists. vm_compute. repeat split; reflexivity.
Qed.

Lemma mapThreads_members_by_client_cache_witness :
  (_mapThreads (Sample.listing [Sample.raw_d] [Sample.member_of "444444444444444444"])
     Sample.client (Sample.scoped (VBool false))
   = Some ({| FetchedThreads.threads := [("444444444444444444", 3%nat)];
              FetchedThreads.hasMore := VBool false |},
           {| Client.objects := Client.objects Sample.client ++ [createChannel Sample.raw_d];
              Client.channels := Client.channels Sample.client |}))
  /\ (exists client2,
        _mapThreads (Sample.listing [Sample.raw_b] [Sample.member_of "222222222222222222"])
          Sample.client (Sample.scoped (VBool true))
        = Some ({| FetchedThreads.threads := [];
                   FetchedThreads.hasMore := VBool false |}, client2)
        /\ deref client2 1%nat
           = Some (members_add Sample.thread_b (Sample.member_of "222222222222222222"))
        /\ Client.channels client2 = Client.channels Sample.client
        /\ (forall r', r' <> 1%nat -> deref client2 r' = deref Sample.client r'))
  /\ (exists client2,
        _mapThreads
          (Sample.listing [Sample.raw_b]
             [Sample.member_of "444444444444444444"; Sample.member_of "222222222222222222";
              Sample.moderator_of "222222222222222222"; Sample.member_of "111111111111111111"])
          Sample.client (Sample.scoped (VBool true))
        = Some ({| FetchedThreads.threads := [];
                   FetchedThreads.hasMore := VBool false |}, client2)
        /\ deref client2 0%nat
           = Some (members_add Sample.thread_a (Sample.member_of "111111111111111111"))
        /\ deref client2 1%nat
           = Some (members_add
                     (members_add Sample.thread_b (Sample.member_of "222222222222222222"))
                     (Sample.moderator_of "222222222222222222"))
        /\ deref client2 2%nat = Some Sample.thread_c
        /\ deref client2 3%nat = None).
Proof.
  split; [|split].
  - apply (proj1 (proj1 mapThreads_members_by_client_cache
                    (Sample.listing [Sample.raw_d] [Sample.member_of "444444444444444444"])
                    Sample.client (Sample.scoped (VBool false)) _ _ eq_refl)).
    intros rm [<-|[]]. reflexivity.
  - apply (proj1 (proj2 (proj1 mapThreads_members_by_client_cache
                    (Sample.listing [Sample.raw_b] [Sample.member_of "222222222222222222"])
                    Sample.client (Sample.scoped (VBool true)) _ _ eq_refl))
             (Sample.member_of "222222222222222222") 1%nat Sample.thread_b);
      reflexivity.
  - destruct (proj2 (proj2 (proj1 mapThreads_members_by_client_cache
                    (Sample.listing [Sample.raw_b]
                       [Sample.member_of "444444444444444444";
                        Sample.member_of "222222222222222222";
                        Sample.moderator_of "222222222222222222";
                        Sample.member_of "111111111111111111"])
                    Sample.client (Sample.scoped (VBool true)) _ _ eq_refl)) eq_refl)
      as (client2 & Hm & _ & Hobj & Hnone & _).
    exists client2. split; [exact Hm|].
    split; [exact (Hobj 0%nat Sample.thread_a eq_refl)|].
    split; [exact (Hobj 1%nat Sample.thread_b eq_refl)|].
    split; [exact (Hobj 2%nat Sample.thread_c eq_refl)|].
    exact (Hnone 3%nat eq_refl).
Defined.

(** * Further properties of the manager *)

(** ** [create]: what is posted, and when nothing is *)

Lemma strict_eq_number_spec (v : Value) (n : Z) :
  strict_eq_number v n = true <-> v = VNumber n.
Proof.
  destruct v; cbn; split; try discriminate; try congruence.
  - intros H. apply Z.eqb_eq in H. congruence.
  - intros [= ->]. apply Z.eqb_refl.
Qed.

(** The request [create] posts, read back: the guard passed, the kind and
    the start message are those [create] settled on, and [invitable] goes
    with the private kind only. *)
Lemma create_posted messages_resolveId ThreadCreate_handle m options body :
  request_body (create messages_resolveId ThreadCreate_handle m options) = Some body ->
  invalid_type (ThreadCreateOptions.type options) = false
  /\ (exists startMessageId,
        resolve_create messages_resolveId m (ThreadCreateOptions.startMessage options)
          (ThreadCreateOptions.type options)
        = Ok (Body.type body, startMessageId)
        /\ request_path (create messages_resolveId ThreadCreate_handle m options)
           = Some (Routes.threads (Channel.id (ThreadManager.channel m)) startMessageId))
  /\ Body.invitable body
     = (if strict_eq_number (Body.type body) ChannelType.GuildPrivateThread
        then ThreadCreateOptions.invitable options else VUndefined).
Proof.
  unfold create. cbv zeta.
  destruct (invalid_type (ThreadCreateOptions.type options)); [discriminate|].
  destruct (resolve_create _ _ _ _) as [[resolvedType startMessageId]|e]; [|discriminate].
  cbn. intros [= <-]. cbn. eauto.
Qed.

(** The two ways [create] settles on a kind. *)
Lemma resolve_create_cases messages_resolveId m startMessage type resolvedType startMessageId :
  resolve_create messages_resolveId m startMessage type = Ok (resolvedType, startMessageId) ->
  let news := Channel.type (ThreadManager.channel m) = ChannelType.GuildNews in
  (truthy startMessage = true /\ truthy (messages_resolveId startMessage) = true
   /\ startMessageId = messages_resolveId startMessage
   /\ (news -> resolvedType = VNumber ChannelType.GuildNewsThread)
   /\ (~ news -> resolvedType = VNumber ChannelType.GuildPublicThread))
  \/ (truthy startMessage = false /\ startMessageId = VUndefined
      /\ (news -> resolvedType = VNumber ChannelType.GuildNewsThread)
      /\ (~ news ->
          resolvedType = coalesce type (VNumber ChannelType.GuildPublicThread))).
Proof.
  unfold resolve_create.
  destruct (Z.eqb_spec (Channel.type (ThreadManager.channel m)) ChannelType.GuildNews)
    as [Hn|Hn]; cbn [negb];
    destruct (truthy startMessage);
    try destruct (truthy (messages_resolveId startMessage)) eqn:Er; cbn [negb];
    try discriminate; intros [= <- <-]; cbv zeta.
  1, 4: left; repeat (split; [first [reflexivity|exact Er|intros; contradiction]|]);
        first [reflexivity|intros; contradiction].
  all: right; repeat (split; [first [reflexivity|intros; contradiction]|]);
       first [reflexivity|intros; contradiction].
Qed.

(** X1.  [invitable] goes out only with the private kind.  A request that
    [create] posts from a start message, or in an announcement channel,
    never carries [invitable], whatever the caller passed; elsewhere it
    carries the caller's [invitable] exactly when [type] is the number of
    the private thread kind (a string that spells that number does not
    count). *)
Theorem create_invitable messages_resolveId ThreadCreate_handle m options :
  let type := ThreadCreateOptions.type options in
  let startMessage := ThreadCreateOptions.startMessage options in
  let invitable := ThreadCreateOptions.invitable options in
  let p := create messages_resolveId ThreadCreate_handle m options in
  let news := Channel.type (ThreadManager.channel m) = ChannelType.GuildNews in
  forall body, request_body p = Some body ->
    (truthy startMessage = true \/ news -> Body.invitable body = VUndefined)
    /\ (truthy startMessage = false -> ~ news ->
        (type = VNumber ChannelType.GuildPrivateThread -> Body.invitable body = invitable)
        /\ (type <> VNumber ChannelType.GuildPrivateThread ->
            Body.invitable body = VUndefined))
    /\ (Body.invitable body <> VUndefined ->
        Body.type body = VNumber ChannelType.GuildPrivateThread).
Proof.
  intros type startMessage invitable p news body Hb.
  destruct (create_posted _ _ _ _ _ Hb) as (_ & (mid & Hr & _) & Hinv).
  fold type startMessage in Hr. fold invitable in Hinv.
  apply resolve_create_cases in Hr. cbv zeta in Hr. fold news in Hr.
  assert (Hkind : forall n, Body.type body = VNumber n ->
                    n <> ChannelType.GuildPrivateThread -> Body.invitable body = VUndefined).
  { intros n Hn Hne. rewrite Hinv, Hn. cbn.
    destruct (Z.eqb_spec n ChannelType.GuildPrivateThread); [contradiction|reflexivity]. }
  split; [|split].
  - intros Hsel.
    destruct Hr as [(_ & _ & _ & H1 & H2) | (Hs & _ & H1 & H2)].
    + destruct (Z.eq_dec (Channel.type (ThreadManager.channel m)) ChannelType.GuildNews)
        as [Hn|Hn]; fold news in Hn.
      * apply (Hkind _ (H1 Hn)). discriminate.
      * apply (Hkind _ (H2 Hn)). discriminate.
    + destruct Hsel as [Hsel|Hn]; [congruence|].
      apply (Hkind _ (H1 Hn)). discriminate.
  - intros Hs Hn.
    destruct Hr as [(Hs' & _) | (_ & _ & _ & H2)]; [congruence|].
    specialize (H2 Hn). rewrite H2 in Hinv. rewrite Hinv. split.
    + intros ->. reflexivity.
    + intros Hne.
      destruct (strict_eq_number (coalesce type _) _) eqn:E; [|reflexivity].
      apply strict_eq_number_spec in E. unfold coalesce in E.
      destruct (nullish type); [discriminate E|contradiction].
  - intros Hne. rewrite Hinv in Hne.
    destruct (strict_eq_number _ _) eqn:E; [|contradiction].
    now apply strict_eq_number_spec.
Qed.

Lemma create_invitable_witness :
  let from_message :=
    Sample.create Sample.manager
      (Sample.create_options (VString "123456789012345678")
         (VNumber ChannelType.GuildPrivateThread) (VBool true)) in
  let private :=
    Sample.create Sample.manager
      (Sample.create_options VUndefined (VNumber ChannelType.GuildPrivateThread)
         (VBool true)) in
  (exists body, request_body from_message = Some body /\ Body.invitable body = VUndefined)
  /\ (exists body, request_body private = Some body /\ Body.invitable body = VBool true).
Proof.
  intros from_message private. split.
  - eexists. split; [reflexivity|].
    apply (proj1 (create_invitable Sample.messages_resolveId Sample.ThreadCreate_handle
                    Sample.manager
                    (Sample.create_options (VString "123456789012345678")
                       (VNumber ChannelType.GuildPrivateThread) (VBool true)) _ eq_refl)).
    left. reflexivity.
  - eexists. split; [reflexivity|].
    apply (proj1 (proj2 (create_invitable Sample.messages_resolveId
                           Sample.ThreadCreate_handle Sample.manager
                           (Sample.create_options VUndefined
                              (VNumber ChannelType.GuildPrivateThread) (VBool true))
                           _ eq_refl))).
    + reflexivity.
    + discriminate.
    + reflexivity.
Defined.

(** X2.  [create] rejects in two ways only, and the guard on [type] comes
    first: a [type] that fails the guard rejects with the error of [type]
    even when the start message would not resolve either; a truthy start
    message that the resolver maps to nothing rejects with the error of
    [startMessage]; every other call posts to the threads route of the
    bound channel, under the resolved message when there is a start message
    and under no message otherwise. *)
Theorem create_outcome messages_resolveId ThreadCreate_handle m options :
  let type := ThreadCreateOptions.type options in
  let startMessage := ThreadCreateOptions.startMessage options in
  let p := create messages_resolveId ThreadCreate_handle m options in
  let channelId := Channel.id (ThreadManager.channel m) in
  (invalid_type type = true ->
     p = Rejected (INVALID_TYPE "type" "ThreadChannelType or Number"))
  /\ (invalid_type type = false -> truthy startMessage = true ->
      truthy (messages_resolveId startMessage) = false ->
      p = Rejected (INVALID_TYPE "startMessage" "MessageResolvable"))
  /\ (invalid_type type = false -> truthy startMessage = true ->
      truthy (messages_resolveId startMessage) = true ->
      request_path p = Some (Routes.threads channelId (messages_resolveId startMessage)))
  /\ (invalid_type type = false -> truthy startMessage = false ->
      request_path p = Some (Routes.threads channelId VUndefined))
  /\ (forall e, p = Rejected e ->
      (e = INVALID_TYPE "type" "ThreadChannelType or Number" /\ invalid_type type = true)
      \/ (e = INVALID_TYPE "startMessage" "MessageResolvable"
          /\ invalid_type type = false /\ truthy startMessage = true
          /\ truthy (messages_resolveId startMessage) = false)).
Proof.
  intros type startMessage p channelId. subst p. unfold create. cbv zeta.
  fold type startMessage channelId. unfold resolve_create. fold startMessage.
  destruct (invalid_type type).
  { split; [reflexivity|]. repeat (split; [discriminate|]).
    intros e [= <-]. left. auto. }
  split; [discriminate|].
  destruct (truthy startMessage); [destruct (truthy (messages_resolveId startMessage))|];
    cbn [negb].
  - split; [discriminate|]. split; [reflexivity|]. split; [discriminate|]. discriminate.
  - split; [reflexivity|]. split; [discriminate|]. split; [discriminate|].
    intros e [= <-]. right. auto.
  - split; [discriminate|]. split; [discriminate|].
    destruct (negb (Channel.type (ThreadManager.channel m) =? ChannelType.GuildNews));
      (split; [reflexivity|discriminate]).
Qed.

Lemma create_outcome_witness :
  Sample.create Sample.manager
    (Sample.create_options (VString "not an identifier") VUndefined VUndefined)
  = Rejected (INVALID_TYPE "startMessage" "MessageResolvable")
  /\ Sample.create Sample.manager
       (Sample.create_options (VString "not an identifier") (VObject []) VUndefined)
     = Rejected (INVALID_TYPE "type" "ThreadChannelType or Number").
Proof.
  split.
  - apply (create_outcome Sample.messages_resolveId Sample.ThreadCreate_handle
             Sample.manager
             (Sample.create_options (VString "not an identifier") VUndefined VUndefined));
      reflexivity.
  - apply (create_outcome Sample.messages_resolveId Sample.ThreadCreate_handle
             Sample.manager
             (Sample.create_options (VString "not an identifier") (VObject []) VUndefined)).
    reflexivity.
Defined.

(** ** [fetch]: what a listing depends on *)

Lemma read_of_falsy (c : Client.t) (v : Value) (k : string) :
  truthy v = false -> read c v k = VUndefined.
Proof. destruct v; cbn; try reflexivity; discriminate. Qed.

(** X3.  When the selector does not resolve to a channel, [fetch] depends
    on nothing but the [archived] property of the selector and the [cache]
    option: [force], [active] and whatever else the selector carries are
    never looked at. *)
Theorem fetch_listing_inputs Date_parse channels_resolveId m c
    options1 options2 cacheOptions1 cacheOptions2 :
  (truthy options1 = true -> truthy (channels_resolveId c options1) = false) ->
  (truthy options2 = true -> truthy (channels_resolveId c options2) = false) ->
  read c options1 "archived" = read c options2 "archived" ->
  default (BaseFetchOptions.cache cacheOptions1) (VBool true)
  = default (BaseFetchOptions.cache cacheOptions2) (VBool true) ->
  fetch Date_parse channels_resolveId m c options1 cacheOptions1
  = fetch Date_parse channels_resolveId m c options2 cacheOptions2.
Proof.
  intros H1 H2 Ha Hc.
  assert (Hshape : forall options cacheOptions,
             (truthy options = true -> truthy (channels_resolveId c options) = false) ->
             fetch Date_parse channels_resolveId m c options cacheOptions
             = let cache := default (BaseFetchOptions.cache cacheOptions) (VBool true) in
               if truthy (read c options "archived")
               then fetchArchived Date_parse m c
                      (destructure c (read c options "archived")) cache
               else fetchActive m cache).
  { intros options cacheOptions H. unfold fetch. cbv zeta.
    destruct (truthy options) eqn:Et; cbn [negb].
    - now rewrite (H eq_refl).
    - now rewrite (read_of_falsy c options "archived" Et). }
  rewrite (Hshape _ _ H1), (Hshape _ _ H2). cbv zeta. now rewrite Ha, Hc.
Qed.

Lemma fetch_listing_inputs_witness :
  fetch Sample.Date_parse Sample.channels_resolveId Sample.manager Sample.client
    (VObject [("active", VBool false)])
    {| BaseFetchOptions.cache := VUndefined; BaseFetchOptions.force := VBool true |}
  = fetch Sample.Date_parse Sample.channels_resolveId Sample.manager Sample.client
      VUndefined
      {| BaseFetchOptions.cache := VBool true; BaseFetchOptions.force := VUndefined |}.
Proof.
  apply (fetch_listing_inputs Sample.Date_parse Sample.channels_resolveId Sample.manager
           Sample.client); reflexivity.
Defined.

(** X4.  An [archived] that is truthy but carries no options (a boolean, a
    number, a string, a date) lists with every default: the public archive
    of the bound channel, without [limit] and without [before]. *)
Theorem fetch_archived_without_options Date_parse channels_resolveId m c
    options cacheOptions :
  let archived := read c options "archived" in
  let p := fetch Date_parse channels_resolveId m c options cacheOptions in
  truthy options = true ->
  truthy (channels_resolveId c options) = false ->
  truthy archived = true ->
  (forall props, archived <> VObject props) ->
  (forall r, archived <> VThread r) ->
  request_path p
  = Some (Routes.channelThreads (Channel.id (ThreadManager.channel m)) (VString "public"))
  /\ request_query p = []
  /\ issues_request p = true.
Proof.
  intros archived p Ht Hr Ha Hobj Hthread. subst p. unfold fetch. cbv zeta.
  rewrite Ht, Hr. fold archived. rewrite Ha. cbn [negb].
  assert (Hopts : destructure c archived
                  = {| FetchArchivedThreadOptions.type := VUndefined;
                       FetchArchivedThreadOptions.fetchAll := VUndefined;
                       FetchArchivedThreadOptions.before := VUndefined;
                       FetchArchivedThreadOptions.limit := VUndefined |}).
  { destruct archived as [| | | | | | |r|props]; try reflexivity.
    - now contradiction (Hthread r).
    - now contradiction (Hobj props). }
  rewrite Hopts. cbn. auto.
Qed.

Lemma fetch_archived_without_options_witness :
  let p := fetch Sample.Date_parse Sample.channels_resolveId Sample.manager Sample.client
             (VObject [("archived", VBool true)])
             {| BaseFetchOptions.cache := VUndefined; BaseFetchOptions.force := VUndefined |} in
  request_path p = Some (Routes.channelThreads "900000000000000001" (VString "public"))
  /\ request_query p = []
  /\ issues_request p = true.
Proof.
  apply (fetch_archived_without_options Sample.Date_parse Sample.channels_resolveId
           Sample.manager Sample.client (VObject [("archived", VBool true)])
           {| BaseFetchOptions.cache := VUndefined; BaseFetchOptions.force := VUndefined |});
    try reflexivity; discriminate.
Defined.

(** ** [fetchArchived]: the query in full *)

Lemma iso_of_time_truthy (t : Z) : truthy (VString (iso_of_time t)) = true.
Proof.
  pose proof (iso_of_time_is_iso8601 t) as H.
  destruct (iso_of_time t); [discriminate H|reflexivity].
Qed.

Lemma identifier_form_present (before : Value) :
  instanceof_ThreadChannel before || test_snowflake (String_ before) = true ->
  negb (String.eqb (typeof before) "undefined") = true.
Proof. destruct before; cbn; try reflexivity. discriminate. Qed.

(** The [before] block on a cursor of the form of an identifier, on the
    route of the joined archive and on the other. *)
Lemma set_before_identifier_joined Date_parse m c type fetchAll before query :
  instanceof_ThreadChannel before || test_snowflake (String_ before) = true ->
  joined type fetchAll = true ->
  resolved_archivedAt m c before <> Some InvalidDate ->
  set_before Date_parse m c type fetchAll before query
  = Ok (match resolveId c before with
        | Some i => if truthy (VString i)
                    then Collection.set "before" (VString i) query else query
        | None => query
        end).
Proof.
  intros Hf Hj Hd. unfold set_before, archived_timestamp, mbind, Result_bind.
  rewrite (identifier_form_present _ Hf), Hf, Hj.
  destruct (resolved_archivedAt m c before) as [[|t]|]; [congruence| |];
    cbn [toISOString]; destruct (resolveId c before) as [i|]; try reflexivity;
    destruct (truthy (VString i)); reflexivity.
Qed.

Lemma set_before_identifier_general Date_parse m c type fetchAll before query t :
  instanceof_ThreadChannel before || test_snowflake (String_ before) = true ->
  joined type fetchAll = false ->
  resolved_archivedAt m c before = Some (ValidDate t) ->
  set_before Date_parse m c type fetchAll before query
  = Ok (Collection.set "before" (VString (iso_of_time t)) query).
Proof.
  intros Hf Hj Hd. unfold set_before, archived_timestamp, mbind, Result_bind.
  rewrite (identifier_form_present _ Hf), Hf, Hj, Hd. cbn [toISOString].
  now rewrite iso_of_time_truthy.
Qed.

Lemma set_before_date Date_parse m c type fetchAll before query :
  before <> VUndefined ->
  instanceof_ThreadChannel before || test_snowflake (String_ before) = false ->
  set_before Date_parse m c type fetchAll before query
  = match toISOString (Date_ Date_parse before) with
    | Some timestamp =>
        if strict_eq_string type "public" || truthy fetchAll
        then Ok (Collection.set "before" (VString timestamp) query)
        else Ok query
    | None => Throw (INVALID_TYPE "before" "DateResolvable or ThreadChannelResolvable")
    end.
Proof.
  intros Hp Hf. unfold set_before. now rewrite (present_spec _ Hp), Hf.
Qed.

Lemma set_before_on_limit (limit v : Value) :
  Collection.set "before" v (makeURLSearchParams [("limit", limit)])
  = makeURLSearchParams [("limit", limit)] ++ [("before", v)].
Proof. unfold makeURLSearchParams. cbn. destruct (nullish limit); reflexivity. Qed.

(** X5.  For a [limit] that is absent, a number or a string, the query of
    the read [fetchArchived] issues is [limit], when the caller gave one
    (neither [undefined] nor [null]), followed by [before], when a cursor
    was chosen: it has no other parameter, and none twice. *)
Theorem fetchArchived_query_shape Date_parse m c options cache :
  let limit := FetchArchivedThreadOptions.limit options in
  let p := fetchArchived Date_parse m c options cache in
  nullish limit = true \/ typeof limit = "number" \/ typeof limit = "string" ->
  issues_request p = true ->
  request_query p
  = (if nullish limit then [] else [("limit", limit)])
      ++ match sent_before p with
         | Some v => [("before", v)]
         | None => []
         end.
Proof.
  intros limit p _ Hi.
  pose proof (fetchArchived_outcome Date_parse m c options cache) as Ho.
  pose proof (set_before_cases Date_parse m c
                (default (FetchArchivedThreadOptions.type options) (VString "public"))
                (default (FetchArchivedThreadOptions.fetchAll options) (VBool false))
                (FetchArchivedThreadOptions.before options)
                (makeURLSearchParams [("limit", limit)])) as Hc.
  cbv zeta in Ho. fold limit p in Ho.
  destruct (set_before _ _ _ _ _ _ _) as [q|e].
  - destruct Ho as [k Ho]. rewrite Ho. unfold sent_before. cbn [request_query].
    assert (Hl : makeURLSearchParams [("limit", limit)]
                 = if nullish limit then [] else [("limit", limit)]).
    { unfold makeURLSearchParams. cbn. now destruct (nullish limit). }
    destruct Hc as [-> | (s & -> & _)].
    + rewrite limit_query_has_no_before, app_nil_r. exact Hl.
    + rewrite get_set_eq, set_before_on_limit. now rewrite Hl.
  - rewrite Ho in Hi. discriminate.
Qed.

Lemma fetchArchived_query_shape_witness :
  let p := Sample.fetchArchived Sample.manager Sample.client
             (Sample.archived_options (VString "public") VUndefined
                (VString "333333333333333333") (VNumber 10)) VUndefined in
  request_query p
  = [("limit", VNumber 10)]
      ++ match sent_before p with
         | Some v => [("before", v)]
         | None => []
         end.
Proof.
  apply (fetchArchived_query_shape Sample.Date_parse Sample.manager Sample.client
           (Sample.archived_options (VString "public") VUndefined
              (VString "333333333333333333") (VNumber 10)) VUndefined).
  - right. left. reflexivity.
  - reflexivity.
Defined.

(** What [fetchArchived] does once its [before] block has built the
    query. *)
Lemma fetchArchived_issues Date_parse m c options cache q :
  let type := default (FetchArchivedThreadOptions.type options) (VString "public") in
  let fetchAll := default (FetchArchivedThreadOptions.fetchAll options) (VBool false) in
  set_before Date_parse m c type fetchAll (FetchArchivedThreadOptions.before options)
    (makeURLSearchParams [("limit", FetchArchivedThreadOptions.limit options)])
  = Ok q ->
  let p := fetchArchived Date_parse m c options cache in
  issues_request p = true
  /\ request_path p = Some (archived_path m type fetchAll)
  /\ request_query p = q.
Proof.
  intros type fetchAll Hq p.
  pose proof (fetchArchived_outcome Date_parse m c options cache) as Ho.
  cbv zeta in Ho. fold type fetchAll in Ho. rewrite Hq in Ho.
  destruct Ho as [k Ho]. subst p. rewrite Ho. cbn. auto.
Qed.

(** X6.  On the route of the joined archive a cursor of the form of an
    identifier goes out as the identifier it resolves to, and needs no
    cached entity: a string of 16 to 19 digits is sent as it is, a thread
    instance as its (non-empty) identifier, a number of that many digits as
    nothing. *)
Theorem fetchArchived_joined_identifier Date_parse m c options cache :
  let type := default (FetchArchivedThreadOptions.type options) (VString "public") in
  let fetchAll := default (FetchArchivedThreadOptions.fetchAll options) (VBool false) in
  let before := FetchArchivedThreadOptions.before options in
  let p := fetchArchived Date_parse m c options cache in
  type = VString "private" -> truthy fetchAll = false ->
  instanceof_ThreadChannel before || test_snowflake (String_ before) = true ->
  resolved_archivedAt m c before <> Some InvalidDate ->
  issues_request p = true
  /\ request_path p
     = Some (Routes.channelJoinedArchivedThreads (Channel.id (ThreadManager.channel m)))
  /\ (forall s, before = VString s -> sent_before p = Some (VString s))
  /\ (forall r t, before = VThread r -> deref c r = Some t -> ThreadChannel.id t <> "" ->
      sent_before p = Some (VString (ThreadChannel.id t)))
  /\ (forall n, before = VNumber n -> sent_before p = None).
Proof.
  intros type fetchAll before p Ht Hf Hform Hd.
  assert (Hj : joined type fetchAll = true) by (apply joined_spec; auto).
  pose proof (set_before_identifier_joined Date_parse m c type fetchAll before
                (makeURLSearchParams [("limit", FetchArchivedThreadOptions.limit options)])
                Hform Hj Hd) as Hq.
  destruct (fetchArchived_issues Date_parse m c options cache _ Hq) as (Hi & Hp & Hquery).
  fold p in Hi, Hp, Hquery. fold type fetchAll in Hp.
  unfold archived_path in Hp. rewrite Hj in Hp.
  split; [exact Hi|]. split; [exact Hp|]. unfold sent_before. rewrite Hquery.
  split; [|split].
  - intros s Hb. rewrite Hb in Hform |- *. cbn in Hform |- *. rewrite Hform.
    assert (Hne : negb (String.eqb s "") = true).
    { destruct s; [discriminate Hform|reflexivity]. }
    rewrite Hne. apply get_set_eq.
  - intros r t Hb Hr Hne. rewrite Hb. cbn [resolveId]. rewrite Hr. cbn.
    apply String.eqb_neq in Hne. rewrite Hne. apply get_set_eq.
  - intros n Hb. rewrite Hb. cbn [resolveId]. apply limit_query_has_no_before.
Qed.

Lemma fetchArchived_joined_identifier_witness :
  let p := Sample.fetchArchived Sample.manager Sample.client
             (Sample.archived_options (VString "private") VUndefined
                (VString "444444444444444444") VUndefined) VUndefined in
  issues_request p = true
  /\ request_path p = Some (Routes.channelJoinedArchivedThreads "900000000000000001")
  /\ sent_before p = Some (VString "444444444444444444").
Proof.
  intros p.
  destruct (fetchArchived_joined_identifier Sample.Date_parse Sample.manager Sample.client
              (Sample.archived_options (VString "private") VUndefined
                 (VString "444444444444444444") VUndefined) VUndefined)
    as (H1 & H2 & H3 & _); [reflexivity | reflexivity | reflexivity | discriminate |].
  split; [exact H1|]. split; [exact H2|]. exact (H3 _ eq_refl).
Defined.

(** X7.  On the route of the channel archive a cursor of the form of an
    identifier goes out as the archive timestamp of the entity it resolves
    to, the ISO string of its [archivedAt]; a string of 16 to 19 digits is
    looked up in the cache of the manager and is itself never sent. *)
Theorem fetchArchived_archive_timestamp Date_parse m c options cache t :
  let type := default (FetchArchivedThreadOptions.type options) (VString "public") in
  let fetchAll := default (FetchArchivedThreadOptions.fetchAll options) (VBool false) in
  let before := FetchArchivedThreadOptions.before options in
  let p := fetchArchived Date_parse m c options cache in
  ~ (type = VString "private" /\ truthy fetchAll = false) ->
  instanceof_ThreadChannel before || test_snowflake (String_ before) = true ->
  resolved_archivedAt m c before = Some (ValidDate t) ->
  issues_request p = true
  /\ request_path p
     = Some (Routes.channelThreads (Channel.id (ThreadManager.channel m)) type)
  /\ sent_before p = Some (VString (iso_of_time t))
  /\ (forall s, before = VString s -> sent_before p <> Some (VString s)).
Proof.
  intros type fetchAll before p Hgen Hform Hd.
  assert (Hj : joined type fetchAll = false).
  { destruct (joined type fetchAll) eqn:J; auto. apply joined_spec in J. contradiction. }
  pose proof (set_before_identifier_general Date_parse m c type fetchAll before
                (makeURLSearchParams [("limit", FetchArchivedThreadOptions.limit options)])
                t Hform Hj Hd) as Hq.
  destruct (fetchArchived_issues Date_parse m c options cache _ Hq) as (Hi & Hp & Hquery).
  fold p in Hi, Hp, Hquery. fold type fetchAll in Hp.
  unfold archived_path in Hp. rewrite Hj in Hp.
  split; [exact Hi|]. split; [exact Hp|]. unfold sent_before. rewrite Hquery, get_set_eq.
  split; [reflexivity|].
  intros s Hb [= Heq]. rewrite Hb in Hform. cbn in Hform.
  pose proof (iso_of_time_is_iso8601 t) as Hiso. rewrite Heq in Hiso.
  apply iso8601_not_snowflake in Hiso. congruence.
Qed.

Lemma fetchArchived_archive_timestamp_witness :
  let p := Sample.fetchArchived Sample.manager Sample.client
             (Sample.archived_options (VString "private") (VBool true)
                (VString "333333333333333333") VUndefined) VUndefined in
  issues_request p = true
  /\ request_path p
     = Some (Routes.channelThreads "900000000000000001" (VString "private"))
  /\ sent_before p = Some (VString (iso_of_time 1672531200000))
  /\ (forall s, VString "333333333333333333" = VString s ->
      sent_before p <> Some (VString s)).
Proof.
  apply (fetchArchived_archive_timestamp Sample.Date_parse Sample.manager Sample.client
           (Sample.archived_options (VString "private") (VBool true)
              (VString "333333333333333333") VUndefined) VUndefined 1672531200000).
  - intros [_ H]. discriminate H.
  - reflexivity.
  - reflexivity.
Defined.

(** X8.  A [type] that is neither 'public' nor 'private', with a falsy
    [fetchAll], reads the channel archive of that [type], and there a date
    is checked but never sent: a [before] that is not of the form of an
    identifier still rejects when it denotes no date, and otherwise the
    read goes out without [before]; an archive timestamp goes out as on
    the public archive. *)
Theorem fetchArchived_other_type Date_parse m c options cache :
  let type := default (FetchArchivedThreadOptions.type options) (VString "public") in
  let fetchAll := default (FetchArchivedThreadOptions.fetchAll options) (VBool false) in
  let before := FetchArchivedThreadOptions.before options in
  let p := fetchArchived Date_parse m c options cache in
  type <> VString "public" -> type <> VString "private" -> truthy fetchAll = false ->
  (instanceof_ThreadChannel before || test_snowflake (String_ before) = false ->
     sent_before p = None
     /\ (before <> VUndefined -> toISOString (Date_ Date_parse before) = None ->
         p = Rejected (INVALID_TYPE "before" "DateResolvable or ThreadChannelResolvable"))
     /\ (before = VUndefined \/ toISOString (Date_ Date_parse before) <> None ->
         request_path p
         = Some (Routes.channelThreads (Channel.id (ThreadManager.channel m)) type)))
  /\ (instanceof_ThreadChannel before || test_snowflake (String_ before) = true ->
      forall t, resolved_archivedAt m c before = Some (ValidDate t) ->
      request_path p
      = Some (Routes.channelThreads (Channel.id (ThreadManager.channel m)) type)
      /\ sent_before p = Some (VString (iso_of_time t))).
Proof.
  intros type fetchAll before p Hpub Hpriv Hf.
  assert (Hj : joined type fetchAll = false).
  { destruct (joined type fetchAll) eqn:J; auto. apply joined_spec in J as [J _].
    contradiction. }
  assert (Hsend : strict_eq_string type "public" || truthy fetchAll = false).
  { rewrite Hf, orb_false_r. destruct (strict_eq_string type "public") eqn:E; auto.
    apply strict_eq_string_spec in E. contradiction. }
  assert (Hpath : archived_path m type fetchAll
                  = Routes.channelThreads (Channel.id (ThreadManager.channel m)) type).
  { unfold archived_path. now rewrite Hj. }
  split.
  - intros Hform.
    assert (Hdec : before = VUndefined \/ before <> VUndefined).
    { destruct (String.eqb (typeof before) "undefined") eqn:Eu.
      - left. now apply typeof_undefined.
      - right. intros Hu. apply typeof_undefined in Hu. congruence. }
    destruct Hdec as [Hu|Hp].
    + assert (Hq : set_before Date_parse m c type fetchAll before
                     (makeURLSearchParams
                        [("limit", FetchArchivedThreadOptions.limit options)])
                   = Ok (makeURLSearchParams
                           [("limit", FetchArchivedThreadOptions.limit options)])).
      { unfold set_before. now rewrite Hu. }
      destruct (fetchArchived_issues Date_parse m c options cache _ Hq)
        as (Hi & Hp' & Hquery).
      fold p in Hi, Hp', Hquery. fold type fetchAll in Hp'. rewrite Hpath in Hp'.
      unfold sent_before. rewrite Hquery, limit_query_has_no_before.
      split; [reflexivity|]. split; [contradiction|auto].
    + pose proof (set_before_date Date_parse m c type fetchAll before
                    (makeURLSearchParams
                       [("limit", FetchArchivedThreadOptions.limit options)]) Hp Hform)
        as Hq.
      rewrite Hsend in Hq.
      destruct (toISOString (Date_ Date_parse before)) as [ts|] eqn:Ed.
      * destruct (fetchArchived_issues Date_parse m c options cache _ Hq)
          as (Hi & Hp' & Hquery).
        fold p in Hi, Hp', Hquery. fold type fetchAll in Hp'. rewrite Hpath in Hp'.
        unfold sent_before. rewrite Hquery, limit_query_has_no_before.
        split; [reflexivity|]. split; [discriminate|auto].
      * pose proof (fetchArchived_outcome Date_parse m c options cache) as Ho.
        cbv zeta in Ho. fold type fetchAll before p in Ho. rewrite Hq in Ho.
        rewrite Ho. split; [reflexivity|]. split; [reflexivity|].
        intros [Hu|Hd]; contradiction.
  - intros Hform t Hd.
    pose proof (set_before_identifier_general Date_parse m c type fetchAll before
                  (makeURLSearchParams [("limit", FetchArchivedThreadOptions.limit options)])
                  t Hform Hj Hd) as Hq.
    destruct (fetchArchived_issues Date_parse m c options cache _ Hq) as (Hi & Hp & Hquery).
    fold p in Hi, Hp, Hquery. fold type fetchAll in Hp. rewrite Hpath in Hp.
    split; [exact Hp|]. unfold sent_before. rewrite Hquery. apply get_set_eq.
Qed.

Lemma fetchArchived_other_type_witness :
  let p := Sample.fetchArchived Sample.manager Sample.client
             (Sample.archived_options (VString "all") VUndefined
                (VString "2023-01-01T00:00:00.000Z") VUndefined) VUndefined in
  sent_before p = None
  /\ request_path p = Some (Routes.channelThreads "900000000000000001" (VString "all")).
Proof.
  intros p.
  destruct (fetchArchived_other_type Sample.Date_parse Sample.manager Sample.client
              (Sample.archived_options (VString "all") VUndefined
                 (VString "2023-01-01T00:00:00.000Z") VUndefined) VUndefined)
    as [H _]; [discriminate | discriminate | reflexivity |].
  destruct (H eq_refl) as (H1 & _ & H3).
  split; [exact H1|]. apply H3. right. vm_compute. discriminate.
Defined.

(** ** [_mapThreads] and its callers: what comes back *)

(** X9.  [fetchActive] does not reject before its request: it reads the
    active threads of the whole guild, without a query.  Over a client
    whose channel cache files every thread under its own identifier, and
    on a response that gives every identifier with one parent, it hands
    back only threads that belong to the bound channel, each filed under
    its own identifier; [hasMore] is [false] unless the response says
    otherwise. *)
Theorem fetchActive_listing m cache :
  exists k,
    fetchActive m cache
    = RestGet (Routes.guildActiveThreads (Channel.guild_id (ThreadManager.channel m)))
        None k
    /\ forall raw client,
       consistent_client client = true ->
       agree_on_parent (RawThreads.threads raw) ->
       exists fetched client',
         k raw client = Some (fetched, client')
         /\ (forall key r, In (key, r) (FetchedThreads.threads fetched) ->
             exists t, deref client' r = Some t
               /\ ThreadChannel.parentId t = Some (Channel.id (ThreadManager.channel m))
               /\ ThreadChannel.id t = key)
         /\ (nullish (RawThreads.has_more raw) = true ->
             FetchedThreads.hasMore fetched = VBool false)
         /\ (nullish (RawThreads.has_more raw) = false ->
             FetchedThreads.hasMore fetched = RawThreads.has_more raw).
Proof.
  unfold fetchActive. cbv zeta. eexists. split; [reflexivity|].
  intros raw client Hc Hagree. cbv beta.
  destruct (mapThreads_scoped raw client (ThreadManager.channel m) None
              (default cache (VBool true)) (consistent_wf _ Hc) (fun _ => conj Hc Hagree))
    as (fetched & client' & Hm & Hall & Hmore).
  exists fetched, client'. split; [exact Hm|]. split; [exact Hall|].
  rewrite Hmore. unfold coalesce. split; intros ->; reflexivity.
Qed.

Lemma fetchActive_listing_witness :
  exists k,
    fetchActive Sample.manager VUndefined
    = RestGet (Routes.guildActiveThreads "800000000000000001") None k
    /\ exists fetched client',
         k (Sample.listing [Sample.raw_a; Sample.raw_b] []) Sample.client
         = Some (fetched, client')
         /\ (forall key r, In (key, r) (FetchedThreads.threads fetched) ->
             exists t, deref client' r = Some t
               /\ ThreadChannel.parentId t = Some "900000000000000001"
               /\ ThreadChannel.id t = key)
         /\ FetchedThreads.hasMore fetched = VBool false.
Proof.
  destruct (fetchActive_listing Sample.manager VUndefined) as (k & Hk & H).
  exists k. split; [exact Hk|].
  destruct (H (Sample.listing [Sample.raw_a; Sample.raw_b] []) Sample.client eq_refl)
    as (fetched & client' & H1 & H2 & H3 & _).
  { intros raw1 raw2 [<-|[<-|[]]] [<-|[<-|[]]]; vm_compute; congruence. }
  exists fetched, client'. split; [exact H1|]. split; [exact H2|]. exact (H3 eq_refl).
Defined.

Example fetchActive_runs :
  exists k,
    fetchActive Sample.manager VUndefined
    = RestGet (Routes.guildActiveThreads "800000000000000001") None k
    /\ k (Sample.listing [Sample.raw_a; Sample.raw_b; Sample.raw_d] []) Sample.client
       = Some ({| FetchedThreads.threads :=
                    [("111111111111111111", 0%nat); ("444444444444444444", 3%nat)];
                  FetchedThreads.hasMore := VBool false |},
               {| Client.objects := Client.objects Sample.client
                                    ++ [createChannel Sample.raw_d];
                  Client.channels := Client.channels Sample.client
                                     ++ [("444444444444444444", 3%nat)] |}).
Proof. eexists. split; [reflexivity|]. vm_compute. reflexivity. Qed.

(** X10.  Whatever read [fetchArchived] issues, on either route and with
    any cursor: over a client whose channel cache files every thread under
    its own identifier, and on a response that gives every identifier with
    one parent, its result holds only threads of the bound channel, each
    filed under its own identifier. *)
Theorem fetchArchived_listing Date_parse m c options cache path query k :
  fetchArchived Date_parse m c options cache = RestGet path query k ->
  forall raw client,
  consistent_client client = true ->
  agree_on_parent (RawThreads.threads raw) ->
  exists fetched client',
    k raw client = Some (fetched, client')
    /\ (forall key r, In (key, r) (FetchedThreads.threads fetched) ->
        exists t, deref client' r = Some t
          /\ ThreadChannel.parentId t = Some (Channel.id (ThreadManager.channel m))
          /\ ThreadChannel.id t = key)
    /\ (nullish (RawThreads.has_more raw) = true ->
        FetchedThreads.hasMore fetched = VBool false).
Proof.
  unfold fetchArchived. cbv zeta.
  destruct (set_before _ _ _ _ _ _ _); [|discriminate].
  intros H. injection H as _ _ <-. intros raw client Hc Hagree. cbv beta.
  destruct (mapThreads_scoped raw client (ThreadManager.channel m) None
              (default cache (VBool true)) (consistent_wf _ Hc) (fun _ => conj Hc Hagree))
    as (fetched & client' & Hm & Hall & Hmore).
  exists fetched, client'. split; [exact Hm|]. split; [exact Hall|].
  rewrite Hmore. unfold coalesce. intros ->. reflexivity.
Qed.

Lemma fetchArchived_listing_witness :
  exists k fetched client',
    Sample.fetchArchived Sample.manager Sample.client
      (Sample.archived_options VUndefined VUndefined VUndefined VUndefined) VUndefined
    = RestGet (Routes.channelThreads "900000000000000001" (VString "public")) (Some []) k
    /\ k (Sample.listing [Sample.raw_b; Sample.raw_d] []) Sample.client
       = Some (fetched, client')
    /\ (forall key r, In (key, r) (FetchedThreads.threads fetched) ->
        exists t, deref client' r = Some t
          /\ ThreadChannel.parentId t = Some "900000000000000001"
          /\ ThreadChannel.id t = key).
Proof.
  eexists.
  destruct (fetchArchived_listing Sample.Date_parse Sample.manager Sample.client
              (Sample.archived_options VUndefined VUndefined VUndefined VUndefined)
              VUndefined _ _ _ eq_refl
              (Sample.listing [Sample.raw_b; Sample.raw_d] []) Sample.client eq_refl)
    as (fetched & client' & H1 & H2 & _).
  { intros raw1 raw2 [<-|[<-|[]]] [<-|[<-|[]]]; vm_compute; congruence. }
  exists fetched, client'. split; [reflexivity|]. split; [exact H1|exact H2].
Defined.

Lemma set_absent {V : Type} (k : string) (v : V) (c : Collection.t V) :
  Collection.get k c = None -> Collection.set k v c = c ++ [(k, v)].
Proof.
  induction c as [|[k' v'] c IH]; cbn [Collection.get Collection.set]; [reflexivity|].
  destruct (String.eqb k k'); [discriminate|].
  intros H. cbn. now rewrite IH.
Qed.

Lemma set_length {V : Type} (k : string) (v : V) (c : Collection.t V) :
  (length (Collection.set k v c) <= S (length c))%nat.
Proof.
  induction c as [|[k' v'] c IH]; cbn [Collection.set]; [cbn; lia|].
  destruct (String.eqb k k'); cbn [length]; lia.
Qed.

(** X11.  [_add] never replaces and never removes: the cache after it is
    the cache before it, or that cache with the thread appended under its
    identifier when the identifier was new.  So every identifier keeps the
    instance it had, the order of insertion stands, and identifiers stay
    unique. *)
Theorem add_frame m c thread r m' :
  _add m c thread = Some (r, m') ->
  ThreadManager.channel m' = ThreadManager.channel m
  /\ (exists t, deref c thread = Some t
        /\ ((ThreadManager.cache m' = ThreadManager.cache m
             /\ Collection.get (ThreadChannel.id t) (ThreadManager.cache m) = Some r)
            \/ (ThreadManager.cache m'
                = ThreadManager.cache m ++ [(ThreadChannel.id t, thread)]
                /\ Collection.get (ThreadChannel.id t) (ThreadManager.cache m) = None
                /\ r = thread)))
  /\ (forall k v, Collection.get k (ThreadManager.cache m) = Some v ->
      Collection.get k (ThreadManager.cache m') = Some v)
  /\ (List.NoDup (Collection.keys (ThreadManager.cache m)) ->
      List.NoDup (Collection.keys (ThreadManager.cache m'))).
Proof.
  unfold _add. destruct (deref c thread) as [t|]; cbn; [|discriminate].
  destruct (Collection.get (ThreadChannel.id t) (ThreadManager.cache m)) as [e|] eqn:He.
  - intros [= <- <-]. split; [reflexivity|]. split; [eauto|]. auto.
  - intros [= <- <-]. cbn [ThreadManager.channel ThreadManager.cache].
    split; [reflexivity|]. split; [|split].
    + exists t. split; [reflexivity|]. right. rewrite (set_absent _ _ _ He). auto.
    + intros k v Hk. rewrite get_set_ne; [exact Hk|]. intros <-. congruence.
    + apply set_keys_NoDup.
Qed.

Lemma add_frame_witness :
  exists m',
    _add Sample.manager Sample.client 1%nat = Some (1%nat, m')
    /\ ThreadManager.cache m'
       = [("111111111111111111", 0%nat); ("333333333333333333", 2%nat);
          ("222222222222222222", 1%nat)]
    /\ (forall k v, Collection.get k (ThreadManager.cache Sample.manager) = Some v ->
        Collection.get k (ThreadManager.cache m') = Some v).
Proof.
  eexists. split; [reflexivity|]. split; [reflexivity|].
  apply (add_frame Sample.manager Sample.client 1%nat 1%nat _ eq_refl).
Defined.

Lemma mapThreads_step_coll opts coll c raw coll' c' :
  mapThreads_step opts (coll, c) raw = Some (coll', c') ->
  (coll' = coll \/ exists k r, coll' = Collection.set k r coll)
  /\ c' = snd (channels_add c raw
                 (match MapOptions.guild opts with
                  | Some g => Some g
                  | None => Channel.guild_id <$> MapOptions.parent opts
                  end) (MapOptions.cache opts)).
Proof.
  unfold mapThreads_step.
  destruct (channels_add c raw _ (MapOptions.cache opts)) as [thread c1].
  destruct (deref c1 thread) as [t|]; cbn; [|discriminate].
  destruct (MapOptions.parent opts) as [parent|];
    [destruct (negb (bool_decide _))|]; intros [= <- <-]; eauto.
Qed.

(** X12.  The mapping [_mapThreads] returns holds one entry for an
    identifier, however often the response repeats it, and never more
    entries than the response has thread payloads. *)
Theorem mapThreads_keys rawThreads client opts fetched client' :
  _mapThreads rawThreads client opts = Some (fetched, client') ->
  List.NoDup (Collection.keys (FetchedThreads.threads fetched))
  /\ (Collection.size (FetchedThreads.threads fetched)
      <= length (RawThreads.threads rawThreads))%nat.
Proof.
  intros H. apply mapThreads_inv in H as (coll & c1 & Hr & _ & ->).
  cbn [FetchedThreads.threads]. unfold Collection.size.
  assert (Hgen : forall raws coll0 c0 coll1 c1',
             reduce_threads opts raws (coll0, c0) = Some (coll1, c1') ->
             List.NoDup (Collection.keys coll0) ->
             List.NoDup (Collection.keys coll1)
             /\ (length coll1 <= length coll0 + length raws)%nat).
  { induction raws as [|raw rest IH]; intros coll0 c0 coll1 c1' Hred Hnd.
    - cbn in Hred. injection Hred as <- <-. split; [exact Hnd|lia].
    - cbn [reduce_threads] in Hred.
      destruct (mapThreads_step opts (coll0, c0) raw) as [[coll2 c2]|] eqn:Hs;
        cbn in Hred; [|discriminate].
      apply mapThreads_step_coll in Hs as [[-> | (k & r & ->)] _].
      + destruct (IH _ _ _ _ Hred Hnd) as [H1 H2]. split; [exact H1|cbn; lia].
      + destruct (IH _ _ _ _ Hred (set_keys_NoDup k r coll0 Hnd)) as [H1 H2].
        split; [exact H1|]. pose proof (set_length k r coll0). cbn [length]. lia. }
  destruct (Hgen _ _ _ _ _ Hr) as [H1 H2]; [constructor|]. split; [exact H1|].
  cbn in H2. exact H2.
Qed.

Lemma mapThreads_keys_witness :
  exists fetched client',
    _mapThreads (Sample.listing [Sample.raw_d; Sample.raw_a; Sample.raw_d] [])
      Sample.client (Sample.scoped (VBool false))
    = Some (fetched, client')
    /\ List.NoDup (Collection.keys (FetchedThreads.threads fetched))
    /\ (Collection.size (FetchedThreads.threads fetched) <= 3)%nat.
Proof.
  eexists _, _. split; [reflexivity|].
  apply (mapThreads_keys (Sample.listing [Sample.raw_d; Sample.raw_a; Sample.raw_d] [])
           Sample.client (Sample.scoped (VBool false)) _ _ eq_refl).
Defined.

(** ** [_mapThreads]: the channel cache *)

Lemma truthy_default (v d : Value) : truthy v = true -> default v d = v.
Proof. destruct v; cbn; try reflexivity. discriminate. Qed.

Lemma mapThreads_step_round_trip opts coll c raw :
  consistent_client c = true -> truthy (MapOptions.cache opts) = true ->
  (forall k r, In (k, r) coll -> Collection.get k (Client.channels c) = Some r) ->
  exists coll' c',
    mapThreads_step opts (coll, c) raw = Some (coll', c')
    /\ consistent_client c' = true
    /\ (forall k r, In (k, r) coll' -> Collection.get k (Client.channels c') = Some r).
Proof.
  intros Hc Hcache Hinv. unfold mapThreads_step.
  destruct (channels_add c raw _ (MapOptions.cache opts)) as [thread c1] eqn:Hadd.
  destruct (channels_add_consistent _ _ _ _ _ _ Hc Hadd)
    as (Hc1 & (t & Ht & Hid & _) & _ & _ & Hold & Hnew).
  rewrite (truthy_default _ (VBool true) Hcache), Hcache in Hnew.
  rewrite Ht. cbn.
  assert (Hkept : forall k r, In (k, r) coll ->
                    Collection.get k (Client.channels c1) = Some r).
  { intros k r Hin. specialize (Hinv k r Hin).
    destruct (Collection.get (RawThread.id raw) (Client.channels c)) as [r0|] eqn:Hget.
    - destruct (Hold r0 eq_refl) as [_ ->]. exact Hinv.
    - rewrite (Hnew eq_refl). rewrite get_set_ne; [exact Hinv|].
      intros <-. congruence. }
  assert (Hthread : Collection.get (ThreadChannel.id t) (Client.channels c1) = Some thread).
  { rewrite Hid.
    destruct (Collection.get (RawThread.id raw) (Client.channels c)) as [r0|] eqn:Hget.
    - destruct (Hold r0 eq_refl) as [-> ->]. exact Hget.
    - rewrite (Hnew eq_refl). apply get_set_eq. }
  assert (Hset : forall k r, In (k, r) (Collection.set (ThreadChannel.id t) thread coll) ->
                   Collection.get k (Client.channels c1) = Some r).
  { intros k r Hin. apply in_set in Hin as [[= -> ->]|Hin]; auto. }
  destruct (MapOptions.parent opts) as [parent|];
    [destruct (negb (bool_decide _))|]; eauto 10.
Qed.

Lemma reduce_threads_round_trip opts raws coll c :
  consistent_client c = true -> truthy (MapOptions.cache opts) = true ->
  (forall k r, In (k, r) coll -> Collection.get k (Client.channels c) = Some r) ->
  exists coll' c',
    reduce_threads opts raws (coll, c) = Some (coll', c')
    /\ consistent_client c' = true
    /\ (forall k r, In (k, r) coll' -> Collection.get k (Client.channels c') = Some r).
Proof.
  revert coll c. induction raws as [|raw rest IH]; intros coll c Hc Hcache Hinv.
  - exists coll, c. cbn. auto.
  - destruct (mapThreads_step_round_trip opts coll c raw Hc Hcache Hinv)
      as (coll1 & c1 & Hs & Hc1 & Hinv1).
    destruct (IH coll1 c1 Hc1 Hcache Hinv1) as (coll2 & c2 & Hr & Hc2 & Hinv2).
    exists coll2, c2. cbn [reduce_threads]. rewrite Hs. cbn. auto.
Qed.

(** X14.  With a truthy [cache] option, over a client whose channel
    cache files every thread under its own identifier, what [_mapThreads]
    returns can be fetched back from [client.channels.cache]: every entry
    of the mapping is the instance the cache holds for that identifier. *)
Theorem mapThreads_round_trip rawThreads client opts :
  consistent_client client = true -> truthy (MapOptions.cache opts) = true ->
  exists fetched client',
    _mapThreads rawThreads client opts = Some (fetched, client')
    /\ consistent_client client' = true
    /\ (forall k r, In (k, r) (FetchedThreads.threads fetched) ->
        Collection.get k (Client.channels client') = Some r
        /\ exists t, deref client' r = Some t /\ ThreadChannel.id t = k).
Proof.
  intros Hc Hcache.
  assert (Hempty : forall k (r : Ref), In (k, r) Collection.empty ->
                     Collection.get k (Client.channels client) = Some r)
    by (intros k r []).
  destruct (reduce_threads_round_trip opts (RawThreads.threads rawThreads)
              Collection.empty client Hc Hcache Hempty) as (coll & c1 & Hr & Hc1 & Hinv).
  destruct (attach_members_ok (RawThreads.members rawThreads) c1 (consistent_wf _ Hc1))
    as (c2 & Hm & _ & Hp2).
  pose proof (attach_members_channels _ _ _ Hm) as Hch.
  pose proof (consistent_preserved _ _ Hc1 Hp2 Hch) as Hc2.
  exists {| FetchedThreads.threads := coll;
            FetchedThreads.hasMore :=
              coalesce (RawThreads.has_more rawThreads) (VBool false) |}, c2.
  split; [exact (mapThreads_intro _ _ _ _ _ _ Hr Hm)|]. split; [exact Hc2|].
  cbn [FetchedThreads.threads]. intros k r Hin.
  assert (Hg : Collection.get k (Client.channels c2) = Some r)
    by (rewrite Hch; auto).
  split; [exact Hg|]. exact (consistent_get _ _ _ Hc2 Hg).
Qed.

Lemma mapThreads_round_trip_witness :
  exists fetched client',
    _mapThreads (Sample.listing [Sample.raw_a; Sample.raw_d] []) Sample.client
      (Sample.scoped (VBool true))
    = Some (fetched, client')
    /\ consistent_client client' = true
    /\ (forall k r, In (k, r) (FetchedThreads.threads fetched) ->
        Collection.get k (Client.channels client') = Some r
        /\ exists t, deref client' r = Some t /\ ThreadChannel.id t = k).
Proof.
  apply (mapThreads_round_trip (Sample.listing [Sample.raw_a; Sample.raw_d] [])
           Sample.client (Sample.scoped (VBool true))); reflexivity.
Defined.

(** ** [_mapThreads]: nothing of the parent is lost *)

Lemma mapThreads_step_keeps parent guild cache coll c raw k0 :
  let opts := {| MapOptions.parent := Some parent; MapOptions.guild := guild;
                 MapOptions.cache := cache |} in
  consistent_client c = true ->
  (forall r t, Collection.get k0 (Client.channels c) = Some r -> deref c r = Some t ->
     ThreadChannel.parentId t = Some (Channel.id parent)) ->
  (forall r, Collection.get k0 coll = Some r ->
     exists t, deref c r = Some t /\ ThreadChannel.id t = k0
       /\ ThreadChannel.parentId t = Some (Channel.id parent)) ->
  (RawThread.id raw = k0 -> RawThread.parent_id raw = Some (Channel.id parent)) ->
  exists coll' c',
    mapThreads_step opts (coll, c) raw = Some (coll', c')
    /\ consistent_client c' = true
    /\ (forall r t, Collection.get k0 (Client.channels c') = Some r -> deref c' r = Some t ->
        ThreadChannel.parentId t = Some (Channel.id parent))
    /\ (forall r, Collection.get k0 coll' = Some r ->
        exists t, deref c' r = Some t /\ ThreadChannel.id t = k0
          /\ ThreadChannel.parentId t = Some (Channel.id parent))
    /\ (is_Some (Collection.get k0 coll) -> is_Some (Collection.get k0 coll'))
    /\ (RawThread.id raw = k0 -> is_Some (Collection.get k0 coll')).
Proof.
  intros opts Hc HG HJ Hraw. unfold mapThreads_step, opts.
  cbn [MapOptions.parent MapOptions.guild MapOptions.cache].
  destruct (channels_add c raw _ cache) as [thread c1] eqn:Hadd.
  destruct (channels_add_consistent _ _ _ _ _ _ Hc Hadd)
    as (Hc1 & (t & Ht & Hid & Hrefreshed & Hcreated & Hsame) & Hwas & Hframe & Hold & Hnew).
  rewrite Ht. cbn.
  assert (Hflag : {truthy (default cache (VBool true)) = true}
                  + {truthy (default cache (VBool true)) = false})
    by (destruct (truthy (default cache (VBool true))); auto).
  (* The thread of a payload of [k0] is of the parent. *)
  assert (Hpar : RawThread.id raw = k0 ->
                 ThreadChannel.parentId t = Some (Channel.id parent)).
  { intros Hk. destruct Hflag as [Hflag|Hflag].
    - rewrite (Hrefreshed Hflag). auto.
    - destruct (Collection.get (RawThread.id raw) (Client.channels c)) as [r0|] eqn:Hget.
      + destruct (Hold r0 eq_refl) as [-> _].
        destruct (consistent_get _ _ _ Hc Hget) as (t0 & Ht0 & _).
        rewrite (Hsame t0 Ht0 Hflag). rewrite Hk in Hget. eauto.
      + rewrite (Hcreated eq_refl). cbn. auto. }
  (* An object that was there, other than a thread of [k0], is as it was. *)
  assert (Hkept : forall r t0, deref c r = Some t0 ->
                    (r = thread -> RawThread.id raw = k0) ->
                    forall t1, deref c1 r = Some t1 ->
                    ThreadChannel.parentId t0 = Some (Channel.id parent) ->
                    ThreadChannel.parentId t1 = Some (Channel.id parent)
                    /\ (ThreadChannel.id t0 = k0 -> ThreadChannel.id t1 = k0)).
  { intros r t0 Ht0 Hk t1 Ht1 Hp0. destruct (decide (r = thread)) as [->|Hne].
    - rewrite Ht in Ht1. injection Ht1 as <-. split; [auto|]. intros _. rewrite Hid. auto.
    - rewrite (Hframe r t0 Hne Ht0) in Ht1. injection Ht1 as <-. auto. }
  assert (HG1 : forall r t1, Collection.get k0 (Client.channels c1) = Some r ->
                  deref c1 r = Some t1 ->
                  ThreadChannel.parentId t1 = Some (Channel.id parent)).
  { intros r t1 Hg Hd.
    destruct (Collection.get (RawThread.id raw) (Client.channels c)) as [r0|] eqn:Hget.
    - destruct (Hold r0 eq_refl) as [-> Hch]. rewrite Hch in Hg.
      destruct (consistent_get _ _ _ Hc Hg) as (t0 & Ht0 & Hid0).
      apply (Hkept r t0 Ht0); [|exact Hd|eauto].
      intros ->. destruct (Hwas t0 Ht0) as [_ Hidraw]. congruence.
    - assert (Hcase : (RawThread.id raw = k0 /\ r = thread)
                      \/ Collection.get k0 (Client.channels c) = Some r).
      { rewrite (Hnew eq_refl) in Hg.
        destruct (truthy (default cache (VBool true))); [|now right].
        destruct (String.eqb (RawThread.id raw) k0) eqn:E.
        - apply String.eqb_eq in E. left. rewrite E, get_set_eq in Hg.
          injection Hg as <-. auto.
        - apply String.eqb_neq in E. right. now rewrite get_set_ne in Hg. }
      destruct Hcase as [(Hk & ->) | Hgc].
      + rewrite Ht in Hd. injection Hd as <-. auto.
      + destruct (consistent_get _ _ _ Hc Hgc) as (t0 & Ht0 & _).
        apply (Hkept r t0 Ht0); [|exact Hd|eauto].
        intros ->. destruct (Hwas t0 Ht0) as [Hsome _]. congruence. }
  assert (HJ1 : forall r, Collection.get k0 coll = Some r ->
                  exists t1, deref c1 r = Some t1 /\ ThreadChannel.id t1 = k0
                    /\ ThreadChannel.parentId t1 = Some (Channel.id parent)).
  { intros r Hg. destruct (HJ r Hg) as (t0 & Ht0 & Hid0 & Hp0).
    assert (Hk : r = thread -> RawThread.id raw = k0).
    { intros ->. destruct (Hwas t0 Ht0) as [_ Hidraw]. congruence. }
    destruct (decide (r = thread)) as [->|Hne].
    - exists t. split; [exact Ht|]. split; [rewrite Hid; auto|auto].
    - exists t0. split; [now apply Hframe|auto]. }
  destruct (bool_decide (ThreadChannel.parentId t = Some (Channel.id parent))) eqn:Hdec;
    cbn [negb].
  - apply bool_decide_eq_true in Hdec.
    eexists _, c1. split; [reflexivity|]. split; [exact Hc1|]. split; [exact HG1|].
    split; [|split; [apply get_set_is_Some|]].
    + intros r Hg. destruct (String.eqb (ThreadChannel.id t) k0) eqn:E.
      * apply String.eqb_eq in E. rewrite E, get_set_eq in Hg. injection Hg as <-. eauto.
      * apply String.eqb_neq in E. rewrite get_set_ne in Hg by exact E. auto.
    + intros Hk. rewrite Hid, Hk, get_set_eq. eauto.
  - exists coll, c1. split; [reflexivity|]. split; [exact Hc1|]. split; [exact HG1|].
    split; [exact HJ1|]. split; [auto|]. intros Hk. apply bool_decide_eq_false in Hdec.
    exfalso. apply Hdec. auto.
Qed.

Lemma reduce_threads_keeps parent guild cache raws coll c k0 :
  let opts := {| MapOptions.parent := Some parent; MapOptions.guild := guild;
                 MapOptions.cache := cache |} in
  consistent_client c = true ->
  (forall r t, Collection.get k0 (Client.channels c) = Some r -> deref c r = Some t ->
     ThreadChannel.parentId t = Some (Channel.id parent)) ->
  (forall r, Collection.get k0 coll = Some r ->
     exists t, deref c r = Some t /\ ThreadChannel.id t = k0
       /\ ThreadChannel.parentId t = Some (Channel.id parent)) ->
  (forall raw, In raw raws -> RawThread.id raw = k0 ->
     RawThread.parent_id raw = Some (Channel.id parent)) ->
  exists coll' c',
    reduce_threads opts raws (coll, c) = Some (coll', c')
    /\ consistent_client c' = true
    /\ (forall r, Collection.get k0 coll' = Some r ->
        exists t, deref c' r = Some t /\ ThreadChannel.id t = k0
          /\ ThreadChannel.parentId t = Some (Channel.id parent))
    /\ (is_Some (Collection.get k0 coll) \/ (exists raw, In raw raws /\ RawThread.id raw = k0) ->
        is_Some (Collection.get k0 coll')).
Proof.
  intros opts. revert coll c.
  induction raws as [|raw rest IH]; intros coll c Hc HG HJ Hraws.
  - exists coll, c. split; [reflexivity|]. split; [exact Hc|]. split; [exact HJ|].
    intros [H|(raw & [] & _)]. exact H.
  - destruct (mapThreads_step_keeps parent guild cache coll c raw k0 Hc HG HJ)
      as (coll1 & c1 & Hs & Hc1 & HG1 & HJ1 & Hmono & Hhere).
    { apply Hraws. now left. }
    destruct (IH coll1 c1 Hc1 HG1 HJ1) as (coll2 & c2 & Hr & Hc2 & HJ2 & Hfinal).
    { intros raw' Hin. apply Hraws. now right. }
    exists coll2, c2. cbn [reduce_threads]. fold opts in Hs. rewrite Hs. cbn.
    split; [exact Hr|]. split; [exact Hc2|]. split; [exact HJ2|].
    intros [H|(raw' & [<-|Hin] & Hk)]; apply Hfinal; eauto.
Qed.

(** X15.  The filter of [_mapThreads] loses no thread of the parent.  Over
    a client whose channel cache files every thread under its own
    identifier: a payload whose identifier the response always gives with
    the bound parent, and whose cached entity, if there is one, belongs to
    that parent, has its entity in the mapping, under its identifier. *)
Theorem mapThreads_keeps_threads_of_parent rawThreads client parent guild cache raw :
  consistent_client client = true ->
  In raw (RawThreads.threads rawThreads) ->
  (forall raw', In raw' (RawThreads.threads rawThreads) ->
     RawThread.id raw' = RawThread.id raw ->
     RawThread.parent_id raw' = Some (Channel.id parent)) ->
  (forall r t, Collection.get (RawThread.id raw) (Client.channels client) = Some r ->
     deref client r = Some t -> ThreadChannel.parentId t = Some (Channel.id parent)) ->
  exists fetched client' r t,
    _mapThreads rawThreads client
      {| MapOptions.parent := Some parent; MapOptions.guild := guild;
         MapOptions.cache := cache |}
    = Some (fetched, client')
    /\ Collection.get (RawThread.id raw) (FetchedThreads.threads fetched) = Some r
    /\ deref client' r = Some t
    /\ ThreadChannel.id t = RawThread.id raw
    /\ ThreadChannel.parentId t = Some (Channel.id parent).
Proof.
  intros Hc Hin Hraws HG.
  destruct (reduce_threads_keeps parent guild cache (RawThreads.threads rawThreads)
              Collection.empty client (RawThread.id raw) Hc HG)
    as (coll & c1 & Hr & Hc1 & HJ & Hsome); [discriminate|exact Hraws|].
  destruct (attach_members_ok (RawThreads.members rawThreads) c1 (consistent_wf _ Hc1))
    as (c2 & Hm & _ & Hp2).
  destruct Hsome as [r Hget]; [right; eauto|].
  destruct (HJ r Hget) as (t1 & Ht1 & Hid1 & Hpar1).
  destruct (Hp2 r t1 Ht1) as (t2 & Ht2 & Hpar2 & Hid2).
  eexists _, c2, r, t2. split; [exact (mapThreads_intro _ _ _ _ _ _ Hr Hm)|].
  cbn [FetchedThreads.threads]. split; [exact Hget|]. split; [exact Ht2|].
  split; congruence.
Qed.

Lemma mapThreads_keeps_threads_of_parent_witness :
  exists fetched client' r t,
    _mapThreads (Sample.listing [Sample.raw_b; Sample.raw_d; Sample.raw_a] [])
      Sample.client (Sample.scoped (VBool true))
    = Some (fetched, client')
    /\ Collection.get "444444444444444444" (FetchedThreads.threads fetched) = Some r
    /\ deref client' r = Some t
    /\ ThreadChannel.id t = "444444444444444444"
    /\ ThreadChannel.parentId t = Some "900000000000000001".
Proof.
  apply (mapThreads_keeps_threads_of_parent
           (Sample.listing [Sample.raw_b; Sample.raw_d; Sample.raw_a] [])
           Sample.client Sample.parent None (VBool true) Sample.raw_d).
  - reflexivity.
  - right. left. reflexivity.
  - intros raw' [<-|[<-|[<-|[]]]]; cbn; congruence.
  - intros r t H. discriminate H.
Defined.

(** ** [_mapThreads] without a parent *)

Lemma filed_by_id_preserved (c c' : Client.t) (coll : Collection.t Ref) :
  preserves c c' -> filed_by_id c coll -> filed_by_id c' coll.
Proof.
  intros Hp Hf k r Hin. destruct (Hf k r Hin) as (t & Ht & Hid).
  destruct (Hp r t Ht) as (t' & Ht' & _ & Hid'). exists t'. split; congruence.
Qed.

Lemma mapThreads_step_unscoped guild cache coll c raw :
  let opts := {| MapOptions.parent := None; MapOptions.guild := guild;
                 MapOptions.cache := cache |} in
  consistent_client c = true -> filed_by_id c coll ->
  exists coll' c',
    mapThreads_step opts (coll, c) raw = Some (coll', c')
    /\ consistent_client c' = true /\ filed_by_id c' coll'
    /\ (forall k, is_Some (Collection.get k coll) -> is_Some (Collection.get k coll'))
    /\ is_Some (Collection.get (RawThread.id raw) coll').
Proof.
  intros opts Hc Hf. unfold mapThreads_step, opts.
  cbn [MapOptions.parent MapOptions.guild MapOptions.cache].
  destruct (channels_add c raw _ cache) as [thread c1] eqn:Hadd.
  destruct (channels_add_consistent _ _ _ _ _ _ Hc Hadd) as (Hc1 & (t & Ht & Hid & _) & _).
  pose proof (channels_add_keeps_ids _ _ _ _ _ _ Hc Hadd) as Hext.
  rewrite Ht. cbn.
  eexists _, c1. split; [reflexivity|]. split; [exact Hc1|]. split; [|split].
  - intros k r Hin. apply in_set in Hin as [[= -> ->]|Hin]; [eauto|].
    destruct (Hf k r Hin) as (t0 & Ht0 & Hid0).
    destruct (Hext r t0 Ht0) as (t0' & Ht0' & Hid0'). exists t0'. split; congruence.
  - intros k. apply get_set_is_Some.
  - rewrite Hid, get_set_eq. eauto.
Qed.

Lemma reduce_threads_unscoped guild cache raws coll c :
  let opts := {| MapOptions.parent := None; MapOptions.guild := guild;
                 MapOptions.cache := cache |} in
  consistent_client c = true -> filed_by_id c coll ->
  exists coll' c',
    reduce_threads opts raws (coll, c) = Some (coll', c')
    /\ consistent_client c' = true /\ filed_by_id c' coll'
    /\ (forall k, is_Some (Collection.get k coll) -> is_Some (Collection.get k coll'))
    /\ (forall raw, In raw raws -> is_Some (Collection.get (RawThread.id raw) coll')).
Proof.
  intros opts. revert coll c. induction raws as [|raw rest IH]; intros coll c Hc Hf.
  - exists coll, c. split; [reflexivity|]. split; [exact Hc|]. split; [exact Hf|].
    split; [auto|]. intros raw [].
  - destruct (mapThreads_step_unscoped guild cache coll c raw Hc Hf)
      as (coll1 & c1 & Hs & Hc1 & Hf1 & Hmono1 & Hhere).
    destruct (IH coll1 c1 Hc1 Hf1) as (coll2 & c2 & Hr & Hc2 & Hf2 & Hmono2 & Hrest).
    exists coll2, c2. cbn [reduce_threads]. fold opts in Hs. rewrite Hs. cbn.
    split; [exact Hr|]. split; [exact Hc2|]. split; [exact Hf2|]. split; [auto|].
    intros raw' [<-|Hin]; auto.
Qed.

(** X16.  Mapped without a parent, a listing is not filtered: over a
    client whose channel cache files every thread under its own
    identifier, every thread payload of the response has its entity in the
    mapping, under the identifier of the payload. *)
Theorem mapThreads_without_parent rawThreads client guild cache :
  consistent_client client = true ->
  exists fetched client',
    _mapThreads rawThreads client
      {| MapOptions.parent := None; MapOptions.guild := guild; MapOptions.cache := cache |}
    = Some (fetched, client')
    /\ forall raw, In raw (RawThreads.threads rawThreads) ->
       exists r t,
         Collection.get (RawThread.id raw) (FetchedThreads.threads fetched) = Some r
         /\ deref client' r = Some t
         /\ ThreadChannel.id t = RawThread.id raw.
Proof.
  intros Hc.
  assert (Hempty : filed_by_id client Collection.empty) by (intros k r []).
  destruct (reduce_threads_unscoped guild cache (RawThreads.threads rawThreads)
              Collection.empty client Hc Hempty)
    as (coll & c1 & Hr & Hc1 & Hf1 & _ & Hall).
  destruct (attach_members_ok (RawThreads.members rawThreads) c1 (consistent_wf _ Hc1))
    as (c2 & Hm & _ & Hp2).
  eexists _, c2. split; [exact (mapThreads_intro _ _ _ _ _ _ Hr Hm)|].
  cbn [FetchedThreads.threads]. intros raw Hin.
  destruct (Hall raw Hin) as [r Hget].
  destruct (filed_by_id_preserved _ _ _ Hp2 Hf1 _ _ (get_In _ _ _ Hget)) as (t & Ht & Hid).
  eauto.
Qed.

Lemma mapThreads_without_parent_witness :
  exists fetched client',
    _mapThreads (Sample.listing [Sample.raw_a; Sample.raw_b] []) Sample.client
      {| MapOptions.parent := None; MapOptions.guild := Some "800000000000000001";
         MapOptions.cache := VBool true |}
    = Some (fetched, client')
    /\ forall raw, In raw [Sample.raw_a; Sample.raw_b] ->
       exists r t,
         Collection.get (RawThread.id raw) (FetchedThreads.threads fetched) = Some r
         /\ deref client' r = Some t
         /\ ThreadChannel.id t = RawThread.id raw.
Proof.
  apply (mapThreads_without_parent (Sample.listing [Sample.raw_a; Sample.raw_b] [])
           Sample.client (Some "800000000000000001") (VBool true)).
  reflexivity.
Defined.
